(** * WikiToGrok: the URL transformer, the settings and the pages

    A shallow embedding of the sources of the extension and of the
    platform functions they call, followed by the properties that were
    checked against it.

    Layout:
    - [JS]      ECMAScript strings (sequences of UTF-16 code units),
                completions (normal return or thrown exception), the
                [String.prototype] and [Array.prototype] methods the
                source calls, and [decodeURIComponent];
    - [RegExp]  the fragment of ECMAScript regular expressions the source
                uses, as a backtracking matcher;
    - [WHATWG]  the URL Standard's basic URL parser, for the inputs
                described there;
    - [UrlTransformer]  [src/utils/url-transformer.ts], over an
                arbitrary [URL] constructor;
    - [Promise] asynchronous functions: a computation takes the state of
                the platform and settles, fulfilled or rejected, in a
                new state;
    - [Object], [Settings]  objects as records of properties, and
                [src/types/settings.ts];
    - [Storage], [ServiceWorker], [Options], [ContentScript], [Popup]
                [src/utils/storage.ts],
                [src/background/service-worker.ts],
                [src/options/options.ts],
                [src/content/content-script.ts] and
                [src/popup/popup.ts], each over an arbitrary platform:
                the functions of [chrome.*], the console and the page
                are the variables of a section;
    - [MockChrome], [Page], [Browser]  platforms in memory: the mock of
                [tests/setup.ts], a page for the content script, and a
                browser for the service worker and the popup;
    - the vocabulary of the specification and of the platforms, facts
      about the built-ins and the parser, what each function of the
      source computes, the properties of the specification (C1 to C10),
      concrete runs, the unit tests of the repository, and then the
      properties of the other sources (X1 to X28) with their concrete
      runs and the unit tests of the storage. *)

From Stdlib Require Import ZArith NArith DecimalString String Ascii Bool Arith Lia
  List.
Import ListNotations.

Local Open Scope N_scope.
Local Open Scope list_scope.

(* ===================================================================== *)
(** * ECMAScript values and built-ins                                     *)
(* ===================================================================== *)

Module JS.

(** A String value is a finite sequence of 16-bit code units. *)
Abbreviation code_unit := N (only parsing).
Abbreviation jsstring := (list N) (only parsing).

(** String literals of the source: every literal in the file is ASCII, so
    each character is one code unit. *)
Definition js (s : string) : jsstring :=
  map N_of_ascii (list_ascii_of_string s).
Arguments js s%_string.

Definition jsstring_eqb (a b : jsstring) : bool :=
  if list_eq_dec N.eq_dec a b then true else false.

(** ** Completions

    A call either returns normally or throws.  [try { } catch { }] is
    [try_catch]. *)
Inductive JSError := TypeError | URIError.

Inductive completion (A : Type) : Type :=
| Normal (a : A)
| Throw (e : JSError).
Arguments Normal {A} a.
Arguments Throw {A} e.

Definition bind {A B} (c : completion A) (k : A -> completion B) : completion B :=
  match c with
  | Normal a => k a
  | Throw e => Throw e
  end.

Definition try_catch {A} (body : completion A) (handler : JSError -> completion A)
  : completion A :=
  match body with
  | Normal a => Normal a
  | Throw e => handler e
  end.

(** ** String.prototype methods *)

(** [s.startsWith(search)]: the substring of [s] of the length of [search],
    from position 0, is [search]. *)
Definition startsWith (s search : jsstring) : bool :=
  let len := length s in
  let searchLength := length search in
  if (len <? searchLength)%nat then false
  else jsstring_eqb (firstn searchLength s) search.

(** [s.endsWith(search)]. *)
Definition endsWith (s search : jsstring) : bool :=
  let len := length s in
  let searchLength := length search in
  if (len <? searchLength)%nat then false
  else jsstring_eqb (skipn (len - searchLength) s) search.

(** [StringIndexOf(s, search, 0)]: the least position at which [search]
    occurs in [s]. *)
Fixpoint StringIndexOf (s search : jsstring) : option nat :=
  if startsWith s search then Some 0%nat
  else match s with
       | [] => None
       | _ :: t => option_map S (StringIndexOf t search)
       end.

(** [s.replace(searchString, replaceValue)] with a string pattern and a
    replacement that has no [$]: the first occurrence only. *)
Definition replace (s searchString replaceValue : jsstring) : jsstring :=
  match StringIndexOf s searchString with
  | None => s
  | Some pos =>
      firstn pos s ++ replaceValue ++ skipn (pos + length searchString) s
  end.

(** [s.replace(/c/g, replaceValue)] for a pattern that is one literal
    character: every occurrence. *)
Definition replace_global_char (s : jsstring) (c : code_unit)
    (replaceValue : jsstring) : jsstring :=
  flat_map (fun x => if x =? c then replaceValue else [x]) s.

(** [array.includes(x)] on an array of strings (SameValueZero on strings
    is equality of the code unit sequences). *)
Definition includes (array : list jsstring) (x : jsstring) : bool :=
  existsb (jsstring_eqb x) array.

(** Truthiness of a [string | null] value: [null] and the empty string
    are falsy. *)
Definition truthy (v : option jsstring) : bool :=
  match v with
  | None => false
  | Some [] => false
  | Some (_ :: _) => true
  end.

(** ToString of a [string | null] value, as a template literal applies
    it. *)
Definition ToString (v : option jsstring) : jsstring :=
  match v with
  | Some s => s
  | None => js "null"
  end.

(** ** decodeURIComponent (ECMA-262, Decode with an empty preserve set) *)

Definition hex_digit_value (c : code_unit) : option N :=
  if (48 <=? c) && (c <=? 57) then Some (c - 48)
  else if (65 <=? c) && (c <=? 70) then Some (c - 55)
  else if (97 <=? c) && (c <=? 102) then Some (c - 87)
  else None.

(** ParseHexOctet on the two code units after a [%]. *)
Definition ParseHexOctet (h l : code_unit) : option N :=
  match hex_digit_value h, hex_digit_value l with
  | Some a, Some b => Some (16 * a + b)
  | _, _ => None
  end.

(** The number of leading 1 bits of an octet. *)
Definition leading_ones (B : N) : nat :=
  if B <? 128 then 0
  else if B <? 192 then 1
  else if B <? 224 then 2
  else if B <? 240 then 3
  else if B <? 248 then 4
  else 5.

Definition is_continuation (B : N) : bool := (128 <=? B) && (B <? 192).

(** The code point encoded by a sequence of octets, when the sequence is
    a well-formed UTF-8 encoding of one code point (no overlong form, no
    surrogate, nothing above U+10FFFF). *)
Definition utf8_code_point (octets : list N) : option N :=
  match octets with
  | [b0; b1] =>
      let v := (b0 - 192) * 64 + (b1 - 128) in
      if (192 <=? b0) && (b0 <? 224) && is_continuation b1 && (128 <=? v)
      then Some v else None
  | [b0; b1; b2] =>
      let v := (b0 - 224) * 4096 + (b1 - 128) * 64 + (b2 - 128) in
      if (224 <=? b0) && (b0 <? 240)
         && is_continuation b1 && is_continuation b2 && (2048 <=? v)
         && negb ((55296 <=? v) && (v <=? 57343))
      then Some v else None
  | [b0; b1; b2; b3] =>
      let v := (b0 - 240) * 262144 + (b1 - 128) * 4096 + (b2 - 128) * 64
               + (b3 - 128) in
      if (240 <=? b0) && (b0 <? 248)
         && is_continuation b1 && is_continuation b2 && is_continuation b3
         && (65536 <=? v) && (v <=? 1114111)
      then Some v else None
  | _ => None
  end.

(** UTF16EncodeCodePoint. *)
Definition UTF16EncodeCodePoint (cp : N) : jsstring :=
  if cp <=? 65535 then [cp]
  else [ (cp - 65536) / 1024 + 55296 ; (cp - 65536) mod 1024 + 56320 ].

(** Reads [n] further escape sequences [%XX] (the continuation bytes):
    the octets read and the rest of the string. *)
Fixpoint read_escapes (n : nat) (s : jsstring) : option (list N * jsstring) :=
  match n with
  | O => Some ([], s)
  | S n' =>
      match s with
      | c :: h :: l :: rest =>
          if c =? 37 then
            match ParseHexOctet h l with
            | Some B =>
                match read_escapes n' rest with
                | Some (octets, rest') => Some (B :: octets, rest')
                | None => None
                end
            | None => None
            end
          else None
      | _ => None
      end
  end.

(** The loop of Decode: [fuel] bounds the number of iterations, each of
    which consumes at least one code unit. *)
Fixpoint Decode_loop (fuel : nat) (s : jsstring) : completion jsstring :=
  match fuel with
  | O => Normal []
  | S fuel' =>
      match s with
      | [] => Normal []
      | C :: t =>
          if C =? 37 then
            match t with
            | h :: l :: rest =>
                match ParseHexOctet h l with
                | None => Throw URIError
                | Some B =>
                    match leading_ones B with
                    | O => bind (Decode_loop fuel' rest) (fun R => Normal (B :: R))
                    | 1%nat => Throw URIError
                    | S (S (S (S (S _)))) => Throw URIError
                    | S n' =>
                        match read_escapes n' rest with
                        | None => Throw URIError
                        | Some (octets, rest') =>
                            match utf8_code_point (B :: octets) with
                            | None => Throw URIError
                            | Some V =>
                                bind (Decode_loop fuel' rest')
                                     (fun R => Normal (UTF16EncodeCodePoint V ++ R))
                            end
                        end
                    end
                end
            | _ => Throw URIError
            end
          else bind (Decode_loop fuel' t) (fun R => Normal (C :: R))
      end
  end.

Definition decodeURIComponent (s : jsstring) : completion jsstring :=
  Decode_loop (length s) s.

End JS.

(* ===================================================================== *)
(** * Regular expressions                                                 *)
(* ===================================================================== *)

(** The patterns of the source use: the assertions [^] and [$] (no
    multiline flag), literal and escaped characters, one character class
    [[a-z]], a bounded greedy quantifier [{2,3}], sequencing, and one
    capturing group.  The matcher follows the backtracking semantics of
    ECMA-262 (22.2.2): a matcher takes a match state and a continuation. *)

Module RegExp.
Import JS.

Inductive regex :=
| Empty                                  (* the empty pattern *)
| Bol                                    (* ^ *)
| Eol                                    (* $ *)
| Chr (c : code_unit)                    (* a pattern character, or \. *)
| Range (lo hi : code_unit)              (* [lo-hi] *)
| Seq (r1 r2 : regex)
| Repeat (r : regex) (min max : nat)     (* r{min,max}, greedy *)
| Group (n : nat) (r : regex).           (* ( r ), the n-th left parenthesis *)

(** A run of pattern characters. *)
Fixpoint Lit (w : jsstring) : regex :=
  match w with
  | [] => Empty
  | c :: w' => Seq (Chr c) (Lit w')
  end.

(** MatchState: the end index and the captures, each a pair of a start
    and an end index (the input is fixed). *)
Record MatchState := { endIndex : nat; captures : list (nat * (nat * nat)) }.

Definition Matcher := MatchState -> (MatchState -> option MatchState) -> option MatchState.

Fixpoint groups_of (r : regex) : list nat :=
  match r with
  | Seq r1 r2 => groups_of r1 ++ groups_of r2
  | Repeat r _ _ => groups_of r
  | Group n r => n :: groups_of r
  | _ => []
  end.

Definition reset_captures (gs : list nat) (x : MatchState) : MatchState :=
  {| endIndex := endIndex x;
     captures := filter (fun c => negb (existsb (Nat.eqb (fst c)) gs)) (captures x) |}.

Definition in_range (lo hi ch : code_unit) : bool := (lo <=? ch) && (ch <=? hi).

Definition CharacterSetMatcher (input : jsstring) (accept : code_unit -> bool) : Matcher :=
  fun x c =>
    match nth_error input (endIndex x) with
    | Some ch =>
        if accept ch
        then c {| endIndex := S (endIndex x); captures := captures x |}
        else None
    | None => None
    end.

(** RepeatMatcher, by recursion on [max]. *)
Fixpoint RepeatMatcher (m : Matcher) (gs : list nat) (min max : nat) : Matcher :=
  fun x c =>
    match max with
    | O => c x
    | S max2 =>
        let d := fun y =>
          if (min =? 0)%nat && (endIndex y =? endIndex x)%nat then None
          else RepeatMatcher m gs (Nat.pred min) max2 y c in
        let xr := reset_captures gs x in
        if negb (min =? 0)%nat then m xr d
        else match m xr d with
             | Some z => Some z
             | None => c x
             end
    end.

Fixpoint CompileSubpattern (input : jsstring) (r : regex) : Matcher :=
  match r with
  | Empty => fun x c => c x
  | Bol => fun x c => if (endIndex x =? 0)%nat then c x else None
  | Eol => fun x c => if (endIndex x =? length input)%nat then c x else None
  | Chr ch => CharacterSetMatcher input (N.eqb ch)
  | Range lo hi => CharacterSetMatcher input (in_range lo hi)
  | Seq r1 r2 =>
      fun x c => CompileSubpattern input r1 x
                   (fun y => CompileSubpattern input r2 y c)
  | Repeat r min max =>
      RepeatMatcher (CompileSubpattern input r) (groups_of r) min max
  | Group n r =>
      fun x c => CompileSubpattern input r x
                   (fun y => c {| endIndex := endIndex y;
                                  captures := (n, (endIndex x, endIndex y)) :: captures y |})
  end.

(** The result of a successful match: where it starts and the final
    state. *)
Record MatchResult := { index : nat; state : MatchState }.

(** RegExpBuiltinExec without the [g] and [y] flags: the first start
    index, from 0 to the length of the input, at which the pattern
    matches.  [tries] counts the start indices left. *)
Fixpoint exec_from (r : regex) (input : jsstring) (tries lastIndex : nat)
  : option MatchResult :=
  match CompileSubpattern input r {| endIndex := lastIndex; captures := [] |} Some with
  | Some y => Some {| index := lastIndex; state := y |}
  | None =>
      match tries with
      | O => None
      | S tries' => exec_from r input tries' (S lastIndex)
      end
  end.

(** [input.match(r)] for a pattern without the [g] flag: the match, or
    [null]. *)
Definition match_ (input : jsstring) (r : regex) : option MatchResult :=
  exec_from r input (length input) 0.

Definition substring (input : jsstring) (from to : nat) : jsstring :=
  firstn (to - from) (skipn from input).

(** [m[n]] of a match array: the text of the n-th group ([m[0]] is the
    whole match), or [undefined]. *)
Definition get (input : jsstring) (m : MatchResult) (n : nat) : option jsstring :=
  match n with
  | O => Some (substring input (index m) (endIndex (state m)))
  | _ =>
      match find (fun c => (fst c =? n)%nat) (captures (state m)) with
      | Some (_, (from, to)) => Some (substring input from to)
      | None => None
      end
  end.

End RegExp.

(* ===================================================================== *)
(** * The URL Standard's parser                                           *)
(* ===================================================================== *)

(** [new URL(input)] runs the basic URL parser of the URL Standard
    (https://url.spec.whatwg.org) on [input], without a base URL, and
    throws a [TypeError] when the parser returns failure.

    [basic_URL_parser] follows the standard's state machine for the URLs
    the extension sees: a special scheme other than [file] ([http],
    [https], [ws], [wss], [ftp]) and a host that is an ASCII domain.  An
    input without a scheme is a failure, as in the standard.  Where the
    standard needs machinery that is not written out here (the [file]
    scheme, schemes that are not special, IPv4 and IPv6 hosts, and hosts
    that need IDNA processing: a code point outside ASCII or an [xn--]
    label), the result is [Unmodelled], and nothing is said about the
    platform's answer. *)

Module WHATWG.
Import JS.

Abbreviation code_point := N (only parsing).

(** The getters of a URL object that expose a parsed component. *)
Record URL := {
  hostname : jsstring;
  pathname : jsstring;
  search : jsstring;
  hash : jsstring
}.

Inductive parse_result :=
| Parsed (u : URL)
| Failure
| Unmodelled.

(** ** Code points *)

Definition is_high_surrogate (c : N) : bool := (55296 <=? c) && (c <=? 56319).
Definition is_low_surrogate (c : N) : bool := (56320 <=? c) && (c <=? 57343).

(** Conversion of a String to a sequence of scalar values (a USVString):
    a surrogate pair is one code point, a lone surrogate is U+FFFD. *)
Fixpoint to_scalar_values (s : jsstring) : list code_point :=
  match s with
  | [] => []
  | c :: t =>
      if is_high_surrogate c then
        match t with
        | d :: t' =>
            if is_low_surrogate d
            then (65536 + (c - 55296) * 1024 + (d - 56320)) :: to_scalar_values t'
            else 65533 :: to_scalar_values t
        | [] => [65533]
        end
      else if is_low_surrogate c then 65533 :: to_scalar_values t
      else c :: to_scalar_values t
  end.

Definition is_C0_control_or_space (c : N) : bool := c <=? 32.
Definition is_tab_or_newline (c : N) : bool := (c =? 9) || (c =? 10) || (c =? 13).
Definition is_ascii_upper_alpha (c : N) : bool := (65 <=? c) && (c <=? 90).
Definition is_ascii_lower_alpha (c : N) : bool := (97 <=? c) && (c <=? 122).
Definition is_ascii_alpha (c : N) : bool := is_ascii_upper_alpha c || is_ascii_lower_alpha c.
Definition is_ascii_digit (c : N) : bool := (48 <=? c) && (c <=? 57).
Definition is_ascii_alphanumeric (c : N) : bool := is_ascii_digit c || is_ascii_alpha c.
Definition is_ascii_hex_digit (c : N) : bool :=
  is_ascii_digit c || ((65 <=? c) && (c <=? 70)) || ((97 <=? c) && (c <=? 102)).
Definition ascii_lowercase (c : N) : N := if is_ascii_upper_alpha c then c + 32 else c.

Fixpoint dropWhile (f : N -> bool) (l : list N) : list N :=
  match l with
  | [] => []
  | c :: t => if f c then dropWhile f t else l
  end.

(** The prefix of [l] before the first element that satisfies [stop], and
    the rest of [l] from that element on. *)
Fixpoint break_at (stop : N -> bool) (l : list N) : list N * list N :=
  match l with
  | [] => ([], [])
  | c :: t =>
      if stop c then ([], l)
      else let (a, b) := break_at stop t in (c :: a, b)
  end.

(** Strictly split on a separator. *)
Fixpoint split_on (sep : N) (l : list N) : list (list N) :=
  match l with
  | [] => [[]]
  | c :: t =>
      if c =? sep then [] :: split_on sep t
      else match split_on sep t with
           | h :: r => (c :: h) :: r
           | [] => [[c]]
           end
  end.

(** ** Percent-encoding *)

Definition utf8_encode (cp : code_point) : list N :=
  if cp <? 128 then [cp]
  else if cp <? 2048 then [192 + cp / 64; 128 + cp mod 64]
  else if cp <? 65536 then
    [224 + cp / 4096; 128 + (cp / 64) mod 64; 128 + cp mod 64]
  else
    [240 + cp / 262144; 128 + (cp / 4096) mod 64; 128 + (cp / 64) mod 64;
     128 + cp mod 64].

Definition upper_hex_digit (n : N) : N := if n <? 10 then 48 + n else 55 + n.

Definition percent_encode_byte (b : N) : list N :=
  [37; upper_hex_digit (b / 16); upper_hex_digit (b mod 16)].

Definition C0_control_percent_encode_set (c : N) : bool := (c <=? 31) || (126 <? c).
Definition fragment_percent_encode_set (c : N) : bool :=
  C0_control_percent_encode_set c
  || (c =? 32) || (c =? 34) || (c =? 60) || (c =? 62) || (c =? 96).
Definition query_percent_encode_set (c : N) : bool :=
  C0_control_percent_encode_set c
  || (c =? 32) || (c =? 34) || (c =? 35) || (c =? 60) || (c =? 62).
Definition special_query_percent_encode_set (c : N) : bool :=
  query_percent_encode_set c || (c =? 39).
Definition path_percent_encode_set (c : N) : bool :=
  query_percent_encode_set c
  || (c =? 63) || (c =? 94) || (c =? 96) || (c =? 123) || (c =? 125).

Definition utf8_percent_encode (in_set : N -> bool) (cp : code_point) : list N :=
  if in_set cp then flat_map percent_encode_byte (utf8_encode cp) else [cp].

Definition percent_encode_after_encoding (in_set : N -> bool) (l : list code_point)
  : list N :=
  flat_map (utf8_percent_encode in_set) l.

(** Percent-decode, on a sequence of bytes. *)
Fixpoint percent_decode (l : list N) : list N :=
  match l with
  | [] => []
  | c :: t =>
      if c =? 37 then
        match t with
        | h :: l' :: rest =>
            match ParseHexOctet h l' with
            | Some b => b :: percent_decode rest
            | None => c :: percent_decode t
            end
        | _ => c :: percent_decode t
        end
      else c :: percent_decode t
  end.

(** ** Scheme *)

(** Scheme state: the scheme, lowercased, and what follows the colon.
    Without a base URL every other outcome is a failure. *)
Fixpoint scheme_state (buffer : list N) (input : list code_point)
  : option (list N * list code_point) :=
  match input with
  | [] => None
  | c :: rest =>
      if is_ascii_alphanumeric c || (c =? 43) || (c =? 45) || (c =? 46)
      then scheme_state (buffer ++ [ascii_lowercase c]) rest
      else if c =? 58 then Some (buffer, rest)
      else None
  end.

Definition scheme_start_state (input : list code_point)
  : option (list N * list code_point) :=
  match input with
  | c :: rest =>
      if is_ascii_alpha c then scheme_state [ascii_lowercase c] rest else None
  | [] => None
  end.

(** The special schemes other than [file]. *)
Definition is_special_not_file (scheme : list N) : bool :=
  existsb (jsstring_eqb scheme) [js "ftp"; js "http"; js "https"; js "ws"; js "wss"].

(** ** Host *)

(** The forbidden host code points: U+0000, tab, LF, CR, space, [#],
    [/], [:], [<], [>], [?], [@], [[], [\], []], [^] and [|]. *)
Definition is_forbidden_host_code_point (c : N) : bool :=
  existsb (N.eqb c) [0; 9; 10; 13; 32; 35; 47; 58; 60; 62; 63; 64; 91; 92; 93; 94; 124].

Definition is_forbidden_domain_code_point (c : N) : bool :=
  is_forbidden_host_code_point c || (c <=? 31) || (c =? 37) || (c =? 127).

(** The ends-in-a-number checker: the last label (a trailing empty label
    apart) is made of digits, or is a hexadecimal number [0x...]. *)
Definition is_number_label (l : list N) : bool :=
  match l with
  | [] => false
  | c :: t =>
      forallb is_ascii_digit l
      || match t with
         | x :: digits =>
             (c =? 48) && ((x =? 120) || (x =? 88)) && forallb is_ascii_hex_digit digits
         | [] => false
         end
  end.

Definition ends_in_a_number (domain : list N) : bool :=
  let parts := split_on 46 domain in
  match last parts [0] with
  | [] =>
      if (length parts =? 1)%nat then false
      else is_number_label (last (removelast parts) [])
  | l => is_number_label l
  end.

Definition starts_with_xn (label : list N) : bool :=
  jsstring_eqb (map ascii_lowercase (firstn 4 label)) (js "xn--").

Inductive host_result :=
| Host (domain : jsstring)
| HostFailure
| HostUnmodelled.

(** The host parser on the host of a special URL (not opaque, not empty). *)
Definition host_parser (input : list code_point) : host_result :=
  if existsb (N.eqb 91) input then HostUnmodelled                 (* [ : IPv6 *)
  else if negb (forallb (fun c => c <? 128) input) then HostUnmodelled
  else
    let domain := percent_decode input in
    if negb (forallb (fun c => c <? 128) domain) then HostUnmodelled
    else if existsb starts_with_xn (split_on 46 domain) then HostUnmodelled
    else
      let asciiDomain := map ascii_lowercase domain in
      if existsb is_forbidden_domain_code_point asciiDomain then HostFailure
      else if ends_in_a_number asciiDomain then HostUnmodelled   (* IPv4 *)
      else Host asciiDomain.

(** The part of the authority after its last [@], when it has one. *)
Fixpoint after_last_at (authority : list N) : option (list N) :=
  match authority with
  | [] => None
  | c :: t =>
      match after_last_at t with
      | Some r => Some r
      | None => if c =? 64 then Some t else None
      end
  end.

Definition decimal_value (digits : list N) : N :=
  fold_left (fun acc d => 10 * acc + (d - 48)) digits 0.

(** Authority, host and port states, on the authority (the input up to
    the first [/], [\], [?] or [#]). *)
Definition authority_state (authority : list code_point) : host_result :=
  let hostport :=
    match after_last_at authority with
    | Some r => r
    | None => authority
    end in
  match hostport with
  | [] => HostFailure
  | _ =>
      if existsb (N.eqb 91) hostport then HostUnmodelled
      else
        let (buffer, rest) := break_at (N.eqb 58) hostport in
        match buffer with
        | [] => HostFailure
        | _ =>
            match host_parser buffer with
            | Host h =>
                match rest with
                | [] => Host h
                | _ :: port =>
                    if forallb is_ascii_digit port && (decimal_value port <=? 65535)
                    then Host h else HostFailure
                end
            | r => r
            end
        end
  end.

(** ** Path *)

Definition is_single_dot (buffer : list N) : bool :=
  existsb (jsstring_eqb (map ascii_lowercase buffer)) [js "."; js "%2e"].

Definition is_double_dot (buffer : list N) : bool :=
  existsb (jsstring_eqb (map ascii_lowercase buffer))
          [js ".."; js ".%2e"; js "%2e."; js "%2e%2e"].

(** What the path state does with [buffer] when it reaches the end of a
    segment; [slash] tells whether the segment ended at [/] or [\]. *)
Definition end_segment (path : list (list N)) (buffer : list N) (slash : bool)
  : list (list N) :=
  if is_double_dot buffer then
    if slash then removelast path else removelast path ++ [[]]
  else if is_single_dot buffer then
    if slash then path else path ++ [[]]
  else path ++ [buffer].

Definition is_slash (c : N) : bool := (c =? 47) || (c =? 92).

(** Path state of a special URL: the path, and the input from the [?] or
    [#] that ends it. *)
Fixpoint path_state (path : list (list N)) (buffer : list N)
    (input : list code_point) : list (list N) * list code_point :=
  match input with
  | [] => (end_segment path buffer false, [])
  | c :: rest =>
      if is_slash c then path_state (end_segment path buffer true) [] rest
      else if (c =? 63) || (c =? 35) then (end_segment path buffer false, input)
      else path_state path (buffer ++ utf8_percent_encode path_percent_encode_set c) rest
  end.

Definition path_start_state (input : list code_point)
  : list (list N) * list code_point :=
  match input with
  | c :: rest => if is_slash c then path_state [] [] rest else path_state [] [] input
  | [] => path_state [] [] []
  end.

Definition serialize_path (path : list (list N)) : jsstring :=
  flat_map (fun segment => 47 :: segment) path.

(** ** Query and fragment *)

(** The [search] and [hash] getters for what follows the path: [?] or [#]
    and the encoded component, or the empty string when the component is
    missing or empty. *)
Definition with_prefix (c : N) (component : list N) : jsstring :=
  match component with
  | [] => []
  | _ => c :: component
  end.

Definition fragment_state (input : list code_point) : jsstring :=
  match input with
  | c :: f =>
      if c =? 35
      then with_prefix 35 (percent_encode_after_encoding fragment_percent_encode_set f)
      else []
  | [] => []
  end.

Definition query_state (input : list code_point) : jsstring * jsstring :=
  match input with
  | c :: q =>
      if c =? 63 then
        let (buffer, rest) := break_at (N.eqb 35) q in
        (with_prefix 63
           (percent_encode_after_encoding special_query_percent_encode_set buffer),
         fragment_state rest)
      else ([], fragment_state input)
  | [] => ([], [])
  end.

(** ** The parser *)

Definition is_authority_end (c : N) : bool :=
  (c =? 47) || (c =? 92) || (c =? 63) || (c =? 35).

(** Leading and trailing C0 controls and spaces are removed, then every
    tab and newline. *)
Definition strip_leading (l : list code_point) : list code_point :=
  dropWhile is_C0_control_or_space l.

Definition strip_trailing (l : list code_point) : list code_point :=
  rev (dropWhile is_C0_control_or_space (rev l)).

Definition remove_tab_newline (l : list code_point) : list code_point :=
  filter (fun c => negb (is_tab_or_newline c)) l.

Definition basic_URL_parser (input : jsstring) : parse_result :=
  let input :=
    remove_tab_newline (strip_trailing (strip_leading (to_scalar_values input))) in
  match scheme_start_state input with
  | None => Failure
  | Some (scheme, rest) =>
      if is_special_not_file scheme then
        let rest := dropWhile is_slash rest in
        let (authority, rest) := break_at is_authority_end rest in
        match authority_state authority with
        | HostFailure => Failure
        | HostUnmodelled => Unmodelled
        | Host host =>
            let (path, rest) := path_start_state rest in
            let (query, fragment) := query_state rest in
            Parsed {| hostname := host;
                      pathname := serialize_path path;
                      search := query;
                      hash := fragment |}
        end
      else Unmodelled
  end.

(** A URL constructor conforms to the standard, where it is modelled,
    when it returns what the parser returns and throws where the parser
    fails. *)
Definition conforms (new_URL : jsstring -> completion URL) : Prop :=
  forall input,
    match basic_URL_parser input with
    | Parsed u => new_URL input = Normal u
    | Failure => new_URL input = Throw TypeError
    | Unmodelled => True
    end.

(** The inputs on which the parser gives the standard's answer. *)
Definition is_modelled (input : jsstring) : bool :=
  match basic_URL_parser input with
  | Unmodelled => false
  | _ => true
  end.

(** The constructor used for concrete runs: the parser's answer, and a
    [TypeError] for everything else, so that it is a total function.  It
    conforms; the concrete runs below are on inputs that are modelled. *)
Definition URL_constructor (input : jsstring) : completion URL :=
  match basic_URL_parser input with
  | Parsed u => Normal u
  | _ => Throw TypeError
  end.

End WHATWG.

(* ===================================================================== *)
(** * src/utils/url-transformer.ts                                        *)
(* ===================================================================== *)

Module UrlTransformer.
Import JS.
Export WHATWG(URL, hostname, pathname, search, hash).

(** Wikipedia namespaces that should not be redirected. *)
Definition EXCLUDED_NAMESPACES : list jsstring :=
  [ js "Special:";
    js "Wikipedia:";
    js "Talk:";
    js "User:";
    js "User_talk:";
    js "File:";
    js "File_talk:";
    js "MediaWiki:";
    js "MediaWiki_talk:";
    js "Template:";
    js "Template_talk:";
    js "Help:";
    js "Help_talk:";
    js "Category:";
    js "Category_talk:";
    js "Portal:";
    js "Portal_talk:";
    js "Draft:";
    js "Draft_talk:";
    js "TimedText:";
    js "Module:";
    js "Module_talk:";
    js "Gadget:";
    js "Gadget_talk:";
    js "Gadget_definition:";
    js "Gadget_definition_talk:" ].

(** Base URL for Grokipedia. *)
Definition GROKIPEDIA_BASE_URL : jsstring := js "https://grokipedia.com".

(** Result of URL transformation; an optional property that an object
    literal leaves out is [None]. *)
Record TransformResult := {
  success : bool;
  grokipediaUrl : option jsstring;
  articleName : option jsstring;
  language : option jsstring;
  error : option jsstring
}.

(** The two patterns of [extractLanguage]:
    [/^([a-z]{2,3})\.wikipedia\.org$/] and [/^(simple)\.wikipedia\.org$/]. *)
Definition lang_pattern : RegExp.regex :=
  RegExp.Seq RegExp.Bol
    (RegExp.Seq (RegExp.Group 1 (RegExp.Repeat (RegExp.Range 97 122) 2 3))
       (RegExp.Seq (RegExp.Lit (js ".wikipedia.org")) RegExp.Eol)).

Definition simple_pattern : RegExp.regex :=
  RegExp.Seq RegExp.Bol
    (RegExp.Seq (RegExp.Group 1 (RegExp.Lit (js "simple")))
       (RegExp.Seq (RegExp.Lit (js ".wikipedia.org")) RegExp.Eol)).

(** The calls [transformToGrokipedia] makes, in the order it makes them. *)
Inductive call := Call_isArticlePage | Call_extractLanguage | Call_extractArticleName.

(** A computation that records the calls it makes. *)
Definition traced (A : Type) : Type := list call * completion A.

Definition ret {A} (a : A) : traced A := ([], Normal a).

Definition invoke {A} (f : call) (result : completion A) : traced A := ([f], result).

Definition tbind {A B} (c : traced A) (k : A -> traced B) : traced B :=
  match c with
  | (t, Normal a) => let (t', r) := k a in (t ++ t', r)
  | (t, Throw e) => (t, Throw e)
  end.

Notation "x <- c ;; k" := (tbind c (fun x => k))
  (at level 61, c at next level, right associativity).

Definition calls_of {A} (c : traced A) : list call := fst c.
Definition result_of {A} (c : traced A) : completion A := snd c.

Section Source.

(** The platform's [URL] constructor. *)
Variable new_URL : jsstring -> completion URL.

(** The for-of loop over the namespaces: [true] when it reaches a
    [return false]. *)
Fixpoint in_excluded_namespace (articlePath : jsstring) (namespaces : list jsstring)
  : bool :=
  match namespaces with
  | [] => false
  | namespace :: rest =>
      if startsWith articlePath namespace then true
      else in_excluded_namespace articlePath rest
  end.

(** Checks if a URL is a Wikipedia article page (not a special namespace). *)
Definition isArticlePage (url : jsstring) : completion bool :=
  try_catch
    (bind (new_URL url) (fun urlObj =>
       (* Check if it's a Wikipedia domain *)
       if negb (endsWith (hostname urlObj) (js ".wikipedia.org")) then Normal false
       (* Check if it's a /wiki/ path *)
       else if negb (startsWith (pathname urlObj) (js "/wiki/")) then Normal false
       else
         (* Extract the article path *)
         let articlePath := replace (pathname urlObj) (js "/wiki/") (js "") in
         (* Check if it's a special namespace *)
         if in_excluded_namespace articlePath EXCLUDED_NAMESPACES then Normal false
         (* Empty article path is the main page, which we should allow *)
         else if jsstring_eqb articlePath (js "") || jsstring_eqb articlePath (js "Main_Page")
         then Normal true
         else Normal true))
    (fun _ => Normal false).

(** Extracts the language code from a Wikipedia URL. *)
Definition extractLanguage (url : jsstring) : completion (option jsstring) :=
  try_catch
    (bind (new_URL url) (fun urlObj =>
       let hostname := hostname urlObj in
       (* Match pattern: [lang].wikipedia.org *)
       match RegExp.match_ hostname lang_pattern with
       | Some match_ => Normal (RegExp.get hostname match_ 1)
       | None =>
           (* Handle special cases like simple.wikipedia.org *)
           match RegExp.match_ hostname simple_pattern with
           | Some simpleMatch => Normal (Some (js "simple"))
           | None => Normal None
           end
       end))
    (fun _ => Normal None).

(** Extracts the article name from a Wikipedia URL. *)
Definition extractArticleName (url : jsstring) : completion (option jsstring) :=
  try_catch
    (bind (new_URL url) (fun urlObj =>
       if negb (startsWith (pathname urlObj) (js "/wiki/")) then Normal None
       else
         let articlePath := replace (pathname urlObj) (js "/wiki/") (js "") in
         (* Return the raw article path (keep URL encoding as-is) *)
         if truthy (Some articlePath) then Normal (Some articlePath) else Normal None))
    (fun _ => Normal None).

Definition failure (message : jsstring) : TransformResult :=
  {| success := false;
     grokipediaUrl := None;
     articleName := None;
     language := None;
     error := Some message |}.

(** Transforms a Wikipedia URL to a Grokipedia URL. *)
Definition transformToGrokipedia (wikipediaUrl : jsstring) : traced TransformResult :=
  (* Check if it's an article page *)
  isArticle <- invoke Call_isArticlePage (isArticlePage wikipediaUrl) ;;
  if negb isArticle then ret (failure (js "Not a Wikipedia article page"))
  else
    language <- invoke Call_extractLanguage (extractLanguage wikipediaUrl) ;;
    if negb (truthy language)
    then ret (failure (js "Could not extract language from URL"))
    else
      articleName <- invoke Call_extractArticleName (extractArticleName wikipediaUrl) ;;
      if negb (truthy articleName)
      then ret (failure (js "Could not extract article name from URL"))
      else
        (* Build the Grokipedia URL *)
        let grokipediaUrl := GROKIPEDIA_BASE_URL ++ js "/page/" ++ ToString articleName in
        ret {| success := true;
               grokipediaUrl := Some grokipediaUrl;
               articleName := articleName;
               language := language;
               error := None |}.

End Source.

(** Decodes a Wikipedia article name for display. *)
Definition decodeArticleName (articleName : jsstring) : completion jsstring :=
  try_catch
    (* First decode URL encoding, then replace underscores with spaces *)
    (bind (decodeURIComponent articleName) (fun decoded =>
       Normal (replace_global_char decoded 95 (js " "))))
    (* If decoding fails, just replace underscores *)
    (fun _ => Normal (replace_global_char articleName 95 (js " "))).

(** Checks if a Wikipedia language is in the enabled list. *)
Definition isLanguageEnabled (language : jsstring) (enabledLanguages : list jsstring)
  : completion bool :=
  (* If the list is empty, all languages are enabled *)
  if (length enabledLanguages =? 0)%nat then Normal true
  else Normal (includes enabledLanguages language).

End UrlTransformer.

(* ===================================================================== *)
(** * The vocabulary of the specification                                 *)
(* ===================================================================== *)

Import JS.

(** "Replaces every underscore with a space", position by position. *)
Definition underscores_to_spaces (s : jsstring) : jsstring :=
  map (fun c => if c =? 95 then 32 else c) s.

(** "One subdomain label of 2-3 lowercase ASCII letters". *)
Definition is_lowercase_letter (c : code_unit) : Prop := 97 <= c <= 122.

Definition language_label (l : jsstring) : Prop :=
  (length l = 2%nat \/ length l = 3%nat) /\ Forall is_lowercase_letter l.

(** A LanguageCode: such a label, or the literal token "simple". *)
Definition LanguageCode (l : jsstring) : Prop :=
  language_label l \/ l = js "simple".

(** A candidate page: a host under the recognized domain, a path under
    [/wiki/], and a remainder outside the excluded namespaces. *)
Definition is_article_URL (u : WHATWG.URL) : bool :=
  endsWith (WHATWG.hostname u) (js ".wikipedia.org")
  && startsWith (WHATWG.pathname u) (js "/wiki/")
  && negb (UrlTransformer.in_excluded_namespace
             (replace (WHATWG.pathname u) (js "/wiki/") (js ""))
             UrlTransformer.EXCLUDED_NAMESPACES).

(** A suffix of a URL, as the URL parser reads it behind a prefix:
    scalar values, without the trailing C0 controls and spaces, and
    without tabs and newlines. *)
Definition suffix_as_parsed (s : jsstring) : list N :=
  WHATWG.remove_tab_newline (WHATWG.strip_trailing (WHATWG.to_scalar_values s)).

(** The path segments of such a text: what stands between [/] or [\],
    up to the first [?] or [#]. *)
Fixpoint path_segments (input : list N) : list (list N) :=
  match input with
  | [] => [[]]
  | c :: rest =>
      if WHATWG.is_slash c then [] :: path_segments rest
      else if (c =? 63) || (c =? 35) then [[]]
      else match path_segments rest with
           | segment :: segments => (c :: segment) :: segments
           | [] => [[c]]
           end
  end.

(** What a path segment does to the number of segments that stand
    above a given one in the path: a double-dot segment ([..], [.%2e],
    [%2e.] or [%2e%2e], in either case) removes one, and finds none to
    remove when the number is zero; a single-dot segment ([.] or [%2e])
    changes nothing; any other segment adds one. *)
Definition segment_step (above : nat) (segment : list N) : option nat :=
  if WHATWG.is_double_dot segment then
    match above with
    | O => None
    | S n => Some n
    end
  else if WHATWG.is_single_dot segment then Some above
  else Some (S above).

(** The segments, taken one after the other: [true] when every
    double-dot segment finds a segment to remove. *)
Fixpoint stays_above (above : nat) (segments : list (list N)) : bool :=
  match segments with
  | [] => true
  | segment :: rest =>
      match segment_step above segment with
      | Some n => stays_above n rest
      | None => false
      end
  end.

(** A suffix that does not step out of the path segment it continues:
    read segment by segment after its first [/] or [\], no double-dot
    segment removes more segments than the suffix has added before it.
    So [/a/../b] keeps its segment, and [/../b] does not. *)
Definition keeps_its_segment (s : jsstring) : Prop :=
  stays_above 0 (tl (path_segments (suffix_as_parsed s))) = true.

(** A string without [?] and without [#]: it carries no query string and
    no fragment. *)
Definition no_delimiter (s : jsstring) : Prop := Forall (fun c => c <> 63 /\ c <> 35) s.

(** The characters of the namespace prefixes: ASCII letters and digits,
    [_] and [:]. *)
Definition is_word_character (c : code_unit) : bool :=
  WHATWG.is_ascii_alphanumeric c || (c =? 95) || (c =? 58).

(** ["https://en.<domain>/wiki/"]. *)
Definition wiki_prefix : jsstring := js "https://en.wikipedia.org/wiki/".

(** The three calls of [transformToGrokipedia], in order. *)
Definition all_calls : list UrlTransformer.call :=
  [UrlTransformer.Call_isArticlePage; UrlTransformer.Call_extractLanguage;
   UrlTransformer.Call_extractArticleName].

(** A text in which every [%] is followed by [2] and [e] or [E]: the
    escapes of a dot segment. *)
Fixpoint escapes_are_dots (x : list N) : bool :=
  match x with
  | [] => true
  | c :: t =>
      (if c =? 37
       then match t with
            | a :: b :: _ => (a =? 50) && ((b =? 101) || (b =? 69))
            | _ => false
            end
       else true)
      && escapes_are_dots t
  end.

(** ** Inputs of the concrete runs *)

Definition sami_url : jsstring :=
  js "https://en.wikipedia.org/wiki/S%C3%A1mi_people?action=history#top".

Definition sami_result : UrlTransformer.TransformResult :=
  {| UrlTransformer.success := true;
     UrlTransformer.grokipediaUrl := Some (js "https://grokipedia.com/page/S%C3%A1mi_people");
     UrlTransformer.articleName := Some (js "S%C3%A1mi_people");
     UrlTransformer.language := Some (js "en");
     UrlTransformer.error := None |}.

Definition bare_wiki_URL : WHATWG.URL :=
  {| WHATWG.hostname := js "en.wikipedia.org";
     WHATWG.pathname := js "/wiki/";
     WHATWG.search := [];
     WHATWG.hash := [] |}.

Definition example_com_URL : WHATWG.URL :=
  {| WHATWG.hostname := js "example.com";
     WHATWG.pathname := js "/wiki/Foo";
     WHATWG.search := [];
     WHATWG.hash := [] |}.

(** ** Tactics for comparisons on code units *)

Ltac bool_to_Prop :=
  repeat match goal with
         | H : _ && _ = true |- _ => apply andb_true_iff in H; destruct H
         | H : _ || _ = true |- _ => apply orb_true_iff in H; destruct H
         | H : (_ <=? _) = true |- _ => apply N.leb_le in H
         | H : (_ <? _) = true |- _ => apply N.ltb_lt in H
         | H : (_ =? _) = true |- _ => apply N.eqb_eq in H
         end.

Ltac N_bool :=
  repeat match goal with
         | |- context [?a <=? ?b] => destruct (N.leb_spec a b); try lia
         | |- context [?a <? ?b] => destruct (N.ltb_spec a b); try lia
         | |- context [?a =? ?b] => destruct (N.eqb_spec a b); try lia
         end.

(* ===================================================================== *)
(** * Promises and objects                                                *)
(* ===================================================================== *)

(** The asynchronous functions of the extension run one after the other
    on the state of the platform: an [async] function is a function of
    that state, [await] is sequencing, and a rejected promise is an
    exception at the [await]. *)

Module Promise.
Import JS.

(** What an [await] can throw: an exception of the language, or an
    [Error] of the platform with its message. *)
Inductive exception :=
| Exception (e : JSError)
| Error (message : jsstring).

Inductive settled (A : Type) : Type :=
| Fulfilled (a : A)
| Rejected (reason : exception).
Arguments Fulfilled {A} a.
Arguments Rejected {A} reason.

Section World.

Variable World : Type.

Definition async (A : Type) : Type := World -> settled A * World.

Definition ret {A} (a : A) : async A := fun w => (Fulfilled a, w).

Definition throw {A} (reason : exception) : async A := fun w => (Rejected reason, w).

Definition bind {A B} (c : async A) (k : A -> async B) : async B :=
  fun w =>
    match c w with
    | (Fulfilled a, w') => k a w'
    | (Rejected reason, w') => (Rejected reason, w')
    end.

Definition try_catch {A} (body : async A) (handler : exception -> async A) : async A :=
  fun w =>
    match body w with
    | (Fulfilled a, w') => (Fulfilled a, w')
    | (Rejected reason, w') => handler reason w'
    end.

(** A call that returns nothing and cannot throw. *)
Definition effect (f : World -> World) : async unit := fun w => (Fulfilled tt, f w).

(** A synchronous call inside an asynchronous function. *)
Definition sync {A} (c : completion A) : async A :=
  match c with
  | Normal a => ret a
  | Throw e => throw (Exception e)
  end.

End World.

Arguments ret {World A} a.
Arguments throw {World A} reason.
Arguments bind {World A B} c k.
Arguments try_catch {World A} body handler.
Arguments effect {World} f.
Arguments sync {World A} c.

End Promise.

Notation "x <~ c ;; k" := (Promise.bind c (fun x => k))
  (at level 61, c at next level, right associativity).
Notation "c ;;; k" := (Promise.bind c (fun _ => k))
  (at level 61, right associativity).

(** An object used as a record of properties: the properties in the
    order they were added. *)
Module Object.
Import JS.

Definition object (V : Type) : Type := list (jsstring * V).

(** [o[key]]: [None] is [undefined]. *)
Fixpoint get {V} (o : object V) (key : jsstring) : option V :=
  match o with
  | [] => None
  | (k, v) :: rest => if jsstring_eqb k key then Some v else get rest key
  end.

(** [o[key] = value]. *)
Fixpoint set {V} (o : object V) (key : jsstring) (value : V) : object V :=
  match o with
  | [] => [(key, value)]
  | (k, v) :: rest =>
      if jsstring_eqb k key then (k, value) :: rest else (k, v) :: set rest key value
  end.

(** [delete o[key]]. *)
Definition delete {V} (o : object V) (key : jsstring) : object V :=
  filter (fun kv => negb (jsstring_eqb (fst kv) key)) o.

End Object.

(* ===================================================================== *)
(** * src/types/settings.ts                                               *)
(* ===================================================================== *)

Module Settings.
Import JS.

(** User settings for the extension.  A delay is a number of
    milliseconds; the numbers of the source are the integers. *)
Record UserSettings := {
  autoRedirect : bool;
  useNotifications : bool;
  redirectDelay : Z;
  enabledLanguages : list jsstring;
  enabled : bool
}.

(** Default settings for new users. *)
Definition DEFAULT_SETTINGS : UserSettings :=
  {| autoRedirect := false;
     useNotifications := false;
     redirectDelay := 0;
     enabledLanguages := [js "en"];
     enabled := true |}.

Record Language := { code : jsstring; name : jsstring }.

(** All supported Wikipedia languages. *)
Definition SUPPORTED_LANGUAGES : list Language :=
  [ {| code := js "en"; name := js "English" |};
    {| code := js "de"; name := js "German" |};
    {| code := js "fr"; name := js "French" |};
    {| code := js "es"; name := js "Spanish" |};
    {| code := js "it"; name := js "Italian" |};
    {| code := js "pt"; name := js "Portuguese" |};
    {| code := js "ru"; name := js "Russian" |};
    {| code := js "ja"; name := js "Japanese" |};
    {| code := js "zh"; name := js "Chinese" |};
    {| code := js "ko"; name := js "Korean" |};
    {| code := js "ar"; name := js "Arabic" |};
    {| code := js "nl"; name := js "Dutch" |};
    {| code := js "pl"; name := js "Polish" |};
    {| code := js "sv"; name := js "Swedish" |};
    {| code := js "uk"; name := js "Ukrainian" |};
    {| code := js "vi"; name := js "Vietnamese" |};
    {| code := js "he"; name := js "Hebrew" |};
    {| code := js "id"; name := js "Indonesian" |};
    {| code := js "tr"; name := js "Turkish" |};
    {| code := js "cs"; name := js "Czech" |} ].

(** Storage key for user settings. *)
Definition STORAGE_KEY : jsstring := js "userSettings".

(** [Partial<UserSettings>]: every property is optional; [None] is a
    property that the object does not have. *)
Module Partial.

Record t := {
  autoRedirect : option bool;
  useNotifications : option bool;
  redirectDelay : option Z;
  enabledLanguages : option (list jsstring);
  enabled : option bool
}.

(** The object literal [{}]. *)
Definition empty : t :=
  {| autoRedirect := None;
     useNotifications := None;
     redirectDelay := None;
     enabledLanguages := None;
     enabled := None |}.

End Partial.

(** A [UserSettings] object where a [Partial<UserSettings>] is expected. *)
Definition as_Partial (s : UserSettings) : Partial.t :=
  {| Partial.autoRedirect := Some (autoRedirect s);
     Partial.useNotifications := Some (useNotifications s);
     Partial.redirectDelay := Some (redirectDelay s);
     Partial.enabledLanguages := Some (enabledLanguages s);
     Partial.enabled := Some (enabled s) |}.

Definition own {A} (property : option A) (otherwise : A) : A :=
  match property with
  | Some a => a
  | None => otherwise
  end.

(** The object literal [{ ...a, ...b }]: the properties of [a], each
    replaced by the property of [b] of that name when [b] has it;
    spreading [undefined] adds nothing. *)
Definition spread (a : UserSettings) (b : option Partial.t) : UserSettings :=
  match b with
  | None => a
  | Some b =>
      {| autoRedirect := own (Partial.autoRedirect b) (autoRedirect a);
         useNotifications := own (Partial.useNotifications b) (useNotifications a);
         redirectDelay := own (Partial.redirectDelay b) (redirectDelay a);
         enabledLanguages := own (Partial.enabledLanguages b) (enabledLanguages a);
         enabled := own (Partial.enabled b) (enabled a) |}
  end.

(** Messages between the pages of the extension and the service worker,
    and its responses: objects with a [type] and the properties that the
    type comes with. *)
Record Message := {
  type : jsstring;
  settings : option Partial.t;
  title : option jsstring;
  message : option jsstring;
  url : option jsstring;
  tabId : option Z
}.

Record MessageResponse := {
  success : bool;
  response_settings : option UserSettings;
  error : option jsstring
}.

(** The messages that the pages send, as the object literals of the
    sources. *)
Definition GET_SETTINGS : Message :=
  {| type := js "GET_SETTINGS"; settings := None; title := None; message := None;
     url := None; tabId := None |}.

Definition UPDATE_SETTINGS (settings : Partial.t) : Message :=
  {| type := js "UPDATE_SETTINGS"; settings := Some settings; title := None;
     message := None; url := None; tabId := None |}.

Definition SHOW_NOTIFICATION (title message url : jsstring) : Message :=
  {| type := js "SHOW_NOTIFICATION"; settings := None; title := Some title;
     message := Some message; url := Some url; tabId := None |}.

End Settings.

(* ===================================================================== *)
(** * src/utils/storage.ts                                                *)
(* ===================================================================== *)

Module Storage.
Import JS Promise Settings.

(** [chrome.storage.StorageChange]. *)
Record StorageChange := {
  oldValue : option Partial.t;
  newValue : option Partial.t
}.

(** The keys of [toggleSetting]. *)
Inductive BooleanSetting := key_autoRedirect | key_useNotifications | key_enabled.

(** [settings[key]]. *)
Definition get_setting (settings : UserSettings) (key : BooleanSetting) : bool :=
  match key with
  | key_autoRedirect => autoRedirect settings
  | key_useNotifications => useNotifications settings
  | key_enabled => enabled settings
  end.

(** The object literal [{ [key]: value }]. *)
Definition computed_property (key : BooleanSetting) (value : bool) : Partial.t :=
  match key with
  | key_autoRedirect =>
      {| Partial.autoRedirect := Some value; Partial.useNotifications := None;
         Partial.redirectDelay := None; Partial.enabledLanguages := None;
         Partial.enabled := None |}
  | key_useNotifications =>
      {| Partial.autoRedirect := None; Partial.useNotifications := Some value;
         Partial.redirectDelay := None; Partial.enabledLanguages := None;
         Partial.enabled := None |}
  | key_enabled =>
      {| Partial.autoRedirect := None; Partial.useNotifications := None;
         Partial.redirectDelay := None; Partial.enabledLanguages := None;
         Partial.enabled := Some value |}
  end.

(** The object literal [{ enabledLanguages }]. *)
Definition only_enabledLanguages (enabledLanguages : list jsstring) : Partial.t :=
  {| Partial.autoRedirect := None; Partial.useNotifications := None;
     Partial.redirectDelay := None; Partial.enabledLanguages := Some enabledLanguages;
     Partial.enabled := None |}.

Section Source.

(** The platform: [chrome.storage.sync] and the console. *)
Variable World : Type.
Variable chrome_storage_sync_get : jsstring -> async World (Object.object Partial.t).
Variable chrome_storage_sync_set : Object.object Partial.t -> async World unit.
Variable console_error : jsstring -> exception -> World -> World.

(** Retrieves user settings from storage: the default settings merged
    with any stored values. *)
Definition getSettings : async World UserSettings :=
  try_catch
    (result <~ chrome_storage_sync_get STORAGE_KEY ;;
     let storedSettings := Object.get result STORAGE_KEY in
     (* Merge with defaults to ensure all properties exist *)
     ret (spread DEFAULT_SETTINGS storedSettings))
    (fun error =>
       effect (console_error (js "Failed to get settings:") error) ;;;
       ret DEFAULT_SETTINGS).

(** Saves user settings to storage, merged with the existing ones. *)
Definition saveSettings (settings : Partial.t) : async World unit :=
  try_catch
    (current <~ getSettings ;;
     let updated := spread current (Some settings) in
     chrome_storage_sync_set [(STORAGE_KEY, as_Partial updated)])
    (fun error =>
       effect (console_error (js "Failed to save settings:") error) ;;;
       throw error).

(** Resets all settings to their default values. *)
Definition resetSettings : async World unit :=
  try_catch
    (chrome_storage_sync_set [(STORAGE_KEY, as_Partial DEFAULT_SETTINGS)])
    (fun error =>
       effect (console_error (js "Failed to reset settings:") error) ;;;
       throw error).

(** The listener that [onSettingsChange] registers for [callback]; a
    [return] without a call leaves the state as it is. *)
Definition listener (callback : UserSettings -> UserSettings -> World -> World)
    (changes : Object.object StorageChange) (areaName : jsstring) : World -> World :=
  if negb (jsstring_eqb areaName (js "sync")) then fun w => w
  else
    match Object.get changes STORAGE_KEY with
    | None => fun w => w
    | Some settingsChange =>
        let newSettings := spread DEFAULT_SETTINGS (newValue settingsChange) in
        let oldSettings := spread DEFAULT_SETTINGS (oldValue settingsChange) in
        callback newSettings oldSettings
    end.

(** Toggles a boolean setting and returns the new value. *)
Definition toggleSetting (key : BooleanSetting) : async World bool :=
  settings <~ getSettings ;;
  let newValue := negb (get_setting settings key) in
  saveSettings (computed_property key newValue) ;;;
  ret newValue.

(** Adds a language to the enabled languages list. *)
Definition addLanguage (language : jsstring) : async World unit :=
  settings <~ getSettings ;;
  if negb (includes (enabledLanguages settings) language)
  then saveSettings (only_enabledLanguages (enabledLanguages settings ++ [language]))
  else ret tt.

(** Removes a language from the enabled languages list. *)
Definition removeLanguage (language : jsstring) : async World unit :=
  settings <~ getSettings ;;
  saveSettings
    (only_enabledLanguages
       (filter (fun l => negb (jsstring_eqb l language)) (enabledLanguages settings))).

(** Sets all languages as enabled, by clearing the list. *)
Definition enableAllLanguages : async World unit :=
  saveSettings (only_enabledLanguages []).

End Source.

End Storage.

(* ===================================================================== *)
(** * tests/setup.ts                                                      *)
(* ===================================================================== *)

(** The mock of [chrome.storage.sync] that the unit tests run on, with no
    listener registered: an object in memory.  The console keeps what it
    is given. *)
Module MockChrome.
Import JS Promise Settings.

Record World := {
  mockStorage : Object.object Partial.t;
  console : list (jsstring * exception)
}.

(** [get(keys)] for a string: [{ [keys]: mockStorage[keys] }]; a
    property whose value is [undefined] reads as a missing one. *)
Definition get (keys : jsstring) : async World (Object.object Partial.t) :=
  fun w =>
    (Fulfilled match Object.get (mockStorage w) keys with
               | Some value => [(keys, value)]
               | None => []
               end,
     w).

(** [set(items)]: [mockStorage[key] = value] for every entry. *)
Definition set (items : Object.object Partial.t) : async World unit :=
  fun w =>
    (Fulfilled tt,
     {| mockStorage :=
          fold_left (fun storage entry => Object.set storage (fst entry) (snd entry))
                    items (mockStorage w);
        console := console w |}).

Definition error (message : jsstring) (reason : exception) (w : World) : World :=
  {| mockStorage := mockStorage w; console := console w ++ [(message, reason)] |}.

(** [resetMockStorage()]. *)
Definition resetMockStorage : World := {| mockStorage := []; console := [] |}.

(** A call that [mockRejectedValueOnce(new Error('Storage error'))] has
    prepared. *)
Definition rejected {A B} (_ : A) : async World B :=
  throw (Error (js "Storage error")).

(** The settings object that the mock keeps. *)
Definition stored (w : World) : option Partial.t := Object.get (mockStorage w) STORAGE_KEY.

(** The functions of [src/utils/storage.ts] over the mock, as the tests
    run them. *)
Definition getSettings : async World UserSettings :=
  Storage.getSettings World get error.
Definition saveSettings : Partial.t -> async World unit :=
  Storage.saveSettings World get set error.
Definition resetSettings : async World unit :=
  Storage.resetSettings World set error.
Definition toggleSetting : Storage.BooleanSetting -> async World bool :=
  Storage.toggleSetting World get set error.
Definition addLanguage : jsstring -> async World unit :=
  Storage.addLanguage World get set error.
Definition removeLanguage : jsstring -> async World unit :=
  Storage.removeLanguage World get set error.
Definition enableAllLanguages : async World unit :=
  Storage.enableAllLanguages World get set error.

(** What a test observes: the value that the promise settles with. *)
Definition run {A} (test : async World A) : settled A := fst (test resetMockStorage).

End MockChrome.

(* ===================================================================== *)
(** * The vocabulary of the settings store                                *)
(* ===================================================================== *)

(** A storage area that works: a read fulfils with the value kept under
    the key and changes nothing, a write fulfils and keeps the value.
    [stored] is the value kept under [STORAGE_KEY]. *)
Record reliable {World : Type}
    (chrome_storage_sync_get : JS.jsstring -> Promise.async World (Object.object Settings.Partial.t))
    (chrome_storage_sync_set : Object.object Settings.Partial.t -> Promise.async World unit)
    (stored : World -> option Settings.Partial.t) : Prop := {
  get_reads :
    forall w, exists items w',
      chrome_storage_sync_get Settings.STORAGE_KEY w = (Promise.Fulfilled items, w')
      /\ Object.get items Settings.STORAGE_KEY = stored w
      /\ stored w' = stored w;
  set_writes :
    forall value w, exists w',
      chrome_storage_sync_set [(Settings.STORAGE_KEY, value)] w = (Promise.Fulfilled tt, w')
      /\ stored w' = Some value
}.

(** The settings in force: the defaults, with what is stored. *)
Definition in_force (stored : option Settings.Partial.t) : Settings.UserSettings :=
  Settings.spread Settings.DEFAULT_SETTINGS stored.

(* ===================================================================== *)
(** * src/background/service-worker.ts                                    *)
(* ===================================================================== *)

Module ServiceWorker.
Import JS Promise Settings.

(** Rule IDs for the dynamic redirect rules; IDs 2-20 are reserved for
    exclusion rules. *)
Definition REDIRECT_RULE_ID : N := 1.
Definition EXCLUSION_RULE_START_ID : N := 2.

(** Namespaces to exclude from redirect. *)
Definition EXCLUDED_NAMESPACES : list jsstring :=
  [ js "Special:";
    js "Wikipedia:";
    js "Talk:";
    js "User:";
    js "User_talk:";
    js "File:";
    js "File_talk:";
    js "Template:";
    js "Template_talk:";
    js "Help:";
    js "Help_talk:";
    js "Category:";
    js "Category_talk:";
    js "Portal:";
    js "Portal_talk:";
    js "Draft:";
    js "Draft_talk:";
    js "Module:";
    js "Module_talk:" ].

(** [chrome.declarativeNetRequest.Rule]. *)
Inductive RuleActionType := REDIRECT | ALLOW.
Inductive ResourceType := MAIN_FRAME.

Record Redirect := { regexSubstitution : jsstring }.

Record RuleAction := {
  action_type : RuleActionType;
  redirect : option Redirect
}.

Record RuleCondition := {
  regexFilter : option jsstring;
  urlFilter : option jsstring;
  resourceTypes : list ResourceType
}.

Record Rule := {
  id : N;
  priority : N;
  action : RuleAction;
  condition : RuleCondition
}.

(** [chrome.declarativeNetRequest.UpdateRuleOptions]. *)
Record UpdateRuleOptions := {
  removeRuleIds : option (list N);
  addRules : option (list Rule)
}.

(** The main redirect rule. *)
Definition redirect_rule : Rule :=
  {| id := REDIRECT_RULE_ID;
     priority := 1;
     action :=
       {| action_type := REDIRECT;
          redirect := Some {| regexSubstitution := js "https://grokipedia.com/page/\1" |} |};
     condition :=
       {| (* Match Wikipedia article URLs; captures the article name in group 1 *)
          regexFilter := Some (js "^https://[a-z]{2,3}\.wikipedia\.org/wiki/([^?#]+)$");
          urlFilter := None;
          resourceTypes := [MAIN_FRAME] |} |}.

(** The [forEach] over the namespaces, from [index] on: one exclusion
    rule for each. *)
Fixpoint exclusion_rules (namespaces : list jsstring) (index : N) : list Rule :=
  match namespaces with
  | [] => []
  | namespace :: rest =>
      {| id := EXCLUSION_RULE_START_ID + index;
         priority := 2; (* Higher priority than redirect rule *)
         action := {| action_type := ALLOW; redirect := None |};
         condition :=
           {| regexFilter := None;
              urlFilter := Some (js "*://*.wikipedia.org/wiki/" ++ namespace ++ js "*");
              resourceTypes := [MAIN_FRAME] |} |}
      :: exclusion_rules rest (index + 1)
  end.

(** Creates all redirect rules including exclusions. *)
Definition createRedirectRules : list Rule :=
  redirect_rule :: exclusion_rules EXCLUDED_NAMESPACES 0.

(** The [for] loop of [getAllRuleIds], from [i] on, with [remaining]
    iterations left. *)
Fixpoint exclusion_rule_ids (remaining : nat) (i : N) : list N :=
  match remaining with
  | O => []
  | S remaining => (EXCLUSION_RULE_START_ID + i) :: exclusion_rule_ids remaining (i + 1)
  end.

(** Gets all rule IDs the extension manages. *)
Definition getAllRuleIds : list N :=
  REDIRECT_RULE_ID :: exclusion_rule_ids (length EXCLUDED_NAMESPACES) 0.

(** The options of [chrome.notifications.create]. *)
Record NotificationButton := { button_title : jsstring }.

Record NotificationOptions := {
  notification_type : jsstring;
  iconUrl : jsstring;
  notification_title : option jsstring;
  notification_message : option jsstring;
  buttons : option (list NotificationButton);
  requireInteraction : bool
}.

(** A template literal applied to [Date.now()]: the decimal digits of an
    integer. *)
Definition Number_toString (n : N) : jsstring :=
  js (NilZero.string_of_uint (N.to_uint n)).

(** [message.settings as Partial<UserSettings>]: a message without the
    property is spread as the empty object is. *)
Definition settings_of (message : Message) : Partial.t :=
  own (settings message) Partial.empty.

Section Source.

(** The platform: [chrome.storage], [chrome.declarativeNetRequest],
    [chrome.notifications], [chrome.tabs], [chrome.runtime.getURL],
    [Date.now] and the console. *)
Variable World : Type.
Variable chrome_storage_sync_get : jsstring -> async World (Object.object Partial.t).
Variable chrome_storage_sync_set : Object.object Partial.t -> async World unit.
Variable chrome_declarativeNetRequest_updateDynamicRules :
  UpdateRuleOptions -> async World unit.
Variable chrome_tabs_update : option Z -> option jsstring -> async World unit.
Variable console_log : jsstring -> World -> World.
Variable console_error : jsstring -> exception -> World -> World.

Variable chrome_notifications_create : jsstring -> NotificationOptions -> async World unit.
Variable chrome_notifications_clear : jsstring -> World -> World.
Variable chrome_runtime_getURL : jsstring -> jsstring.
Variable chrome_storage_local_get : jsstring -> async World (Object.object jsstring).
Variable chrome_storage_local_set : Object.object jsstring -> async World unit.
Variable chrome_storage_local_remove : jsstring -> async World unit.
Variable chrome_tabs_create : jsstring -> async World unit.
Variable Date_now : World -> N.

Definition getSettings : async World UserSettings :=
  Storage.getSettings World chrome_storage_sync_get console_error.

Definition saveSettings : Partial.t -> async World unit :=
  Storage.saveSettings World chrome_storage_sync_get chrome_storage_sync_set console_error.

(** Updates the redirect rules based on current settings. *)
Definition updateRedirectRules (settings : UserSettings) : async World unit :=
  try_catch
    (let allRuleIds := getAllRuleIds in
     if enabled settings && autoRedirect settings
     then
       (* Add all redirect rules *)
       chrome_declarativeNetRequest_updateDynamicRules
         {| removeRuleIds := Some allRuleIds; addRules := Some createRedirectRules |} ;;;
       effect (console_log (js "WikiToGrok: Auto-redirect enabled"))
     else
       (* Remove all redirect rules *)
       chrome_declarativeNetRequest_updateDynamicRules
         {| removeRuleIds := Some allRuleIds; addRules := None |} ;;;
       effect (console_log (js "WikiToGrok: Auto-redirect disabled")))
    (fun error => effect (console_error (js "Failed to update redirect rules:") error)).

(** Shows a browser notification. *)
Definition showNotification (title message grokipediaUrl : option jsstring)
  : async World unit :=
  fun w =>
  let notificationId := js "wikitogrok-" ++ Number_toString (Date_now w) in
  (chrome_notifications_create notificationId
     {| notification_type := js "basic";
        iconUrl := chrome_runtime_getURL (js "icons/icon128.png");
        notification_title := title;
        notification_message := message;
        buttons :=
          if truthy grokipediaUrl
          then Some [ {| button_title := js "Open Grokipedia" |};
                      {| button_title := js "Dismiss" |} ]
          else None;
        requireInteraction := true |} ;;;
   (* Store the URL for this notification *)
   match grokipediaUrl with
   | Some url =>
       if truthy (Some url)
       then chrome_storage_local_set [(js "notification-" ++ notificationId, url)]
       else ret tt
   | None => ret tt
   end) w.

(** What the two click handlers share: open the stored URL, if any. *)
Definition open_stored_url (notificationId : jsstring) : async World unit :=
  result <~ chrome_storage_local_get (js "notification-" ++ notificationId) ;;
  let url := Object.get result (js "notification-" ++ notificationId) in
  match url with
  | Some url => if truthy (Some url) then chrome_tabs_create url else ret tt
  | None => ret tt
  end.

(** Handles notification button clicks. *)
Definition onButtonClicked (notificationId : jsstring) (buttonIndex : Z)
  : async World unit :=
  (if (buttonIndex =? 0)%Z
   then (* "Open Grokipedia" button clicked *) open_stored_url notificationId
   else ret tt) ;;;
  (* Clean up and close notification *)
  chrome_storage_local_remove (js "notification-" ++ notificationId) ;;;
  effect (chrome_notifications_clear notificationId).

(** Handles notification clicks (not button clicks). *)
Definition onClicked (notificationId : jsstring) : async World unit :=
  open_stored_url notificationId ;;;
  chrome_storage_local_remove (js "notification-" ++ notificationId) ;;;
  effect (chrome_notifications_clear notificationId).

(** Processes incoming messages. *)
Definition handleMessage (message : Message) : async World MessageResponse :=
  if jsstring_eqb (type message) (js "GET_SETTINGS") then
    settings <~ getSettings ;;
    ret {| success := true; response_settings := Some settings; error := None |}
  else if jsstring_eqb (type message) (js "UPDATE_SETTINGS") then
    let partialSettings := settings_of message in
    saveSettings partialSettings ;;;
    ret {| success := true; response_settings := None; error := None |}
  else if jsstring_eqb (type message) (js "SHOW_NOTIFICATION") then
    showNotification (title message) (Settings.message message) (url message) ;;;
    ret {| success := true; response_settings := None; error := None |}
  else if jsstring_eqb (type message) (js "REDIRECT_TAB") then
    let tabId := tabId message in
    let url := url message in
    chrome_tabs_update tabId url ;;;
    ret {| success := true; response_settings := None; error := None |}
  else
    ret {| success := false; response_settings := None;
           error := Some (js "Unknown message type") |}.

(** The callback that [initialize] gives to [onSettingsChange]; the
    promise of an [async] callback is dropped by its caller. *)
Definition on_settings_change (newSettings _ : UserSettings) : World -> World :=
  fun w => snd (updateRedirectRules newSettings w).

(** Initialize the service worker: the rules for the initial settings;
    the listener is [Storage.listener] for [on_settings_change]. *)
Definition initialize : async World unit :=
  effect (console_log (js "WikiToGrok: Service worker initializing")) ;;;
  (* Load initial settings and update rules *)
  settings <~ getSettings ;;
  updateRedirectRules settings ;;;
  effect (console_log (js "WikiToGrok: Service worker initialized")).

End Source.

End ServiceWorker.

(* ===================================================================== *)
(** * src/options/options.ts                                              *)
(* ===================================================================== *)

Module Options.
Import JS Promise Settings.

(** The languages grid, as the checkboxes that
    [querySelectorAll('input[type="checkbox"]')] finds in it, in document
    order. *)
Record Checkbox := { id : jsstring; checked : bool }.

(** Populates the languages grid. *)
Definition populateLanguages (enabledLanguages : list jsstring) : list Checkbox :=
  (* If empty array, all languages are enabled *)
  let allEnabled := (length enabledLanguages =? 0)%nat in
  map (fun lang =>
         {| id := js "lang-" ++ code lang;
            checked := allEnabled || includes enabledLanguages (code lang) |})
      SUPPORTED_LANGUAGES.

(** Gets the currently selected languages from the grid. *)
Definition getSelectedLanguages (languagesGrid : list Checkbox) : list jsstring :=
  let selected :=
    flat_map (fun checkbox =>
                if checked checkbox
                then [replace (id checkbox) (js "lang-") (js "")]
                else [])
             languagesGrid in
  (* If all are selected, return empty array (means all enabled) *)
  if (length selected =? length SUPPORTED_LANGUAGES)%nat then []
  else selected.

(** [checkbox.checked = value]. *)
Definition set_checked (value : bool) (checkbox : Checkbox) : Checkbox :=
  {| id := id checkbox; checked := value |}.

(** [document.getElementById(elementId)], then [checked = true] if there
    is such an element: the elements with the ids of the languages are
    the checkboxes of the grid. *)
Fixpoint check_by_id (elementId : jsstring) (languagesGrid : list Checkbox)
  : list Checkbox :=
  match languagesGrid with
  | [] => []
  | checkbox :: rest =>
      if jsstring_eqb (id checkbox) elementId
      then set_checked true checkbox :: rest
      else checkbox :: check_by_id elementId rest
  end.

Section Source.

(** The platform: [chrome.runtime.sendMessage] and the console.
    [showToast] changes elements of the page other than the grid; what
    it does to them is not part of this section: it is a parameter
    here, with the message and the type of the toast, which is
    ['success'] when the call leaves it out. *)
Variable World : Type.
Variable chrome_runtime_sendMessage : Message -> async World (option MessageResponse).
Variable console_error : jsstring -> exception -> World -> World.
Variable showToast : jsstring -> jsstring -> World -> World.

(** A listener of the page runs on the languages grid and the platform:
    a call of the platform leaves the grid as it is, and a change of the
    grid leaves the platform as it is. *)
Definition on_platform {A} (c : async World A) : async (list Checkbox * World) A :=
  fun page =>
    match c (snd page) with
    | (result, w) => (result, (fst page, w))
    end.

Definition on_grid (f : list Checkbox -> list Checkbox)
  : async (list Checkbox * World) unit :=
  effect (fun page => (f (fst page), snd page)).

(** Updates settings via service worker. *)
Definition updateSettings (settings : Partial.t) : async (list Checkbox * World) unit :=
  try_catch
    (on_platform (chrome_runtime_sendMessage (UPDATE_SETTINGS settings)) ;;; ret tt)
    (fun error =>
       on_platform (effect (console_error (js "Failed to update settings:") error)) ;;;
       throw error).

(** Handles language checkbox changes. *)
Definition handleLanguageChange : async (list Checkbox * World) unit :=
  fun page =>
    let enabledLanguages := getSelectedLanguages (fst page) in
    (updateSettings (Storage.only_enabledLanguages enabledLanguages) ;;;
     on_platform (effect (showToast (js "Language settings updated") (js "success"))))
      page.

(** The [click] listener of the select-all button. *)
Definition selectAllBtn_click : async (list Checkbox * World) unit :=
  on_grid (map (set_checked true)) ;;;
  updateSettings (Storage.only_enabledLanguages []) ;;; (* Empty = all enabled *)
  on_platform (effect (showToast (js "All languages enabled") (js "success"))).

(** The [click] listener of the select-none button. *)
Definition selectNoneBtn_click : async (list Checkbox * World) unit :=
  on_grid (map (set_checked false)) ;;;
  (* Default to English only *)
  updateSettings (Storage.only_enabledLanguages [js "en"]) ;;;
  (* Re-check English *)
  on_grid (check_by_id (js "lang-en")) ;;;
  on_platform (effect (showToast (js "Only English enabled") (js "success"))).

End Source.

End Options.

(* ===================================================================== *)
(** * src/content/content-script.ts                                       *)
(* ===================================================================== *)

Module ContentScript.
Import JS Promise Settings.

(** The [userSettings] entry of the changes that the listener of the
    content script reads, with the values as the source casts them: the
    new value a settings object, the old value one or [undefined]. *)
Record SettingsChange := {
  newValue : UserSettings;
  oldValue : option UserSettings
}.

Section Source.

(** The platform: the [URL] constructor, [chrome.runtime.sendMessage]
    (a response can be [undefined]), the console, [window.location.href]
    and [setTimeout]. *)
Variable World : Type.
Variable new_URL : jsstring -> completion WHATWG.URL.
Variable chrome_runtime_sendMessage : Message -> async World (option MessageResponse).
Variable console_error : jsstring -> exception -> World -> World.
Variable window_location_href : World -> jsstring.
Variable set_window_location_href : jsstring -> World -> World.
Variable setTimeout : (World -> World) -> Z -> World -> World.

(** [showBanner] and [removeBanner] build and remove elements of the
    page; what they do is not part of this section: they are parameters
    here. *)
Variable showBanner : jsstring -> jsstring -> UserSettings -> World -> World.
Variable removeBanner : World -> World.

(** Gets current settings from the service worker. *)
Definition getSettings : async World UserSettings :=
  returned <~
    try_catch
      (response <~ chrome_runtime_sendMessage GET_SETTINGS ;;
       match response with
       | Some response =>
           if success response
           then match response_settings response with
                | Some settings => ret (Some settings)
                | None => ret None
                end
           else ret None
       | None => ret None
       end)
      (fun error =>
         effect (console_error (js "WikiToGrok: Failed to get settings") error) ;;;
         ret None) ;;
  match returned with
  | Some settings => ret settings
  | None => ret DEFAULT_SETTINGS
  end.

(** Updates a setting via the service worker. *)
Definition updateSetting (settings : Partial.t) : async World unit :=
  try_catch
    (chrome_runtime_sendMessage (UPDATE_SETTINGS settings) ;;; ret tt)
    (fun error =>
       effect (console_error (js "WikiToGrok: Failed to update settings") error)).

(** Requests a browser notification from the service worker. *)
Definition showNotification (title message url : jsstring) : async World unit :=
  try_catch
    (chrome_runtime_sendMessage (SHOW_NOTIFICATION title message url) ;;; ret tt)
    (fun error =>
       effect (console_error (js "WikiToGrok: Failed to show notification") error)).

(** Performs auto-redirect with optional delay. *)
Definition performRedirect (url : jsstring) (delay : Z) : World -> World :=
  if (delay >? 0)%Z
  then setTimeout (set_window_location_href url) delay
  else set_window_location_href url.

(** Main initialization function. *)
Definition initialize : async World unit :=
  fun w =>
  let currentUrl := window_location_href w in
  ((* Check if this is an article page *)
   isArticle <~ sync (UrlTransformer.isArticlePage new_URL currentUrl) ;;
   if negb isArticle then ret tt
   else
     (* Get transformation result *)
     result <~ sync (UrlTransformer.result_of
                       (UrlTransformer.transformToGrokipedia new_URL currentUrl)) ;;
     match UrlTransformer.grokipediaUrl result, UrlTransformer.articleName result,
           UrlTransformer.language result with
     | Some grokipediaUrl, Some articleName, Some language =>
         if negb (UrlTransformer.success result)
            || negb (truthy (Some grokipediaUrl))
            || negb (truthy (Some articleName))
            || negb (truthy (Some language))
         then ret tt
         else
           (* Get user settings *)
           settings <~ getSettings ;;
           (* Check if extension is enabled *)
           if negb (enabled settings) then ret tt
           else
             (* Check if this language is enabled *)
             languageEnabled <~
               sync (UrlTransformer.isLanguageEnabled language (enabledLanguages settings)) ;;
             if negb languageEnabled then ret tt
             else
               articleName <~ sync (UrlTransformer.decodeArticleName articleName) ;;
               (* Handle auto-redirect mode *)
               if autoRedirect settings
               then effect (performRedirect grokipediaUrl (redirectDelay settings))
               (* Show notification if preferred *)
               else if useNotifications settings
               then showNotification (js "WikiToGrok")
                      (js "View " ++ [34] ++ articleName ++ [34] ++ js " on Grokipedia")
                      grokipediaUrl
               (* Default: show in-page banner *)
               else effect (showBanner articleName grokipediaUrl settings)
     (* a property that the result does not have is falsy *)
     | _, _, _ => ret tt
     end) w.

(** The listener for settings changes: [change] is [changes.userSettings]. *)
Definition onChanged (change : option SettingsChange) (areaName : jsstring)
  : async World unit :=
  fun w =>
  (if jsstring_eqb areaName (js "sync")
   then
     match change with
     | None => ret tt
     | Some change =>
         let newSettings := newValue change in
         (* If extension was disabled, remove banner *)
         if negb (enabled newSettings) then effect removeBanner
         else
           (* If auto-redirect was enabled, redirect now *)
           let oldSettings := oldValue change in
           if autoRedirect newSettings
              && negb match oldSettings with
                      | Some oldSettings => autoRedirect oldSettings
                      | None => false
                      end
           then
             result <~ sync (UrlTransformer.result_of
                               (UrlTransformer.transformToGrokipedia new_URL
                                  (window_location_href w))) ;;
             match UrlTransformer.grokipediaUrl result with
             | Some grokipediaUrl =>
                 if UrlTransformer.success result && truthy (Some grokipediaUrl)
                 then effect (performRedirect grokipediaUrl (redirectDelay newSettings))
                 else ret tt
             | None => ret tt
             end
           else ret tt
     end
   else ret tt) w.

End Source.

End ContentScript.

(* ===================================================================== *)
(** * The vocabulary of the service worker, the options page and the
      content script                                                      *)
(* ===================================================================== *)

(** The rules that an update keeps: those whose id is not to be removed. *)
Definition kept_rules (ids : list N) (rules : list ServiceWorker.Rule)
  : list ServiceWorker.Rule :=
  filter (fun rule => negb (existsb (N.eqb (ServiceWorker.id rule)) ids)) rules.

(** [chrome.declarativeNetRequest.updateDynamicRules] as documented: the
    rules with the ids to remove are removed first, then the rules to add
    are added, provided that no two rules end up with the same id; the
    console does not touch the rules.  [dynamicRules] is the set of
    dynamic rules of the extension. *)
Record rules_are_updated {World : Type}
    (updateDynamicRules : ServiceWorker.UpdateRuleOptions -> Promise.async World unit)
    (console_log : JS.jsstring -> World -> World)
    (dynamicRules : World -> list ServiceWorker.Rule) : Prop := {
  update_applies :
    forall options w,
      let kept :=
        kept_rules (Settings.own (ServiceWorker.removeRuleIds options) [])
                   (dynamicRules w) in
      let added := Settings.own (ServiceWorker.addRules options) [] in
      NoDup (map ServiceWorker.id (kept ++ added)) ->
      exists w',
        updateDynamicRules options w = (Promise.Fulfilled tt, w')
        /\ dynamicRules w' = kept ++ added;
  log_keeps_rules :
    forall message w, dynamicRules (console_log message w) = dynamicRules w
}.

(** The codes of the supported languages, in the order of the table. *)
Definition supported_codes : list JS.jsstring :=
  map Settings.code Settings.SUPPORTED_LANGUAGES.

(** A languages grid of the options page: one checkbox for each
    supported language, in the order of the table. *)
Definition is_languages_grid (grid : list Options.Checkbox) : Prop :=
  map Options.id grid = map (fun code => JS.js "lang-" ++ code) supported_codes.

(** A page that the extension offers a redirect for: an article page
    with the language [language] and the article name [articleName]. *)
Definition redirectable (new_URL : JS.jsstring -> JS.completion WHATWG.URL)
    (url language articleName : JS.jsstring) : Prop :=
  UrlTransformer.isArticlePage new_URL url = JS.Normal true
  /\ UrlTransformer.extractLanguage new_URL url = JS.Normal (Some language)
  /\ UrlTransformer.extractArticleName new_URL url = JS.Normal (Some articleName).

(** What [chrome.runtime.sendMessage] settles with when the listener of
    the service worker is the one of the source,
    [handleMessage(message).then(sendResponse)]: the response that
    [handleMessage] fulfils with; when it rejects, [sendResponse] is
    never called and the sender is told that the channel was closed. *)
Definition delivered {World : Type}
    (handled : Promise.settled Settings.MessageResponse * World)
  : Promise.settled (option Settings.MessageResponse) * World :=
  match handled with
  | (Promise.Fulfilled response, w) => (Promise.Fulfilled (Some response), w)
  | (Promise.Rejected _, w) =>
      (Promise.Rejected
         (Promise.Error
            (JS.js "The message port closed before a response was received.")),
       w)
  end.

(** [chrome.runtime.sendMessage] reaches the service worker: a message
    that [handleMessage] answers is answered to the sender. *)
Definition answered_by {World : Type}
    (chrome_runtime_sendMessage :
       Settings.Message -> Promise.async World (option Settings.MessageResponse))
    (handleMessage : Settings.Message -> Promise.async World Settings.MessageResponse)
  : Prop :=
  forall message w response w',
    handleMessage message w = (Promise.Fulfilled response, w') ->
    chrome_runtime_sendMessage message w = (Promise.Fulfilled (Some response), w').

(** ** A page in memory *)

(** A platform for the content script: the page keeps its address, the
    timers that are set, each with the address that its callback sets,
    the banner that is shown, the messages that were sent and what the
    console was given; the service worker answers a request for the
    settings with [answer], or not at all. *)
Module Page.
Import JS Promise Settings.

Record World := {
  href : jsstring;
  timers : list (Z * jsstring);
  banner : option (jsstring * jsstring);
  sent : list Message;
  console : list jsstring;
  answer : option UserSettings
}.

Definition window_location_href (w : World) : jsstring := href w.

Definition set_window_location_href (url : jsstring) (w : World) : World :=
  {| href := url; timers := timers w; banner := banner w; sent := sent w;
     console := console w; answer := answer w |}.

Definition setTimeout (callback : World -> World) (delay : Z) (w : World) : World :=
  {| href := href w; timers := timers w ++ [(delay, href (callback w))];
     banner := banner w; sent := sent w; console := console w; answer := answer w |}.

Definition showBanner (articleName grokipediaUrl : jsstring) (_ : UserSettings)
    (w : World) : World :=
  {| href := href w; timers := timers w; banner := Some (articleName, grokipediaUrl);
     sent := sent w; console := console w; answer := answer w |}.

Definition removeBanner (w : World) : World :=
  {| href := href w; timers := timers w; banner := None; sent := sent w;
     console := console w; answer := answer w |}.

Definition console_error (message : jsstring) (_ : exception) (w : World) : World :=
  {| href := href w; timers := timers w; banner := banner w; sent := sent w;
     console := console w ++ [message]; answer := answer w |}.

Definition chrome_runtime_sendMessage (message : Message)
  : async World (option MessageResponse) :=
  fun w =>
    let w' :=
      {| href := href w; timers := timers w; banner := banner w;
         sent := sent w ++ [message]; console := console w; answer := answer w |} in
    match answer w with
    | Some settings =>
        (Fulfilled
           (Some {| success := true;
                    response_settings :=
                      if jsstring_eqb (type message) (js "GET_SETTINGS")
                      then Some settings else None;
                    error := None |}),
         w')
    | None =>
        (Rejected (Error (js "Could not establish connection. Receiving end does not exist.")),
         w')
    end.

End Page.

(** ** Article titles *)

(** The String of a sequence of code points. *)
Definition utf16 (text : list N) : JS.jsstring :=
  flat_map JS.UTF16EncodeCodePoint text.

(** A code point of an article title as it is typed behind [/wiki/]: a
    scalar value other than the tab and the newlines, which the URL
    parser removes, the [/] and [\] that end a path segment, the [?] and
    [#] that end the path, and the [%] of an escape. *)
Definition is_title_code_point (c : N) : bool :=
  (c <? 1114112)
  && negb ((55296 <=? c) && (c <=? 57343))
  && negb (WHATWG.is_tab_or_newline c)
  && negb (WHATWG.is_slash c)
  && negb ((c =? 63) || (c =? 35) || (c =? 37)).

(** A code point of a title that a URL carries behind [/wiki/] when its
    parser percent-encodes the code points of [escaped]: a scalar value
    that is escaped, or an ASCII character other than [%] that stands
    for itself. *)
Definition is_carried (escaped : N -> bool) (c : N) : bool :=
  (c <? 1114112)
  && negb ((55296 <=? c) && (c <=? 57343))
  && (escaped c || ((c <? 128) && negb (c =? 37))).

(** An article title: a text of such code points that is not empty,
    does not end with a space or a control character, which the URL
    parser would strip, and is not one of the dot segments [.] and [..]. *)
Definition is_title (text : list N) : Prop :=
  text <> []
  /\ forallb is_title_code_point text = true
  /\ WHATWG.is_C0_control_or_space (last text 0) = false
  /\ text <> JS.js "." /\ text <> JS.js "..".

(* ===================================================================== *)
(** * src/popup/popup.ts                                                  *)
(* ===================================================================== *)

Module Popup.
Import JS Promise Settings.

(** The status indicator: its class list and the text of its label. *)
Record Status := { classList : list jsstring; textContent : jsstring }.

(** [classList.remove(...tokens)] and [classList.add(token)]. *)
Definition classList_remove (classes tokens : list jsstring) : list jsstring :=
  filter (fun c => negb (includes tokens c)) classes.

Definition classList_add (classes : list jsstring) (token : jsstring) : list jsstring :=
  if includes classes token then classes else classes ++ [token].

(** Updates the status indicator based on current settings. *)
Definition updateStatusIndicator (settings : UserSettings) (statusIndicator : Status)
  : Status :=
  let classes :=
    classList_remove (classList statusIndicator) [js "auto-redirect"; js "disabled"] in
  if negb (enabled settings) then
    {| classList := classList_add classes (js "disabled");
       textContent := js "Extension disabled" |}
  else if autoRedirect settings then
    {| classList := classList_add classes (js "auto-redirect");
       textContent := js "Auto-redirect active" |}
  else if useNotifications settings then
    {| classList := classes; textContent := js "Notification mode" |}
  else
    {| classList := classes; textContent := js "Banner mode" |}.


(** The elements of the popup that the script reads and writes. *)
Record Elements := {
  enabledToggle_checked : bool;
  autoRedirectToggle_checked : bool;
  autoRedirectToggle_disabled : bool;
  statusIndicator : Status
}.

(** The object literals [{ enabled }] and [{ autoRedirect }]. *)
Definition only_enabled (enabled : bool) : Partial.t :=
  {| Partial.autoRedirect := None; Partial.useNotifications := None;
     Partial.redirectDelay := None; Partial.enabledLanguages := None;
     Partial.enabled := Some enabled |}.

Definition only_autoRedirect (autoRedirect : bool) : Partial.t :=
  {| Partial.autoRedirect := Some autoRedirect; Partial.useNotifications := None;
     Partial.redirectDelay := None; Partial.enabledLanguages := None;
     Partial.enabled := None |}.

Section Source.

Variable World : Type.
Variable chrome_runtime_sendMessage : Message -> async World (option MessageResponse).
Variable console_error : jsstring -> exception -> World -> World.

(** Gets current settings from storage. *)
Definition getSettings : async World UserSettings :=
  returned <~
    try_catch
      (response <~ chrome_runtime_sendMessage GET_SETTINGS ;;
       match response with
       | Some response =>
           if success response
           then match response_settings response with
                | Some settings => ret (Some settings)
                | None => ret None
                end
           else ret None
       | None => ret None
       end)
      (fun error =>
         effect (console_error (js "Failed to get settings:") error) ;;;
         ret None) ;;
  match returned with
  | Some settings => ret settings
  | None => ret DEFAULT_SETTINGS
  end.

(** Updates settings via service worker. *)
Definition updateSettings (settings : Partial.t) : async World unit :=
  try_catch
    (chrome_runtime_sendMessage (UPDATE_SETTINGS settings) ;;; ret tt)
    (fun error => effect (console_error (js "Failed to update settings:") error)).

(** Initializes the popup with current settings. *)
Definition initialize (elements : Elements) : async World Elements :=
  settings <~ getSettings ;;
  ret {| (* Set toggle states *)
         enabledToggle_checked := enabled settings;
         autoRedirectToggle_checked := autoRedirect settings;
         (* Disable auto-redirect toggle if extension is disabled *)
         autoRedirectToggle_disabled := negb (enabled settings);
         (* Update status *)
         statusIndicator :=
           updateStatusIndicator settings (statusIndicator elements) |}.

(** The [change] listener of the enabled toggle. *)
Definition enabledToggle_change (elements : Elements) : async World Elements :=
  let enabled := enabledToggle_checked elements in
  updateSettings (only_enabled enabled) ;;;
  (* Update auto-redirect toggle state *)
  let elements :=
    {| enabledToggle_checked := enabledToggle_checked elements;
       autoRedirectToggle_checked := autoRedirectToggle_checked elements;
       autoRedirectToggle_disabled := negb enabled;
       statusIndicator := statusIndicator elements |} in
  (* If disabling, also turn off auto-redirect *)
  elements <~
    (if negb enabled && autoRedirectToggle_checked elements
     then
       updateSettings (only_autoRedirect false) ;;;
       ret {| enabledToggle_checked := enabledToggle_checked elements;
              autoRedirectToggle_checked := false;
              autoRedirectToggle_disabled := autoRedirectToggle_disabled elements;
              statusIndicator := statusIndicator elements |}
     else ret elements) ;;
  settings <~ getSettings ;;
  ret {| enabledToggle_checked := enabledToggle_checked elements;
         autoRedirectToggle_checked := autoRedirectToggle_checked elements;
         autoRedirectToggle_disabled := autoRedirectToggle_disabled elements;
         statusIndicator :=
           updateStatusIndicator settings (statusIndicator elements) |}.

(** The [change] listener of the auto-redirect toggle. *)
Definition autoRedirectToggle_change (elements : Elements) : async World Elements :=
  let autoRedirect := autoRedirectToggle_checked elements in
  updateSettings (only_autoRedirect autoRedirect) ;;;
  settings <~ getSettings ;;
  ret {| enabledToggle_checked := enabledToggle_checked elements;
         autoRedirectToggle_checked := autoRedirectToggle_checked elements;
         autoRedirectToggle_disabled := autoRedirectToggle_disabled elements;
         statusIndicator :=
           updateStatusIndicator settings (statusIndicator elements) |}.

End Source.

End Popup.

(* ===================================================================== *)
(** * The vocabulary of notifications and messages                        *)
(* ===================================================================== *)

(** [chrome.storage.local], [chrome.tabs.create] and
    [chrome.notifications] as documented: the storage area keeps what is
    set under a key until it is removed, a created tab comes after the
    open ones, and none of these calls touches what the others keep.
    [kept] is the storage area and [tabs] the addresses of the tabs that
    were created. *)
Record notifications_work {World : Type}
    (chrome_notifications_create :
       JS.jsstring -> ServiceWorker.NotificationOptions -> Promise.async World unit)
    (chrome_notifications_clear : JS.jsstring -> World -> World)
    (chrome_storage_local_get : JS.jsstring -> Promise.async World (Object.object JS.jsstring))
    (chrome_storage_local_set : Object.object JS.jsstring -> Promise.async World unit)
    (chrome_storage_local_remove : JS.jsstring -> Promise.async World unit)
    (chrome_tabs_create : JS.jsstring -> Promise.async World unit)
    (kept : World -> JS.jsstring -> option JS.jsstring)
    (tabs : World -> list JS.jsstring) : Prop := {
  create_shows :
    forall id options w, exists w',
      chrome_notifications_create id options w = (Promise.Fulfilled tt, w')
      /\ kept w' = kept w /\ tabs w' = tabs w;
  clear_keeps :
    forall id w,
      kept (chrome_notifications_clear id w) = kept w
      /\ tabs (chrome_notifications_clear id w) = tabs w;
  local_get_reads :
    forall key w, exists items,
      chrome_storage_local_get key w = (Promise.Fulfilled items, w)
      /\ Object.get items key = kept w key;
  local_set_writes :
    forall key value w, exists w',
      chrome_storage_local_set [(key, value)] w = (Promise.Fulfilled tt, w')
      /\ kept w' key = Some value
      /\ (forall other, other <> key -> kept w' other = kept w other)
      /\ tabs w' = tabs w;
  local_remove_deletes :
    forall key w, exists w',
      chrome_storage_local_remove key w = (Promise.Fulfilled tt, w')
      /\ kept w' key = None
      /\ (forall other, other <> key -> kept w' other = kept w other)
      /\ tabs w' = tabs w;
  tabs_create_opens :
    forall url w, exists w',
      chrome_tabs_create url w = (Promise.Fulfilled tt, w')
      /\ kept w' = kept w /\ tabs w' = tabs w ++ [url]
}.

(** ** A browser in memory *)

(** A platform for the service worker and the pages of the extension:
    the two storage areas as objects, the dynamic rules, the tabs that
    were created, the notifications that are shown, and a clock.  An
    update of the rules that would leave two rules with the same id is
    rejected.  A message is answered by [handleMessage]. *)
Module Browser.
Import JS Promise Settings.

Record World := {
  sync : Object.object Partial.t;
  local : Object.object jsstring;
  rules : list ServiceWorker.Rule;
  tabs : list jsstring;
  notifications : list jsstring;
  now : N
}.

Definition chrome_storage_sync_get (key : jsstring)
  : async World (Object.object Partial.t) :=
  fun w =>
    (Fulfilled match Object.get (sync w) key with
               | Some value => [(key, value)]
               | None => []
               end,
     w).

Definition chrome_storage_sync_set (items : Object.object Partial.t)
  : async World unit :=
  fun w =>
    (Fulfilled tt,
     {| sync := fold_left (fun o entry => Object.set o (fst entry) (snd entry))
                          items (sync w);
        local := local w; rules := rules w; tabs := tabs w; notifications := notifications w;
        now := now w |}).

Definition chrome_storage_local_get (key : jsstring)
  : async World (Object.object jsstring) :=
  fun w =>
    (Fulfilled match Object.get (local w) key with
               | Some value => [(key, value)]
               | None => []
               end,
     w).

Definition chrome_storage_local_set (items : Object.object jsstring)
  : async World unit :=
  fun w =>
    (Fulfilled tt,
     {| sync := sync w; rules := rules w;
        local := fold_left (fun o entry => Object.set o (fst entry) (snd entry))
                           items (local w);
        tabs := tabs w; notifications := notifications w; now := now w |}).

Definition chrome_storage_local_remove (key : jsstring) : async World unit :=
  fun w =>
    (Fulfilled tt,
     {| sync := sync w; local := Object.delete (local w) key; rules := rules w;
        tabs := tabs w;
        notifications := notifications w; now := now w |}).

Definition chrome_tabs_create (url : jsstring) : async World unit :=
  fun w =>
    (Fulfilled tt,
     {| sync := sync w; local := local w; rules := rules w; tabs := tabs w ++ [url];
        notifications := notifications w; now := now w |}).

Definition chrome_tabs_update (_ : option Z) (_ : option jsstring) : async World unit :=
  fun w => (Fulfilled tt, w).

Definition chrome_notifications_create (id : jsstring)
    (_ : ServiceWorker.NotificationOptions) : async World unit :=
  fun w =>
    (Fulfilled tt,
     {| sync := sync w; local := local w; rules := rules w; tabs := tabs w;
        notifications := notifications w ++ [id]; now := now w |}).

Definition chrome_notifications_clear (id : jsstring) (w : World) : World :=
  {| sync := sync w; local := local w; rules := rules w; tabs := tabs w;
     notifications := filter (fun n => negb (jsstring_eqb n id)) (notifications w);
     now := now w |}.

Fixpoint distinct (ids : list N) : bool :=
  match ids with
  | [] => true
  | i :: rest => negb (existsb (N.eqb i) rest) && distinct rest
  end.

Definition chrome_declarativeNetRequest_updateDynamicRules
    (options : ServiceWorker.UpdateRuleOptions) : async World unit :=
  fun w =>
    let updated :=
      kept_rules (own (ServiceWorker.removeRuleIds options) []) (rules w)
      ++ own (ServiceWorker.addRules options) [] in
    if distinct (map ServiceWorker.id updated)
    then (Fulfilled tt,
          {| sync := sync w; local := local w; rules := updated; tabs := tabs w;
             notifications := notifications w; now := now w |})
    else (Rejected (Error (js "Rule does not have a unique ID.")), w).

Definition console_log (_ : jsstring) (w : World) : World := w.

Definition chrome_runtime_getURL (path : jsstring) : jsstring :=
  js "chrome-extension://wikitogrok/" ++ path.

Definition Date_now (w : World) : N := now w.

Definition console_error (_ : jsstring) (_ : exception) (w : World) : World := w.

(** The toast of the options page is not kept. *)
Definition showToast (_ _ : jsstring) (w : World) : World := w.

Definition handleMessage : Message -> async World MessageResponse :=
  ServiceWorker.handleMessage World chrome_storage_sync_get chrome_storage_sync_set
    chrome_tabs_update console_error chrome_notifications_create chrome_runtime_getURL
    chrome_storage_local_set Date_now.

Definition chrome_runtime_sendMessage (message : Message)
  : async World (option MessageResponse) :=
  fun w => delivered (handleMessage message w).

(** The value kept under a key of [chrome.storage.local], and the
    settings object kept in [chrome.storage.sync]. *)
Definition kept (w : World) (key : jsstring) : option jsstring := Object.get (local w) key.

Definition stored (w : World) : option Partial.t := Object.get (sync w) STORAGE_KEY.

End Browser.

(** ** Inputs of the concrete runs *)

Module Sample.
Import JS Promise Settings.

(** The update [{ autoRedirect: true }]. *)
Definition autoRedirect_on : Partial.t :=
  {| Partial.autoRedirect := Some true; Partial.useNotifications := None;
     Partial.redirectDelay := None; Partial.enabledLanguages := None;
     Partial.enabled := None |}.

(** The settings [{ ...DEFAULT_SETTINGS, autoRedirect: true }]. *)
Definition auto_settings : UserSettings :=
  {| autoRedirect := true; useNotifications := false; redirectDelay := 0;
     enabledLanguages := [js "en"]; enabled := true |}.

(** The mock storage with these settings saved. *)
Definition saved_storage : MockChrome.World :=
  {| MockChrome.mockStorage := [(STORAGE_KEY, as_Partial auto_settings)];
     MockChrome.console := [] |}.

(** A browser with nothing stored, no rule, no tab and no notification. *)
Definition fresh_browser : Browser.World :=
  {| Browser.sync := []; Browser.local := []; Browser.rules := []; Browser.tabs := [];
     Browser.notifications := []; Browser.now := 1700000000000 |}.

(** The change that saving [{ autoRedirect: true }] over nothing makes. *)
Definition first_save : Object.object Storage.StorageChange :=
  [(STORAGE_KEY,
    {| Storage.oldValue := None;
       Storage.newValue :=
         Some (as_Partial (spread (spread DEFAULT_SETTINGS None) (Some autoRedirect_on))) |})].

(** The page of an article of the English Wikipedia, with a service
    worker that answers with the default settings. *)
Definition article_page : Page.World :=
  {| Page.href := js "https://en.wikipedia.org/wiki/Albert_Einstein";
     Page.timers := []; Page.banner := None; Page.sent := []; Page.console := [];
     Page.answer := Some DEFAULT_SETTINGS |}.

(** The change from the default settings to auto-redirect for German
    pages only. *)
Definition german_auto_redirect : ContentScript.SettingsChange :=
  {| ContentScript.newValue :=
       {| autoRedirect := true; useNotifications := false; redirectDelay := 0;
          enabledLanguages := [js "de"]; enabled := true |};
     ContentScript.oldValue := Some DEFAULT_SETTINGS |}.

(** The languages grid with the boxes of English and German checked. *)
Definition english_and_german : list Options.Checkbox :=
  Options.populateLanguages [js "en"; js "de"].

(** The title [Café au lait], as code points. *)
Definition cafe_au_lait : list N :=
  js "Caf" ++ [233] ++ js " au lait".

(** The popup with both toggles checked, after the enabled toggle was
    switched off. *)
Definition switched_off : Popup.Elements :=
  {| Popup.enabledToggle_checked := false;
     Popup.autoRedirectToggle_checked := true;
     Popup.autoRedirectToggle_disabled := false;
     Popup.statusIndicator :=
       {| Popup.classList := [js "status"; js "auto-redirect"];
          Popup.textContent := js "Auto-redirect active" |} |}.

End Sample.

(* ===================================================================== *)
(** * Facts about the built-ins                                           *)
(* ===================================================================== *)

Lemma jsstring_eqb_eq (a b : jsstring) : jsstring_eqb a b = true <-> a = b.
Proof.
  unfold jsstring_eqb. destruct (list_eq_dec N.eq_dec a b); split; congruence.
Qed.

Lemma jsstring_eqb_refl (a : jsstring) : jsstring_eqb a a = true.
Proof. now apply jsstring_eqb_eq. Qed.

Lemma jsstring_eqb_neq (a b : jsstring) : jsstring_eqb a b = false <-> a <> b.
Proof.
  unfold jsstring_eqb. destruct (list_eq_dec N.eq_dec a b); split; congruence.
Qed.

Lemma startsWith_iff (s search : jsstring) :
  startsWith s search = true <-> exists rest, s = search ++ rest.
Proof.
  unfold startsWith. split.
  - destruct (Nat.ltb_spec (length s) (length search)); [discriminate|].
    intros E%jsstring_eqb_eq. exists (skipn (length search) s).
    etransitivity; [symmetry; apply (firstn_skipn (length search))|].
    f_equal. exact E.
  - intros [rest ->]. rewrite length_app.
    destruct (Nat.ltb_spec (length search + length rest) (length search)); [lia|].
    apply jsstring_eqb_eq.
    rewrite firstn_app, Nat.sub_diag, firstn_all, firstn_O. apply app_nil_r.
Qed.

Lemma startsWith_app (search rest : jsstring) : startsWith (search ++ rest) search = true.
Proof. apply startsWith_iff. now exists rest. Qed.

Lemma startsWith_false (s search : jsstring) :
  startsWith s search = false <-> forall rest, s <> search ++ rest.
Proof.
  split.
  - intros E rest ->. now rewrite startsWith_app in E.
  - intros H. destruct (startsWith s search) eqn:E; [|reflexivity].
    apply startsWith_iff in E as [rest ->]. now destruct (H rest).
Qed.

Lemma endsWith_iff (s search : jsstring) :
  endsWith s search = true <-> exists front, s = front ++ search.
Proof.
  unfold endsWith. split.
  - destruct (Nat.ltb_spec (length s) (length search)); [discriminate|].
    intros E%jsstring_eqb_eq. exists (firstn (length s - length search) s).
    etransitivity; [symmetry; apply (firstn_skipn (length s - length search))|].
    f_equal. exact E.
  - intros [front ->]. rewrite length_app.
    destruct (Nat.ltb_spec (length front + length search) (length search)); [lia|].
    apply jsstring_eqb_eq.
    replace (length front + length search - length search)%nat with (length front) by lia.
    rewrite skipn_app, Nat.sub_diag, skipn_all. reflexivity.
Qed.

Lemma endsWith_app (front search : jsstring) : endsWith (front ++ search) search = true.
Proof. apply endsWith_iff. now exists front. Qed.

(** Replacing a prefix by the empty string strips it: the first
    occurrence of the prefix is the one at position 0. *)
Lemma replace_prefix (search rest : jsstring) :
  replace (search ++ rest) search (js "") = rest.
Proof.
  unfold replace.
  assert (E : StringIndexOf (search ++ rest) search = Some 0%nat).
  { pose proof (startsWith_app search rest) as H.
    destruct (search ++ rest); simpl; now rewrite H. }
  rewrite E. simpl. rewrite skipn_app, Nat.sub_diag, skipn_all. reflexivity.
Qed.

Lemma truthy_Some (s : jsstring) : truthy (Some s) = true <-> s <> [].
Proof. destruct s; simpl; split; congruence. Qed.

(** ** Underscores *)

Lemma replace_global_underscore (s : jsstring) :
  replace_global_char s 95 (js " ") = underscores_to_spaces s.
Proof.
  unfold replace_global_char, underscores_to_spaces.
  induction s as [|c s IH]; simpl; [reflexivity|].
  rewrite IH. now destruct (c =? 95).
Qed.

Lemma underscores_to_spaces_no_underscore (s : jsstring) :
  ~ In 95 (underscores_to_spaces s).
Proof.
  unfold underscores_to_spaces. intros [c [E _]]%in_map_iff.
  destruct (N.eqb_spec c 95); [discriminate | congruence].
Qed.

Lemma underscores_to_spaces_length (s : jsstring) :
  length (underscores_to_spaces s) = length s.
Proof. apply length_map. Qed.

Lemma underscores_to_spaces_nth (s : jsstring) (i : nat) (c : code_unit) :
  nth_error s i = Some c ->
  nth_error (underscores_to_spaces s) i = Some (if c =? 95 then 32 else c).
Proof.
  intros H. unfold underscores_to_spaces.
  exact (map_nth_error (fun c => if c =? 95 then 32 else c) i s H).
Qed.

(** ** Regular expressions *)

Import RegExp WHATWG UrlTransformer.

Lemma skipn_nth_error_Some {A} (l : list A) (i : nat) (x : A) :
  nth_error l i = Some x -> skipn i l = x :: skipn (S i) l.
Proof.
  revert l. induction i as [|i IH]; intros [|y l]; simpl; try discriminate.
  - now intros [= ->].
  - intros H. rewrite (IH _ H). reflexivity.
Qed.

Lemma skipn_nth_error_None {A} (l : list A) (i : nat) :
  nth_error l i = None -> skipn i l = [].
Proof. intros H%nth_error_None. now apply skipn_all2. Qed.

Lemma startsWith_nil (s : jsstring) : startsWith s [] = true.
Proof. apply startsWith_iff. now exists s. Qed.

Lemma startsWith_cons (a b : code_unit) (s w : jsstring) :
  startsWith (a :: s) (b :: w) = (b =? a) && startsWith s w.
Proof.
  destruct (N.eqb_spec b a) as [->|Hne]; simpl.
  - destruct (startsWith s w) eqn:E.
    + apply startsWith_iff in E as [rest ->]. apply startsWith_iff. now exists rest.
    + apply startsWith_false. intros rest [= ->]. now rewrite startsWith_app in E.
  - apply startsWith_false. intros rest [= ->]. congruence.
Qed.

Lemma startsWith_of_nil (w : jsstring) : w <> [] -> startsWith [] w = false.
Proof.
  intros H. apply startsWith_false. intros rest E.
  destruct w; [congruence | discriminate].
Qed.

(** A run of pattern characters matches when the input continues with
    it, and moves the end index past it. *)
Lemma Lit_matcher (input w : jsstring) (x : MatchState)
    (c : MatchState -> option MatchState) :
  CompileSubpattern input (Lit w) x c =
  if startsWith (skipn (endIndex x) input) w
  then c {| endIndex := endIndex x + length w; captures := captures x |}
  else None.
Proof.
  revert x. induction w as [|b w IH]; intros [i caps];
    cbn [Lit CompileSubpattern endIndex captures length].
  - rewrite startsWith_nil, Nat.add_0_r. reflexivity.
  - unfold CharacterSetMatcher; cbn [endIndex captures].
    destruct (nth_error input i) as [ch|] eqn:E.
    + rewrite (skipn_nth_error_Some _ _ _ E), startsWith_cons.
      destruct (b =? ch); simpl; [|reflexivity].
      rewrite IH; simpl. now rewrite Nat.add_succ_r.
    + rewrite (skipn_nth_error_None _ _ E), startsWith_of_nil by discriminate.
      reflexivity.
Qed.

(** A run of pattern characters followed by [$] matches when it is the
    rest of the input. *)
Lemma Lit_Eol_matcher (input w : jsstring) (x : MatchState)
    (c : MatchState -> option MatchState) :
  w <> [] ->
  CompileSubpattern input (Seq (Lit w) Eol) x c =
  if jsstring_eqb (skipn (endIndex x) input) w
  then c {| endIndex := length input; captures := captures x |}
  else None.
Proof.
  intros Hw. cbn [CompileSubpattern]. rewrite Lit_matcher. cbn [endIndex captures].
  destruct (startsWith (skipn (endIndex x) input) w) eqn:E.
  - apply startsWith_iff in E as [rest E].
    assert (L : length input = (endIndex x + length w + length rest)%nat).
    { rewrite <- (firstn_skipn (endIndex x) input), E, !length_app.
      destruct (Nat.le_gt_cases (endIndex x) (length input)) as [Hle|Hgt].
      - rewrite firstn_length_le by exact Hle. lia.
      - rewrite skipn_all2 in E by lia. destruct w; [congruence | discriminate]. }
    destruct rest as [|r rest].
    + rewrite E, app_nil_r, jsstring_eqb_refl.
      simpl in L. rewrite Nat.add_0_r in L. rewrite <- L, Nat.eqb_refl. reflexivity.
    + replace (jsstring_eqb (skipn (endIndex x) input) w) with false.
      * destruct (Nat.eqb_spec (endIndex x + length w) (length input)); [|reflexivity].
        simpl in L. lia.
      * symmetry. apply jsstring_eqb_neq. rewrite E. intros H.
        apply (f_equal (@length _)) in H. rewrite length_app in H. simpl in H. lia.
  - replace (jsstring_eqb (skipn (endIndex x) input) w) with false; [reflexivity|].
    symmetry. apply jsstring_eqb_neq. intros H. rewrite H in E.
    rewrite <- (app_nil_r w) in E at 1. now rewrite startsWith_app in E.
Qed.

(** A pattern that begins with [^] matches at start index 0 or nowhere. *)
Lemma exec_from_Bol (r : regex) (input : jsstring) (tries lastIndex : nat) :
  exec_from (Seq Bol r) input tries (S lastIndex) = None.
Proof.
  revert lastIndex. induction tries as [|tries IH]; intros lastIndex; simpl.
  - reflexivity.
  - apply IH.
Qed.

Lemma match_Bol (r : regex) (input : jsstring) :
  match_ input (Seq Bol r) =
  match CompileSubpattern input r {| endIndex := 0; captures := [] |} Some with
  | Some y => Some {| index := 0; state := y |}
  | None => None
  end.
Proof.
  unfold match_. destruct (length input) as [|n]; simpl.
  - now destruct (CompileSubpattern input r _ Some).
  - destruct (CompileSubpattern input r _ Some); [reflexivity|].
    apply (exec_from_Bol r input n 0).
Qed.

Lemma Repeat_2_3_matcher (input : jsstring) (lo hi : code_unit) (tail : regex) :
  let K n := CompileSubpattern input tail
               {| endIndex := n; captures := [(1%nat, (0%nat, n))] |} Some in
  CompileSubpattern input (Seq (Group 1 (Repeat (Range lo hi) 2 3)) tail)
    {| endIndex := 0; captures := [] |} Some =
  match input with
  | a :: b :: t =>
      if in_range lo hi a && in_range lo hi b then
        match t with
        | c :: _ =>
            if in_range lo hi c
            then match K 3%nat with Some z => Some z | None => K 2%nat end
            else K 2%nat
        | [] => K 2%nat
        end
      else None
  | _ => None
  end.
Proof.
  intros K.
  destruct input as [|a [|b t]]; cbn -[in_range]; try reflexivity.
  - destruct (in_range lo hi a); reflexivity.
  - destruct (in_range lo hi a); [|reflexivity].
    destruct (in_range lo hi b); [|reflexivity].
    destruct t as [|c t]; unfold CharacterSetMatcher; cbn -[in_range CompileSubpattern];
      [reflexivity|].
    destruct (in_range lo hi c); reflexivity.
Qed.

Lemma in_range_iff (c : code_unit) : in_range 97 122 c = true <-> is_lowercase_letter c.
Proof. unfold in_range, is_lowercase_letter. rewrite andb_true_iff, !N.leb_le. tauto. Qed.

Lemma language_label_inv (l : jsstring) :
  language_label l ->
  (exists a b, l = [a; b] /\ is_lowercase_letter a /\ is_lowercase_letter b)
  \/ (exists a b c, l = [a; b; c] /\ is_lowercase_letter a /\ is_lowercase_letter b
                    /\ is_lowercase_letter c).
Proof.
  intros [[L|L] F].
  - destruct l as [|a [|b [|c l]]]; try discriminate.
    left. exists a, b. inversion F as [|? ? Fa F']; inversion F'; subst. auto.
  - destruct l as [|a [|b [|c [|d l]]]]; try discriminate.
    right. exists a, b, c.
    inversion F as [|? ? Fa F']; inversion F' as [|? ? Fb F'']; inversion F''; subst. auto.
Qed.

Lemma language_label_2 (a b : code_unit) :
  is_lowercase_letter a -> is_lowercase_letter b -> language_label [a; b].
Proof. intros. split; [now left | repeat (constructor; try assumption)]. Qed.

Lemma language_label_3 (a b c : code_unit) :
  is_lowercase_letter a -> is_lowercase_letter b -> is_lowercase_letter c ->
  language_label [a; b; c].
Proof. intros. split; [now right | repeat (constructor; try assumption)]. Qed.

Lemma lang_pattern_match (h : jsstring) :
  match match_ h lang_pattern with
  | Some m => exists l, language_label l /\ h = l ++ js ".wikipedia.org"
                        /\ get h m 1 = Some l
  | None => forall l, language_label l -> h <> l ++ js ".wikipedia.org"
  end.
Proof.
  unfold lang_pattern. rewrite match_Bol, Repeat_2_3_matcher.
  rewrite !Lit_Eol_matcher by discriminate. cbn [endIndex captures].
  assert (Short : forall l, language_label l ->
            forall a b t, a :: b :: t = l ++ js ".wikipedia.org" ->
            (l = [a; b] /\ t = js ".wikipedia.org")
            \/ (exists c t', t = c :: t' /\ l = [a; b; c] /\ t' = js ".wikipedia.org")).
  { intros l Hl a b t E.
    destruct (language_label_inv l Hl) as [(a' & b' & -> & _)|(a' & b' & c' & -> & _)];
      injection E as -> -> ->; [left | right]; eauto. }
  destruct h as [|a [|b t]].
  - intros l Hl E. destruct (language_label_inv l Hl) as [(? & ? & -> & _)|(? & ? & ? & -> & _)];
      discriminate.
  - intros l Hl E. destruct (language_label_inv l Hl) as [(? & ? & -> & _)|(? & ? & ? & -> & _)];
      discriminate.
  - destruct (in_range 97 122 a) eqn:Ha; cbn [andb].
    2:{ intros l Hl E. apply not_true_iff_false in Ha. apply Ha, in_range_iff.
        destruct (language_label_inv l Hl) as [(? & ? & -> & ? & _)|(? & ? & ? & -> & ? & _)];
          injection E as -> _; assumption. }
    destruct (in_range 97 122 b) eqn:Hb.
    2:{ intros l Hl E. apply not_true_iff_false in Hb. apply Hb, in_range_iff.
        destruct (language_label_inv l Hl) as [(? & ? & -> & _ & ? )|(? & ? & ? & -> & _ & ? & _)];
          injection E as _ -> _; assumption. }
    apply in_range_iff in Ha, Hb.
    destruct t as [|c t'].
    + cbn. intros l Hl E. destruct (Short l Hl _ _ _ E) as [[_ ?]|(? & ? & ? & _)]; discriminate.
    + cbn [skipn].
      destruct (in_range 97 122 c) eqn:Hc.
      * apply in_range_iff in Hc.
        assert (Hdot : jsstring_eqb (c :: t') (js ".wikipedia.org") = false).
        { apply jsstring_eqb_neq. intros [= -> _]. unfold is_lowercase_letter in Hc. lia. }
        rewrite Hdot.
        destruct (jsstring_eqb t' (js ".wikipedia.org")) eqn:Et.
        -- apply jsstring_eqb_eq in Et. subst t'. exists [a; b; c].
           split; [now apply language_label_3|]. split; reflexivity.
        -- apply jsstring_eqb_neq in Et, Hdot. intros l Hl E.
           destruct (Short l Hl _ _ _ E) as [[_ ?]|(? & ? & [= <- <-] & _ & ?)]; contradiction.
      * destruct (jsstring_eqb (c :: t') (js ".wikipedia.org")) eqn:Et.
        -- apply jsstring_eqb_eq in Et. rewrite Et. exists [a; b].
           split; [now apply language_label_2|]. split; reflexivity.
        -- apply jsstring_eqb_neq in Et. intros l Hl E.
           destruct (Short l Hl _ _ _ E) as [[_ ?]|(? & ? & [= <- <-] & El & ?)];
             [contradiction|].
           apply not_true_iff_false in Hc. apply Hc, in_range_iff.
           destruct (language_label_inv l Hl) as [(? & ? & -> & _)|(? & ? & ? & -> & _ & _ & ?)];
             [discriminate|]. injection El as _ _ ->. assumption.
Qed.

Lemma simple_pattern_match (h : jsstring) :
  match match_ h simple_pattern with
  | Some m => h = js "simple.wikipedia.org"
  | None => h <> js "simple.wikipedia.org"
  end.
Proof.
  unfold simple_pattern. rewrite match_Bol.
  cbn [CompileSubpattern]. rewrite Lit_matcher. cbn [endIndex captures skipn].
  destruct (startsWith h (js "simple")) eqn:E.
  - apply startsWith_iff in E as [rest ->].
    pose proof (Lit_Eol_matcher (js "simple" ++ rest) (js ".wikipedia.org")) as L.
    cbn [CompileSubpattern] in L. rewrite L by discriminate. clear L.
    cbn [endIndex captures].
    replace (skipn (0 + length (js "simple")) (js "simple" ++ rest)) with rest
      by reflexivity.
    destruct (jsstring_eqb rest (js ".wikipedia.org")) eqn:Er; cbv iota.
    + apply jsstring_eqb_eq in Er. now subst rest.
    + apply jsstring_eqb_neq in Er. intros H. apply Er.
      apply (app_inv_head (js "simple")). exact H.
  - intros ->. discriminate.
Qed.

(* ===================================================================== *)
(** * Facts about the URL parser                                          *)
(* ===================================================================== *)

Lemma word_character_range (c : N) :
  is_word_character c = true ->
  48 <= c <= 122 /\ c <> 60 /\ c <> 62 /\ c <> 63 /\ c <> 92 /\ c <> 94 /\ c <> 96.
Proof.
  unfold is_word_character, is_ascii_alphanumeric, is_ascii_alpha, is_ascii_digit,
    is_ascii_upper_alpha, is_ascii_lower_alpha.
  intros H. bool_to_Prop; lia.
Qed.

Lemma to_scalar_values_app (A s : jsstring) :
  Forall (fun c => c < 55296) A ->
  to_scalar_values (A ++ s) = A ++ to_scalar_values s.
Proof.
  induction 1 as [|c A Hc _ IH]; [reflexivity|].
  cbn [app to_scalar_values]. unfold is_high_surrogate, is_low_surrogate.
  rewrite IH. N_bool; reflexivity.
Qed.

Lemma dropWhile_app_stop (f : N -> bool) (X Y : list N) :
  dropWhile f Y = Y -> dropWhile f (X ++ Y) = dropWhile f X ++ Y.
Proof.
  intros HY. induction X as [|c X IH]; cbn [app dropWhile]; [exact HY|].
  now destruct (f c).
Qed.

Lemma filter_all (f : N -> bool) (l : list N) :
  forallb f l = true -> filter f l = l.
Proof.
  induction l as [|c l IH]; cbn [forallb filter]; [reflexivity|].
  intros [Hc Hl]%andb_true_iff. rewrite Hc, (IH Hl). reflexivity.
Qed.

(** The preprocessing of the input leaves a prefix of printable ASCII
    characters alone. *)
Lemma preprocess_app (A s : jsstring) (z : N) :
  forallb (fun c => (32 <? c) && (c <? 127)) (A ++ [z]) = true ->
  remove_tab_newline (strip_trailing (strip_leading (to_scalar_values ((A ++ [z]) ++ s))))
  = (A ++ [z]) ++ suffix_as_parsed s.
Proof.
  intros HA. unfold suffix_as_parsed, remove_tab_newline, strip_trailing, strip_leading.
  assert (HA' : Forall (fun c => 32 < c < 127) (A ++ [z])).
  { apply Forall_forall. intros c Hc. rewrite forallb_forall in HA.
    specialize (HA c Hc). bool_to_Prop. lia. }
  rewrite to_scalar_values_app
    by (eapply Forall_impl; [|exact HA']; cbv beta; intros; lia).
  set (X := to_scalar_values s).
  assert (Hz : is_C0_control_or_space z = false).
  { apply Forall_app in HA' as [_ Hz]. inversion Hz; subst.
    unfold is_C0_control_or_space. N_bool; reflexivity. }
  assert (D1 : dropWhile is_C0_control_or_space ((A ++ [z]) ++ X) = (A ++ [z]) ++ X).
  { destruct A as [|a A]; cbn [app dropWhile].
    - now rewrite Hz.
    - inversion HA' as [|? ? Ha _]; subst.
      unfold is_C0_control_or_space at 1. N_bool; reflexivity. }
  rewrite D1, rev_app_distr, dropWhile_app_stop.
  2:{ rewrite rev_app_distr. cbn [rev app dropWhile]. now rewrite Hz. }
  rewrite rev_app_distr, rev_involutive, filter_app, filter_all; [reflexivity|].
  apply forallb_forall. intros c Hc. rewrite Forall_forall in HA'.
  specialize (HA' c Hc). unfold is_tab_or_newline. N_bool; reflexivity.
Qed.

Lemma utf8_percent_encode_word (c : N) :
  is_word_character c = true -> utf8_percent_encode path_percent_encode_set c = [c].
Proof.
  intros H%word_character_range. unfold utf8_percent_encode.
  replace (path_percent_encode_set c) with false; [reflexivity|].
  unfold path_percent_encode_set, query_percent_encode_set, C0_control_percent_encode_set.
  N_bool; reflexivity.
Qed.

(** The path state copies word characters to its buffer. *)
Lemma path_state_word (w : list N) :
  forallb is_word_character w = true ->
  forall path buffer rest,
    path_state path buffer (w ++ rest) = path_state path (buffer ++ w) rest.
Proof.
  induction w as [|c w IH]; intros Hw path buffer rest.
  - now rewrite app_nil_r.
  - cbn [forallb] in Hw. apply andb_true_iff in Hw as [Hc Hw].
    cbn [app path_state]. rewrite utf8_percent_encode_word by exact Hc.
    pose proof (word_character_range c Hc) as R.
    replace (is_slash c) with false by (unfold is_slash; N_bool; reflexivity).
    replace ((c =? 63) || (c =? 35)) with false by (N_bool; reflexivity).
    rewrite IH by exact Hw. now rewrite <- app_assoc.
Qed.

Lemma jsstring_eqb_head (a b : code_unit) (x y : jsstring) :
  a <> b -> jsstring_eqb (a :: x) (b :: y) = false.
Proof. intros H. apply jsstring_eqb_neq. congruence. Qed.

(** A segment that begins with a word character is not a dot segment. *)
Lemma not_dot_segment (c : N) (segment : list N) :
  is_word_character c = true ->
  is_single_dot (c :: segment) = false /\ is_double_dot (c :: segment) = false.
Proof.
  intros H%word_character_range.
  assert (L : ascii_lowercase c <> 46 /\ ascii_lowercase c <> 37).
  { unfold ascii_lowercase, is_ascii_upper_alpha. N_bool; cbn [andb]; lia. }
  destruct L as [L1 L2].
  unfold is_single_dot, is_double_dot. cbn [map existsb].
  change (js ".") with [46]. change (js "%2e") with [37; 50; 101].
  change (js "..") with [46; 46]. change (js ".%2e") with [46; 37; 50; 101].
  change (js "%2e.") with [37; 50; 101; 46].
  change (js "%2e%2e") with [37; 50; 101; 37; 50; 101].
  rewrite !jsstring_eqb_head by assumption. split; reflexivity.
Qed.

Lemma end_segment_word (path : list (list N)) (c : N) (segment : list N) (slash : bool) :
  is_word_character c = true ->
  end_segment path (c :: segment) slash = path ++ [c :: segment].
Proof.
  intros H. unfold end_segment.
  destruct (not_dot_segment c segment H) as [-> ->]. reflexivity.
Qed.

(** ** Dot segments and percent-encoding *)

Lemma ascii_lowercase_inv (c k : N) :
  ascii_lowercase c = k -> c = k \/ (65 <= c <= 90 /\ k = c + 32).
Proof.
  unfold ascii_lowercase, is_ascii_upper_alpha.
  destruct (N.leb_spec 65 c); destruct (N.leb_spec c 90); cbn [andb]; intros <-; auto.
Qed.

Lemma map_cons_inv {A B} (f : A -> B) (l : list A) (y : B) (ys : list B) :
  map f l = y :: ys -> exists x xs, l = x :: xs /\ f x = y /\ map f xs = ys.
Proof. destruct l as [|x xs]; [discriminate|]. intros [= H1 H2]. eauto. Qed.

Lemma is_double_dot_escapes (x : list N) :
  is_double_dot x = true -> escapes_are_dots x = true.
Proof.
  unfold is_double_dot. cbn [existsb].
  change (js "..") with [46; 46]. change (js ".%2e") with [46; 37; 50; 101].
  change (js "%2e.") with [37; 50; 101; 46].
  change (js "%2e%2e") with [37; 50; 101; 37; 50; 101].
  rewrite !orb_true_iff, !jsstring_eqb_eq.
  intros [H|[H|[H|[H|H]]]]; [..|discriminate];
    repeat (apply map_cons_inv in H; destruct H as (? & ? & -> & ? & H));
    apply map_eq_nil in H; subst;
    repeat match goal with
           | H : ascii_lowercase ?c = _ |- _ =>
               apply ascii_lowercase_inv in H; destruct H as [->|[? ?]];
               [|first [lia | assert (c = 69) by lia; subst c]]
           end;
    reflexivity.
Qed.

Lemma is_single_dot_escapes (x : list N) :
  is_single_dot x = true -> escapes_are_dots x = true.
Proof.
  unfold is_single_dot. cbn [existsb].
  change (js ".") with [46]. change (js "%2e") with [37; 50; 101].
  rewrite !orb_true_iff, !jsstring_eqb_eq.
  intros [H|[H|H]]; [..|discriminate];
    repeat (apply map_cons_inv in H; destruct H as (? & ? & -> & ? & H));
    apply map_eq_nil in H; subst;
    repeat match goal with
           | H : ascii_lowercase ?c = _ |- _ =>
               apply ascii_lowercase_inv in H; destruct H as [->|[? ?]];
               [|first [lia | assert (c = 69) by lia; subst c]]
           end;
    reflexivity.
Qed.

(** The first byte of the UTF-8 encoding of a code point. *)
Lemma utf8_encode_first (c : N) :
  exists b bs, utf8_encode c = b :: bs /\ (b = c /\ c < 128 \/ 192 <= b).
Proof.
  unfold utf8_encode.
  destruct (N.ltb_spec c 128); [eexists; eexists; split; [reflexivity | left; lia]|].
  destruct (N.ltb_spec c 2048);
    [eexists; eexists; split; [reflexivity | right; apply N.le_add_r]|].
  destruct (N.ltb_spec c 65536); eexists; eexists;
    (split; [reflexivity | right; etransitivity; [|apply N.le_add_r]; lia]).
Qed.

Lemma upper_hex_digit_2 (n : N) : upper_hex_digit n = 50 -> n = 2.
Proof. unfold upper_hex_digit. destruct (N.ltb_spec n 10); lia. Qed.

Lemma upper_hex_digit_E (n : N) :
  n < 16 -> upper_hex_digit n = 101 \/ upper_hex_digit n = 69 -> n = 14.
Proof. unfold upper_hex_digit. destruct (N.ltb_spec n 10); lia. Qed.

(** A text in which every [%] starts an escaped dot was not changed by
    percent-encoding. *)
Lemma percent_encode_escapes (segment : list N) :
  escapes_are_dots (percent_encode_after_encoding path_percent_encode_set segment) = true ->
  percent_encode_after_encoding path_percent_encode_set segment = segment.
Proof.
  unfold percent_encode_after_encoding.
  induction segment as [|c rest IH]; [reflexivity|].
  cbn [flat_map]. unfold utf8_percent_encode at 1 3.
  destruct (path_percent_encode_set c) eqn:E.
  - destruct (utf8_encode_first c) as (b & bs & -> & Hb).
    cbn [flat_map percent_encode_byte app escapes_are_dots].
    change (37 =? 37) with true. cbv iota.
    intros H. apply andb_true_iff in H as [H _]. apply andb_true_iff in H as [H1 H2].
    apply N.eqb_eq, upper_hex_digit_2 in H1.
    apply orb_true_iff in H2. rewrite !N.eqb_eq in H2.
    apply upper_hex_digit_E in H2; [|apply N.mod_lt; lia].
    assert (b = 46) by (rewrite (N.div_mod b 16) by lia; lia).
    subst b. destruct Hb as [[<- _]|Hb]; [|lia]. vm_compute in E. discriminate E.
  - cbn [app escapes_are_dots]. intros [_ H]%andb_true_iff. now rewrite (IH H).
Qed.

Lemma double_dot_encoded (segment : list N) :
  is_double_dot segment = false ->
  is_double_dot (percent_encode_after_encoding path_percent_encode_set segment) = false.
Proof.
  intros H.
  destruct (is_double_dot (percent_encode_after_encoding _ segment)) eqn:E; [|reflexivity].
  rewrite (percent_encode_escapes segment (is_double_dot_escapes _ E)) in E. congruence.
Qed.

(** ** The path state *)

Lemma path_segments_nonempty (input : list N) :
  exists segment segments, path_segments input = segment :: segments.
Proof.
  induction input as [|c rest (h & t & IH)]; cbn [path_segments]; [eauto|].
  destruct (is_slash c); [eauto|].
  destruct ((c =? 63) || (c =? 35)); [eauto|]. rewrite IH. eauto.
Qed.

(** A dot segment has nothing that percent-encoding changes, and
    percent-encoding makes no dot segment: the parser classifies the
    encoded segment as the segment itself is classified. *)
Lemma double_dot_not_encoded (x : list N) :
  is_double_dot x = true ->
  percent_encode_after_encoding path_percent_encode_set x = x.
Proof.
  unfold is_double_dot. cbn [existsb].
  change (js "..") with [46; 46]. change (js ".%2e") with [46; 37; 50; 101].
  change (js "%2e.") with [37; 50; 101; 46].
  change (js "%2e%2e") with [37; 50; 101; 37; 50; 101].
  rewrite !orb_true_iff, !jsstring_eqb_eq.
  intros [H|[H|[H|[H|H]]]]; [..|discriminate];
    repeat (apply map_cons_inv in H; destruct H as (? & ? & -> & ? & H));
    apply map_eq_nil in H; subst;
    repeat match goal with
           | H : ascii_lowercase ?c = _ |- _ =>
               apply ascii_lowercase_inv in H; destruct H as [->|[? ?]];
               [|first [lia | assert (c = 69) by lia; subst c]]
           end;
    reflexivity.
Qed.

Lemma single_dot_not_encoded (x : list N) :
  is_single_dot x = true ->
  percent_encode_after_encoding path_percent_encode_set x = x.
Proof.
  unfold is_single_dot. cbn [existsb].
  change (js ".") with [46]. change (js "%2e") with [37; 50; 101].
  rewrite !orb_true_iff, !jsstring_eqb_eq.
  intros [H|[H|H]]; [..|discriminate];
    repeat (apply map_cons_inv in H; destruct H as (? & ? & -> & ? & H));
    apply map_eq_nil in H; subst;
    repeat match goal with
           | H : ascii_lowercase ?c = _ |- _ =>
               apply ascii_lowercase_inv in H; destruct H as [->|[? ?]];
               [|first [lia | assert (c = 69) by lia; subst c]]
           end;
    reflexivity.
Qed.

Lemma single_dot_encoded (segment : list N) :
  is_single_dot segment = false ->
  is_single_dot (percent_encode_after_encoding path_percent_encode_set segment) = false.
Proof.
  intros H.
  destruct (is_single_dot (percent_encode_after_encoding _ segment)) eqn:E; [|reflexivity].
  rewrite (percent_encode_escapes segment (is_single_dot_escapes _ E)) in E. congruence.
Qed.

Lemma segment_step_encoded (above : nat) (segment : list N) :
  segment_step above (percent_encode_after_encoding path_percent_encode_set segment)
  = segment_step above segment.
Proof.
  unfold segment_step.
  destruct (is_double_dot segment) eqn:Edouble.
  - now rewrite (double_dot_not_encoded segment Edouble), Edouble.
  - rewrite (double_dot_encoded segment Edouble).
    destruct (is_single_dot segment) eqn:Esingle.
    + now rewrite (single_dot_not_encoded segment Esingle), Esingle.
    + now rewrite (single_dot_encoded segment Esingle).
Qed.

(** The end of a segment, on a path whose last [length above] segments
    stand above the others. *)
Lemma end_segment_step (path above : list (list N)) (buffer : list N) (slash : bool)
    (n : nat) :
  segment_step (length above) buffer = Some n ->
  exists above',
    end_segment (path ++ above) buffer slash = path ++ above'
    /\ (slash = true -> length above' = n).
Proof.
  unfold segment_step, end_segment.
  destruct (is_double_dot buffer).
  - destruct above as [|a above]; [discriminate|].
    destruct (exists_last (l := a :: above)) as (front & z & ->); [discriminate|].
    rewrite length_app, Nat.add_1_r. intros [= <-].
    rewrite app_assoc, removelast_last.
    destruct slash; [exists front | exists (front ++ [[]])].
    + now split.
    + split; [now rewrite app_assoc | discriminate].
  - destruct (is_single_dot buffer).
    + intros [= <-]. destruct slash; [exists above | exists (above ++ [[]])].
      * now split.
      * split; [now rewrite app_assoc | discriminate].
    + intros [= <-]. exists (above ++ [buffer]). split; [now rewrite app_assoc|].
      intros _. now rewrite length_app, Nat.add_1_r.
Qed.

(** As long as no double-dot segment finds the segments above used up,
    the path state leaves the segments below as they are. *)
Lemma path_state_keeps (input : list N) :
  forall path above buffer,
    match segment_step (length above)
            (buffer ++ percent_encode_after_encoding path_percent_encode_set
                         (hd [] (path_segments input))) with
    | Some n => stays_above n (tl (path_segments input))
    | None => false
    end = true ->
    exists above' rest, path_state (path ++ above) buffer input = (path ++ above', rest).
Proof.
  induction input as [|c input IH]; intros path above buffer H; cbn [path_state].
  - cbn [path_segments hd tl percent_encode_after_encoding flat_map] in H.
    rewrite app_nil_r in H.
    destruct (segment_step (length above) buffer) as [n|] eqn:E; [|discriminate H].
    destruct (end_segment_step path above buffer false n E) as (above' & -> & _). eauto.
  - cbn [path_segments] in H.
    destruct (path_segments_nonempty input) as (h & t & Es). rewrite Es in H.
    destruct (is_slash c).
    + cbn [hd tl percent_encode_after_encoding flat_map] in H. rewrite app_nil_r in H.
      destruct (segment_step (length above) buffer) as [n|] eqn:E; [|discriminate H].
      destruct (end_segment_step path above buffer true n E) as (above' & -> & Hn).
      apply IH. rewrite Es, (Hn eq_refl). cbn [hd tl app].
      rewrite segment_step_encoded. exact H.
    + destruct ((c =? 63) || (c =? 35)).
      * cbn [hd tl percent_encode_after_encoding flat_map] in H. rewrite app_nil_r in H.
        destruct (segment_step (length above) buffer) as [n|] eqn:E; [|discriminate H].
        destruct (end_segment_step path above buffer false n E) as (above' & -> & _). eauto.
      * cbn [hd tl] in H. apply IH. rewrite Es. cbn [hd tl].
        unfold percent_encode_after_encoding in *. cbn [flat_map] in H.
        now rewrite <- app_assoc.
Qed.

(** A segment that begins with a word character stays in the path, with
    what the input adds to it. *)
Lemma path_state_word_segment (input : list N) :
  forall path c buffer,
    is_word_character c = true ->
    stays_above 0 (tl (path_segments input)) = true ->
    exists encoded extra rest,
      path_state path (c :: buffer) input
      = (path ++ [(c :: buffer) ++ encoded] ++ extra, rest).
Proof.
  induction input as [|x input IH]; intros path c buffer Hc Ht; cbn [path_state].
  - rewrite end_segment_word by exact Hc. exists [], [], [].
    now rewrite !app_nil_r.
  - cbn [path_segments] in Ht.
    destruct (path_segments_nonempty input) as (h & t & Es). rewrite Es in Ht.
    destruct (is_slash x).
    + rewrite end_segment_word by exact Hc. cbn [tl] in Ht.
      assert (P : match segment_step (length (@nil (list N)))
                          ([] ++ percent_encode_after_encoding path_percent_encode_set
                                   (hd [] (path_segments input))) with
                  | Some n => stays_above n (tl (path_segments input))
                  | None => false
                  end = true).
      { rewrite Es. cbn [hd tl app length]. rewrite segment_step_encoded. exact Ht. }
      destruct (path_state_keeps input (path ++ [c :: buffer]) [] [] P)
        as (extra & rest & E).
      rewrite app_nil_r in E. rewrite E.
      exists [], extra, rest. now rewrite app_nil_r, <- app_assoc.
    + destruct ((x =? 63) || (x =? 35)).
      * rewrite end_segment_word by exact Hc. exists [], [], (x :: input).
        now rewrite !app_nil_r.
      * cbn [tl] in Ht.
        assert (P : stays_above 0 (tl (path_segments input)) = true)
          by (rewrite Es; exact Ht).
        destruct (IH path c (buffer ++ utf8_percent_encode path_percent_encode_set x) Hc P)
          as (encoded & extra & rest & E).
        cbn [app] in E |- *. rewrite E.
        exists (utf8_percent_encode path_percent_encode_set x ++ encoded), extra, rest.
        now rewrite <- app_assoc.
Qed.

(** The parse of a URL of the English Wikipedia whose path is [/wiki/]
    and a run of word characters [c :: w], followed by a suffix that
    keeps its segment: the segment that begins with [c :: w] is still
    the second segment of the parsed path. *)
Lemma parse_wiki_segment (c : N) (w s : jsstring) :
  forallb is_word_character (c :: w) = true ->
  keeps_its_segment s ->
  exists rest query fragment,
    basic_URL_parser (wiki_prefix ++ (c :: w) ++ s) =
    Parsed {| hostname := js "en.wikipedia.org";
              pathname := js "/wiki/" ++ (c :: w) ++ rest;
              search := query;
              hash := fragment |}.
Proof.
  intros Hw Hs.
  destruct (exists_last (l := c :: w)) as (w' & z & Ew); [discriminate|].
  assert (Hplain : forallb (fun c => (32 <? c) && (c <? 127)) ((wiki_prefix ++ w') ++ [z]) = true).
  { rewrite <- app_assoc, <- Ew, forallb_app. apply andb_true_iff. split; [reflexivity|].
    apply forallb_forall. intros x Hx. rewrite forallb_forall in Hw.
    pose proof (word_character_range x (Hw x Hx)). N_bool; reflexivity. }
  unfold basic_URL_parser.
  replace (wiki_prefix ++ (c :: w) ++ s) with (((wiki_prefix ++ w') ++ [z]) ++ s)
    by (now rewrite Ew, <- !app_assoc).
  rewrite (preprocess_app _ s z Hplain).
  rewrite <- (app_assoc wiki_prefix), <- Ew, <- app_assoc.
  set (s' := suffix_as_parsed s) in *.
  change (scheme_start_state (wiki_prefix ++ (c :: w) ++ s'))
    with (Some (js "https", js "//en.wikipedia.org/wiki/" ++ (c :: w) ++ s')).
  cbv iota beta.
  change (is_special_not_file (js "https")) with true. cbv iota.
  change (dropWhile is_slash (js "//en.wikipedia.org/wiki/" ++ (c :: w) ++ s'))
    with (js "en.wikipedia.org/wiki/" ++ (c :: w) ++ s').
  change (break_at is_authority_end (js "en.wikipedia.org/wiki/" ++ (c :: w) ++ s'))
    with (js "en.wikipedia.org", js "/wiki/" ++ (c :: w) ++ s').
  cbv iota beta.
  change (authority_state (js "en.wikipedia.org")) with (Host (js "en.wikipedia.org")).
  cbv iota beta.
  change (path_start_state (js "/wiki/" ++ (c :: w) ++ s'))
    with (path_state [js "wiki"] [] ((c :: w) ++ s')).
  rewrite path_state_word by exact Hw. change ([] ++ c :: w) with (c :: w).
  assert (Hc : is_word_character c = true)
    by (cbn [forallb] in Hw; now apply andb_true_iff in Hw).
  destruct (path_state_word_segment s' [js "wiki"] c w Hc Hs)
    as (encoded & extra & rest & ->).
  destruct (query_state rest) as [query fragment].
  exists (encoded ++ serialize_path extra), query, fragment. f_equal.
  unfold serialize_path. rewrite !flat_map_app. cbn [app flat_map].
  now rewrite app_nil_r, <- !app_assoc.
Qed.

(** ** The path of a parsed URL has no [?] and no [#] *)

Lemma upper_hex_digit_no_delimiter (n : N) :
  upper_hex_digit n <> 63 /\ upper_hex_digit n <> 35.
Proof. unfold upper_hex_digit. N_bool; lia. Qed.

Lemma utf8_percent_encode_no_delimiter (c : N) :
  c <> 63 -> c <> 35 ->
  no_delimiter (utf8_percent_encode path_percent_encode_set c).
Proof.
  intros H1 H2. unfold utf8_percent_encode, no_delimiter.
  destruct (path_percent_encode_set c); [|repeat constructor; assumption].
  induction (utf8_encode c) as [|b l IH]; cbn [flat_map]; [constructor|].
  apply Forall_app. split; [|exact IH].
  unfold percent_encode_byte.
  repeat constructor; try apply upper_hex_digit_no_delimiter; lia.
Qed.

Lemma end_segment_no_delimiter (path : list (list N)) (buffer : list N) (slash : bool) :
  Forall no_delimiter path -> no_delimiter buffer ->
  Forall no_delimiter (end_segment path buffer slash).
Proof.
  intros Hp Hb. unfold end_segment.
  assert (Hr : Forall no_delimiter (removelast path)).
  { apply Forall_forall. intros x Hx. rewrite Forall_forall in Hp.
    apply Hp. clear -Hx. induction path as [|y [|z path] IH]; try contradiction.
    destruct Hx as [<-|Hx]; [now left | right; exact (IH Hx)]. }
  destruct (is_double_dot buffer); [destruct slash|];
    [assumption | apply Forall_app; split; [assumption | repeat constructor] |].
  destruct (is_single_dot buffer); [destruct slash|];
    [assumption | apply Forall_app; split; [assumption | repeat constructor] |].
  apply Forall_app; split; [assumption | now repeat constructor].
Qed.

Lemma path_state_no_delimiter (input : list N) :
  forall path buffer,
    Forall no_delimiter path -> no_delimiter buffer ->
    Forall no_delimiter (fst (path_state path buffer input)).
Proof.
  induction input as [|c rest IH]; intros path buffer Hp Hb; cbn [path_state].
  - now apply end_segment_no_delimiter.
  - destruct (is_slash c).
    + apply IH; [now apply end_segment_no_delimiter | constructor].
    + destruct (N.eqb_spec c 63) as [->|H1]; cbn [orb fst];
        [now apply end_segment_no_delimiter|].
      destruct (N.eqb_spec c 35) as [->|H2]; cbn [fst];
        [now apply end_segment_no_delimiter|].
      apply IH; [assumption|].
      apply Forall_app. split; [assumption | now apply utf8_percent_encode_no_delimiter].
Qed.

Lemma serialize_path_no_delimiter (path : list (list N)) :
  Forall no_delimiter path -> no_delimiter (serialize_path path).
Proof.
  unfold serialize_path. induction 1 as [|segment path Hs _ IH]; cbn [flat_map]; [constructor|].
  constructor; [lia|]. apply Forall_app. split; assumption.
Qed.

Lemma parsed_pathname_no_delimiter (input : jsstring) (u : URL) :
  basic_URL_parser input = Parsed u -> no_delimiter (pathname u).
Proof.
  unfold basic_URL_parser.
  destruct (scheme_start_state _) as [[scheme rest]|]; [|discriminate].
  destruct (is_special_not_file scheme); [|discriminate].
  destruct (break_at is_authority_end _) as [authority rest'].
  destruct (authority_state authority); try discriminate.
  destruct (path_start_state rest') as [path rest''] eqn:E.
  destruct (query_state rest''). intros [= <-]. cbn [pathname].
  apply serialize_path_no_delimiter.
  assert (H : forall i, Forall no_delimiter (fst (path_state [] [] i)))
    by (intros; apply path_state_no_delimiter; constructor).
  unfold path_start_state in E.
  destruct rest' as [|c r]; [|destruct (is_slash c)];
    match type of E with path_state [] [] ?i = _ => specialize (H i); now rewrite E in H end.
Qed.

(* ===================================================================== *)
(** * What each function of the source computes                           *)
(* ===================================================================== *)

Section Characterisation.

Variable new_URL : jsstring -> completion URL.

Lemma isArticlePage_eq (url : jsstring) :
  isArticlePage new_URL url =
  Normal match new_URL url with
         | Normal u => is_article_URL u
         | Throw _ => false
         end.
Proof.
  unfold isArticlePage, is_article_URL.
  destruct (new_URL url) as [u|e]; [|reflexivity]. cbn [bind try_catch].
  destruct (endsWith (hostname u) (js ".wikipedia.org")); [|reflexivity].
  destruct (startsWith (pathname u) (js "/wiki/")); [|reflexivity].
  cbn [negb andb].
  destruct (in_excluded_namespace _ EXCLUDED_NAMESPACES); [reflexivity|].
  now destruct (_ || _).
Qed.

Lemma extractLanguage_Some (url l : jsstring) :
  extractLanguage new_URL url = Normal (Some l) <->
  exists u, new_URL url = Normal u
            /\ hostname u = l ++ js ".wikipedia.org" /\ LanguageCode l.
Proof.
  unfold extractLanguage. split.
  - destruct (new_URL url) as [u|e]; [|discriminate]. cbn [bind try_catch].
    pose proof (lang_pattern_match (hostname u)) as H1.
    pose proof (simple_pattern_match (hostname u)) as H2.
    destruct (match_ (hostname u) lang_pattern) as [m|].
    + destruct H1 as (l' & Hl & Hh & Hg). rewrite Hg. intros [= <-].
      exists u. repeat split; [assumption | now left].
    + destruct (match_ (hostname u) simple_pattern); [|discriminate].
      intros [= <-]. exists u. repeat split; [assumption | now right].
  - intros (u & -> & Hh & Hl). cbn [bind try_catch].
    pose proof (lang_pattern_match (hostname u)) as H1.
    pose proof (simple_pattern_match (hostname u)) as H2.
    destruct (match_ (hostname u) lang_pattern) as [m|].
    + destruct H1 as (l' & Hl' & Hh' & Hg). rewrite Hg.
      rewrite Hh in Hh'. apply app_inv_tail in Hh'. now subst l'.
    + destruct Hl as [Hl| ->]; [now destruct (H1 l Hl)|].
      destruct (match_ (hostname u) simple_pattern); [reflexivity|].
      now destruct H2.
Qed.

Lemma extractLanguage_total (url : jsstring) :
  exists r, extractLanguage new_URL url = Normal r.
Proof.
  unfold extractLanguage.
  destruct (new_URL url) as [u|e]; cbn [bind try_catch]; [|eexists; reflexivity].
  destruct (match_ (hostname u) lang_pattern); [eexists; reflexivity|].
  destruct (match_ (hostname u) simple_pattern); eexists; reflexivity.
Qed.

Lemma LanguageCode_nonempty (l : jsstring) : LanguageCode l -> l <> [].
Proof. intros [[[L|L] _]| ->]; [intros ->; discriminate..|discriminate]. Qed.

Lemma extractArticleName_eq (url : jsstring) :
  extractArticleName new_URL url =
  Normal match new_URL url with
         | Normal u =>
             if startsWith (pathname u) (js "/wiki/")
             then match replace (pathname u) (js "/wiki/") (js "") with
                  | [] => None
                  | articlePath => Some articlePath
                  end
             else None
         | Throw _ => None
         end.
Proof.
  unfold extractArticleName.
  destruct (new_URL url) as [u|e]; [|reflexivity]. cbn [bind try_catch].
  destruct (startsWith (pathname u) (js "/wiki/")); [|reflexivity]. cbn [negb].
  now destruct (replace _ _ _).
Qed.

Lemma extractArticleName_Some (url id : jsstring) :
  extractArticleName new_URL url = Normal (Some id) <->
  exists u, new_URL url = Normal u /\ pathname u = js "/wiki/" ++ id /\ id <> [].
Proof.
  rewrite extractArticleName_eq. split.
  - destruct (new_URL url) as [u|e]; [|discriminate].
    destruct (startsWith (pathname u) (js "/wiki/")) eqn:E; [|discriminate].
    apply startsWith_iff in E as [rest E]. rewrite E, replace_prefix.
    destruct rest; [discriminate|]. intros [= <-]. exists u.
    repeat split; [assumption | discriminate].
  - intros (u & -> & -> & Hid). rewrite startsWith_app, replace_prefix.
    destruct id; [now destruct Hid | reflexivity].
Qed.

End Characterisation.

Section Transform.

Variable new_URL : jsstring -> completion URL.

Lemma transform_not_article (url : jsstring) :
  isArticlePage new_URL url = Normal false ->
  transformToGrokipedia new_URL url =
  ([Call_isArticlePage], Normal (failure (js "Not a Wikipedia article page"))).
Proof. intros H. unfold transformToGrokipedia, invoke. rewrite H. reflexivity. Qed.

Lemma transform_no_language (url : jsstring) :
  isArticlePage new_URL url = Normal true ->
  extractLanguage new_URL url = Normal None ->
  transformToGrokipedia new_URL url =
  ([Call_isArticlePage; Call_extractLanguage],
   Normal (failure (js "Could not extract language from URL"))).
Proof.
  intros H1 H2. unfold transformToGrokipedia, invoke. rewrite H1. cbn [tbind negb].
  rewrite H2. reflexivity.
Qed.

Lemma transform_no_article_name (url l : jsstring) :
  isArticlePage new_URL url = Normal true ->
  extractLanguage new_URL url = Normal (Some l) ->
  extractArticleName new_URL url = Normal None ->
  transformToGrokipedia new_URL url =
  (all_calls, Normal (failure (js "Could not extract article name from URL"))).
Proof.
  intros H1 H2 H3. unfold transformToGrokipedia, invoke. rewrite H1. cbn [tbind negb].
  rewrite H2. cbn [tbind].
  assert (T : truthy (Some l) = true).
  { apply truthy_Some, (LanguageCode_nonempty l).
    apply extractLanguage_Some in H2 as (? & _ & _ & ?). assumption. }
  rewrite T. cbn [negb]. rewrite H3. reflexivity.
Qed.

Lemma transform_success (url l id : jsstring) :
  isArticlePage new_URL url = Normal true ->
  extractLanguage new_URL url = Normal (Some l) ->
  extractArticleName new_URL url = Normal (Some id) ->
  transformToGrokipedia new_URL url =
  (all_calls,
   Normal {| success := true;
             grokipediaUrl := Some (GROKIPEDIA_BASE_URL ++ js "/page/" ++ id);
             articleName := Some id;
             language := Some l;
             error := None |}).
Proof.
  intros H1 H2 H3. unfold transformToGrokipedia, invoke. rewrite H1. cbn [tbind negb].
  rewrite H2. cbn [tbind].
  assert (T : truthy (Some l) = true).
  { apply truthy_Some, (LanguageCode_nonempty l).
    apply extractLanguage_Some in H2 as (? & _ & _ & ?). assumption. }
  rewrite T. cbn [negb]. rewrite H3. cbn [tbind].
  assert (T' : truthy (Some id) = true).
  { apply truthy_Some. apply extractArticleName_Some in H3 as (? & _ & _ & ?). assumption. }
  rewrite T'. reflexivity.
Qed.

(** The four ways a call of [transformToGrokipedia] can go. *)
Lemma transform_cases (url : jsstring) :
  isArticlePage new_URL url = Normal false
  \/ (isArticlePage new_URL url = Normal true
      /\ extractLanguage new_URL url = Normal None)
  \/ (exists l, isArticlePage new_URL url = Normal true
                /\ extractLanguage new_URL url = Normal (Some l)
                /\ extractArticleName new_URL url = Normal None)
  \/ (exists l id, isArticlePage new_URL url = Normal true
                   /\ extractLanguage new_URL url = Normal (Some l)
                   /\ extractArticleName new_URL url = Normal (Some id)).
Proof.
  rewrite (isArticlePage_eq new_URL url), (extractArticleName_eq new_URL url).
  destruct (extractLanguage_total new_URL url) as [[l|] ->].
  - destruct (match new_URL url with Normal u => is_article_URL u | Throw _ => false end);
      [|now left].
    right; right.
    destruct (match new_URL url with Normal u => _ | Throw _ => None end) as [id|].
    + right. now exists l, id.
    + left. now exists l.
  - destruct (match new_URL url with Normal u => is_article_URL u | Throw _ => false end);
      [right|]; now left.
Qed.

End Transform.

(** ** decodeURIComponent *)

Lemma read_escapes_length (n : nat) :
  forall s octets rest,
    read_escapes n s = Some (octets, rest) -> (length rest <= length s)%nat.
Proof.
  induction n as [|n IH]; intros s octets rest; cbn [read_escapes].
  - intros [= _ <-]. lia.
  - destruct s as [|c [|h [|l s']]]; try discriminate.
    destruct (c =? 37); [|discriminate].
    destruct (ParseHexOctet h l); [|discriminate].
    destruct (read_escapes n s') as [[o r]|] eqn:E; [|discriminate].
    intros [= _ <-]. specialize (IH _ _ _ E). cbn [length]. lia.
Qed.

(** The loop of Decode never runs out of fuel: any fuel that is at least
    the length of the string gives the same completion. *)
Lemma Decode_loop_fuel (fuel : nat) :
  forall s fuel',
    (length s <= fuel)%nat -> (length s <= fuel')%nat ->
    Decode_loop fuel s = Decode_loop fuel' s.
Proof.
  induction fuel as [|fuel IH]; intros s fuel' H H'.
  - destruct s; [|cbn [length] in H; lia]. now destruct fuel'.
  - destruct s as [|C t]; [now destruct fuel'|].
    destruct fuel' as [|fuel']; [cbn [length] in H'; lia|].
    cbn [length] in H, H'. cbn [Decode_loop].
    destruct (C =? 37).
    + destruct t as [|h [|l rest]]; try reflexivity.
      cbn [length] in H, H'.
      destruct (ParseHexOctet h l) as [B|]; [|reflexivity].
      destruct (leading_ones B) as [|[|n]]; [|reflexivity|].
      * rewrite (IH rest fuel') by lia. reflexivity.
      * destruct n as [|[|[|n]]]; try reflexivity;
          (destruct (read_escapes _ rest) as [[octets rest']|] eqn:E; [|reflexivity];
           apply read_escapes_length in E;
           destruct (utf8_code_point (B :: octets)); [|reflexivity];
           rewrite (IH rest' fuel') by lia; reflexivity).
    + rewrite (IH t fuel') by lia. reflexivity.
Qed.

Lemma decodeURIComponent_no_escape (s : jsstring) :
  ~ In 37 s -> decodeURIComponent s = Normal s.
Proof.
  unfold decodeURIComponent. induction s as [|c s IH]; intros H; [reflexivity|].
  cbn [length Decode_loop].
  destruct (N.eqb_spec c 37) as [->|_]; [destruct H; now left|].
  rewrite IH by (intros H'; apply H; now right). reflexivity.
Qed.

(** ** The namespace loop *)

Lemma in_excluded_namespace_In (p rest : jsstring) (namespaces : list jsstring) :
  In p namespaces -> in_excluded_namespace (p ++ rest) namespaces = true.
Proof.
  induction namespaces as [|n ns IH]; [contradiction|].
  intros [->|H]; cbn [in_excluded_namespace].
  - now rewrite startsWith_app.
  - destruct (startsWith (p ++ rest) n); [reflexivity | exact (IH H)].
Qed.

Lemma in_excluded_namespace_true (articlePath : jsstring) (namespaces : list jsstring) :
  in_excluded_namespace articlePath namespaces = true <->
  exists p rest, In p namespaces /\ articlePath = p ++ rest.
Proof.
  split.
  - induction namespaces as [|n ns IH]; cbn [in_excluded_namespace]; [discriminate|].
    destruct (startsWith articlePath n) eqn:E.
    + apply startsWith_iff in E as [rest ->]. exists n, rest. split; [now left | reflexivity].
    + intros (p & rest & Hp & ->)%IH. exists p, rest. split; [now right | reflexivity].
  - intros (p & rest & Hp & ->). now apply in_excluded_namespace_In.
Qed.

Lemma EXCLUDED_NAMESPACES_words (p : jsstring) :
  In p EXCLUDED_NAMESPACES ->
  exists c w, p = c :: w /\ forallb is_word_character (c :: w) = true.
Proof.
  intros H. unfold EXCLUDED_NAMESPACES in H. cbn [In] in H.
  repeat (destruct H as [<-|H]; [eexists; eexists; split; reflexivity|]).
  contradiction.
Qed.

Lemma URL_constructor_conforms : conforms URL_constructor.
Proof. intros input. unfold URL_constructor. now destruct (basic_URL_parser input). Qed.

Lemma conforms_Parsed (new_URL : jsstring -> completion URL) (input : jsstring) (u : URL) :
  conforms new_URL -> basic_URL_parser input = Parsed u -> new_URL input = Normal u.
Proof. intros C E. specialize (C input). now rewrite E in C. Qed.

Lemma is_article_URL_iff (u : URL) :
  is_article_URL u = true <->
  (exists front, hostname u = front ++ js ".wikipedia.org")
  /\ exists rest, pathname u = js "/wiki/" ++ rest
                  /\ in_excluded_namespace rest EXCLUDED_NAMESPACES = false.
Proof.
  unfold is_article_URL. rewrite !andb_true_iff, endsWith_iff, startsWith_iff, negb_true_iff.
  split.
  - intros [[H1 [rest H2]] H3]. split; [assumption|]. exists rest.
    rewrite H2, replace_prefix in H3. now split.
  - intros [H1 (rest & H2 & H3)]. rewrite H2, replace_prefix. repeat split; eauto.
Qed.

(** A parsed path that begins, behind [/wiki/], with an excluded
    namespace: no article page, whatever the host and the constructor. *)
Lemma excluded_pathname_is_not_article (new_URL : jsstring -> completion URL)
    (url : jsstring) (u : URL) (p rest : jsstring) :
  new_URL url = Normal u ->
  pathname u = js "/wiki/" ++ p ++ rest ->
  In p EXCLUDED_NAMESPACES ->
  isArticlePage new_URL url = Normal false.
Proof.
  intros Hu Hpath Hp. rewrite isArticlePage_eq, Hu. f_equal.
  unfold is_article_URL.
  rewrite Hpath, startsWith_app, replace_prefix, in_excluded_namespace_In by exact Hp.
  apply andb_false_r.
Qed.

(** Under a host of the domain, only a language code is a language. *)
Lemma extractLanguage_of_host (new_URL : jsstring -> completion URL)
    (url : jsstring) (u : URL) (front : jsstring) :
  new_URL url = Normal u ->
  hostname u = front ++ js ".wikipedia.org" ->
  ~ LanguageCode front ->
  extractLanguage new_URL url = Normal None.
Proof.
  intros Hu Hh Hfront.
  destruct (extractLanguage_total new_URL url) as [[l|] E]; [|exact E].
  apply extractLanguage_Some in E as (u' & Hu' & Hh' & Hl).
  rewrite Hu in Hu'. injection Hu' as <-.
  rewrite Hh in Hh'. apply app_inv_tail in Hh'. now subst l.
Qed.

(* ===================================================================== *)
(** * The properties of the specification                                 *)
(* ===================================================================== *)

Section Properties.

Variable new_URL : jsstring -> completion URL.

(** C1. Whenever [transformToGrokipedia] succeeds, the URL was parsed,
    its path is [/wiki/] followed by the article identifier, the result
    carries that identifier exactly as it stands in the parsed path
    (nothing is decoded, nothing is encoded again), and the destination
    is ["https://grokipedia.com" ++ "/page/" ++ identifier].  The query
    string and the fragment of the source take no part in it; and when
    the constructor conforms to the URL Standard, the destination has no
    [?] and no [#] at all. *)
Theorem transform_destination (url : jsstring) (r : TransformResult) :
  result_of (transformToGrokipedia new_URL url) = Normal r ->
  success r = true ->
  exists u identifier,
    new_URL url = Normal u
    /\ pathname u = js "/wiki/" ++ identifier
    /\ extractArticleName new_URL url = Normal (Some identifier)
    /\ articleName r = Some identifier
    /\ grokipediaUrl r
       = Some (js "https://grokipedia.com" ++ js "/page/" ++ identifier)
    /\ (conforms new_URL -> basic_URL_parser url <> Unmodelled ->
        no_delimiter (js "https://grokipedia.com" ++ js "/page/" ++ identifier)).
Proof.
  intros Hr Hs.
  destruct (transform_cases new_URL url)
    as [H|[[H1 H2]|[(l & H1 & H2 & H3)|(l & id & H1 & H2 & H3)]]].
  - rewrite (transform_not_article _ _ H) in Hr. injection Hr as <-. discriminate.
  - rewrite (transform_no_language _ _ H1 H2) in Hr. injection Hr as <-. discriminate.
  - rewrite (transform_no_article_name _ _ _ H1 H2 H3) in Hr. injection Hr as <-.
    discriminate.
  - rewrite (transform_success _ _ _ _ H1 H2 H3) in Hr. injection Hr as <-.
    pose proof H3 as H3'. apply extractArticleName_Some in H3 as (u & Hu & Hp & _).
    exists u, id. repeat split; try assumption; try reflexivity.
    intros C M. apply Forall_app. split; [|apply Forall_app; split].
    + apply Forall_forall. intros c Hc. cbn in Hc.
      repeat (destruct Hc as [<-|Hc]; [split; discriminate|]). contradiction.
    + repeat constructor; discriminate.
    + assert (Hd : no_delimiter (pathname u)).
      { specialize (C url). destruct (basic_URL_parser url) as [u'| |] eqn:E.
        - rewrite Hu in C. injection C as <-.
          exact (parsed_pathname_no_delimiter _ _ E).
        - congruence.
        - now destruct M. }
      rewrite Hp in Hd. apply Forall_app in Hd. apply Hd.
Qed.

(** C2. [transformToGrokipedia] makes its checks in one order, candidate
    check, language, identifier, and stops at the first that fails: the
    calls it made are the ones up to that check and no other, and the
    result is a failure whose reason belongs to that check alone.  When
    all three pass the result is a success.  A run is always one of these
    four, and the three reasons differ from one another. *)
Theorem transform_order_and_short_circuit (url : jsstring) :
  let run := transformToGrokipedia new_URL url in
  (isArticlePage new_URL url = Normal false ->
   run = ([Call_isArticlePage],
          Normal (failure (js "Not a Wikipedia article page"))))
  /\ (isArticlePage new_URL url = Normal true ->
      extractLanguage new_URL url = Normal None ->
      run = ([Call_isArticlePage; Call_extractLanguage],
             Normal (failure (js "Could not extract language from URL"))))
  /\ (forall l,
      isArticlePage new_URL url = Normal true ->
      extractLanguage new_URL url = Normal (Some l) ->
      extractArticleName new_URL url = Normal None ->
      run = ([Call_isArticlePage; Call_extractLanguage; Call_extractArticleName],
             Normal (failure (js "Could not extract article name from URL"))))
  /\ (forall l id,
      isArticlePage new_URL url = Normal true ->
      extractLanguage new_URL url = Normal (Some l) ->
      extractArticleName new_URL url = Normal (Some id) ->
      calls_of run = [Call_isArticlePage; Call_extractLanguage; Call_extractArticleName]
      /\ exists r, result_of run = Normal r /\ success r = true)
  /\ (isArticlePage new_URL url = Normal false
      \/ (isArticlePage new_URL url = Normal true
          /\ extractLanguage new_URL url = Normal None)
      \/ (exists l, isArticlePage new_URL url = Normal true
                    /\ extractLanguage new_URL url = Normal (Some l)
                    /\ extractArticleName new_URL url = Normal None)
      \/ (exists l id, isArticlePage new_URL url = Normal true
                       /\ extractLanguage new_URL url = Normal (Some l)
                       /\ extractArticleName new_URL url = Normal (Some id)))
  /\ (js "Not a Wikipedia article page" <> js "Could not extract language from URL"
      /\ js "Not a Wikipedia article page" <> js "Could not extract article name from URL"
      /\ js "Could not extract language from URL"
         <> js "Could not extract article name from URL").
Proof.
  cbv zeta. repeat apply conj.
  - apply transform_not_article.
  - apply transform_no_language.
  - apply transform_no_article_name.
  - intros l id H1 H2 H3. rewrite (transform_success _ _ _ _ H1 H2 H3).
    split; [reflexivity|]. eexists. split; reflexivity.
  - apply transform_cases.
  - discriminate.
  - discriminate.
  - discriminate.
Qed.


(** C4 (amended). [extractLanguage] returns a language code exactly when
    the hostname of the parsed URL is one label followed by
    [.wikipedia.org], the label being 2 or 3 lowercase ASCII letters or
    the literal [simple]; the code is that label.  In every other case,
    a URL that does not parse included, it returns [null]. *)
Theorem extractLanguage_characterisation (url : jsstring) :
  (forall l,
     extractLanguage new_URL url = Normal (Some l) <->
     exists u, new_URL url = Normal u
               /\ hostname u = l ++ js ".wikipedia.org" /\ LanguageCode l)
  /\ ((forall u l, new_URL url = Normal u -> LanguageCode l ->
                   hostname u <> l ++ js ".wikipedia.org") <->
      extractLanguage new_URL url = Normal None).
Proof.
  split; [intros l; apply extractLanguage_Some|].
  split.
  - intros H. destruct (extractLanguage_total new_URL url) as [[l|] E]; [|exact E].
    apply extractLanguage_Some in E as (u & Hu & Hh & Hl). now destruct (H u l).
  - intros E u l Hu Hl Hh.
    assert (E' : extractLanguage new_URL url = Normal (Some l))
      by (apply extractLanguage_Some; eauto).
    congruence.
Qed.

(** C5 (amended). On a URL that parses to a host of the domain and to
    the path [/wiki/] alone, [isArticlePage] answers [true] (as it does
    for the main-page token [/wiki/Main_Page]), [extractArticleName]
    answers [null], and [transformToGrokipedia] fails: at its third
    check, with the reason of the article name, when the subdomain is a
    language code, and at its second check, with the reason of the
    language, for every other subdomain. *)
Theorem bare_wiki_path_passes_check_and_fails_transform
    (url : jsstring) (u : URL) (front : jsstring) :
  new_URL url = Normal u ->
  hostname u = front ++ js ".wikipedia.org" ->
  (pathname u = js "/wiki/" ->
   isArticlePage new_URL url = Normal true
   /\ extractArticleName new_URL url = Normal None
   /\ (LanguageCode front ->
       transformToGrokipedia new_URL url
       = (all_calls, Normal (failure (js "Could not extract article name from URL"))))
   /\ (~ LanguageCode front ->
       transformToGrokipedia new_URL url
       = ([Call_isArticlePage; Call_extractLanguage],
          Normal (failure (js "Could not extract language from URL")))))
  /\ (pathname u = js "/wiki/Main_Page" -> isArticlePage new_URL url = Normal true).
Proof.
  intros Hu Hh.
  assert (A : forall rest, pathname u = js "/wiki/" ++ rest ->
                in_excluded_namespace rest EXCLUDED_NAMESPACES = false ->
                isArticlePage new_URL url = Normal true).
  { intros rest Hp Hx. rewrite isArticlePage_eq, Hu. f_equal.
    apply is_article_URL_iff. split; [now exists front | now exists rest]. }
  split.
  - intros Hp.
    assert (H1 : isArticlePage new_URL url = Normal true) by now apply (A []).
    assert (H3 : extractArticleName new_URL url = Normal None).
    { rewrite extractArticleName_eq, Hu, Hp. reflexivity. }
    split; [exact H1|]. split; [exact H3|]. split.
    + intros Hl. apply (transform_no_article_name new_URL url front); try assumption.
      apply extractLanguage_Some. now exists u.
    + intros Hl. apply (transform_no_language new_URL url H1).
      exact (extractLanguage_of_host new_URL url u front Hu Hh Hl).
  - intros Hp. now apply (A (js "Main_Page")).
Qed.

(** C6. When the URL constructor throws, whatever it throws, the three
    functions that parse fail closed: [isArticlePage] returns [false],
    [extractLanguage] and [extractArticleName] return [null].  And no
    function of the module throws, on any input. *)
Theorem parse_failure_fails_closed (url : jsstring) :
  (forall e, new_URL url = Throw e ->
     isArticlePage new_URL url = Normal false
     /\ extractLanguage new_URL url = Normal None
     /\ extractArticleName new_URL url = Normal None)
  /\ (exists b, isArticlePage new_URL url = Normal b)
  /\ (exists l, extractLanguage new_URL url = Normal l)
  /\ (exists a, extractArticleName new_URL url = Normal a)
  /\ (exists r, result_of (transformToGrokipedia new_URL url) = Normal r)
  /\ (forall articleName, exists shown, decodeArticleName articleName = Normal shown)
  /\ (forall language enabledLanguages, exists b,
        isLanguageEnabled language enabledLanguages = Normal b).
Proof.
  repeat apply conj.
  - intros e He. rewrite isArticlePage_eq, extractArticleName_eq.
    unfold extractLanguage. rewrite He. repeat split.
  - rewrite isArticlePage_eq. eexists; reflexivity.
  - apply extractLanguage_total.
  - rewrite extractArticleName_eq. eexists; reflexivity.
  - destruct (transform_cases new_URL url)
      as [H|[[H1 H2]|[(l & H1 & H2 & H3)|(l & id & H1 & H2 & H3)]]].
    + rewrite (transform_not_article _ _ H). eexists; reflexivity.
    + rewrite (transform_no_language _ _ H1 H2). eexists; reflexivity.
    + rewrite (transform_no_article_name _ _ _ H1 H2 H3). eexists; reflexivity.
    + rewrite (transform_success _ _ _ _ H1 H2 H3). eexists; reflexivity.
  - intros name. unfold decodeArticleName.
    destruct (decodeURIComponent name); eexists; reflexivity.
  - intros l L. unfold isLanguageEnabled. destruct (length L =? 0)%nat; eexists; reflexivity.
Qed.

(** C7. [decodeArticleName] percent-decodes the name and then replaces
    every underscore with a space; when [decodeURIComponent] throws, it
    replaces the underscores of the name as it is.  It never throws. *)
Theorem decodeArticleName_decodes_then_replaces (articleName : jsstring) :
  (forall decoded, decodeURIComponent articleName = Normal decoded ->
     decodeArticleName articleName = Normal (underscores_to_spaces decoded))
  /\ (forall e, decodeURIComponent articleName = Throw e ->
        decodeArticleName articleName = Normal (underscores_to_spaces articleName))
  /\ (exists shown, decodeArticleName articleName = Normal shown /\ ~ In 95 shown).
Proof.
  unfold decodeArticleName. repeat apply conj.
  - intros decoded ->. cbn [bind try_catch]. now rewrite replace_global_underscore.
  - intros e ->. cbn [bind try_catch]. now rewrite replace_global_underscore.
  - destruct (decodeURIComponent articleName); cbn [bind try_catch];
      rewrite replace_global_underscore; eexists; split; try reflexivity;
      apply underscores_to_spaces_no_underscore.
Qed.

(** C8. With an empty list every language is enabled; with a list that
    is not empty, a language is enabled exactly when it is an element of
    the list, as a sequence of code units (so no case is folded). *)
Theorem isLanguageEnabled_spec (language : jsstring) (enabledLanguages : list jsstring) :
  isLanguageEnabled language [] = Normal true
  /\ (enabledLanguages <> [] ->
      (isLanguageEnabled language enabledLanguages = Normal true
       <-> In language enabledLanguages))
  /\ (enabledLanguages <> [] ->
      (isLanguageEnabled language enabledLanguages = Normal false
       <-> ~ In language enabledLanguages)).
Proof.
  assert (I : includes enabledLanguages language = true <-> In language enabledLanguages).
  { unfold includes. rewrite existsb_exists. split.
    - intros (x & Hx & ->%jsstring_eqb_eq). exact Hx.
    - intros H. exists language. split; [exact H | apply jsstring_eqb_refl]. }
  split; [reflexivity|].
  split; intros Hne; unfold isLanguageEnabled;
    (destruct enabledLanguages as [|x L]; [congruence|]); cbn [length Nat.eqb].
  - split; [intros [= E]; apply I, E | intros H%I; now rewrite H].
  - split.
    + intros [= E] H%I. exact (eq_true_false_abs _ H E).
    + intros H. destruct (includes (x :: L) language); [|reflexivity].
      destruct H. now apply I.
Qed.

(** C9. A result of [transformToGrokipedia] has one of two shapes: a
    success with the destination, the article name and the language,
    and no error; or a failure with an error and none of the three. *)
Theorem transform_result_shape (url : jsstring) :
  exists r,
    result_of (transformToGrokipedia new_URL url) = Normal r
    /\ ((success r = true
         /\ (exists d, grokipediaUrl r = Some d)
         /\ (exists a, articleName r = Some a)
         /\ (exists l, language r = Some l)
         /\ error r = None)
        \/ (success r = false
            /\ (exists e, error r = Some e)
            /\ grokipediaUrl r = None
            /\ articleName r = None
            /\ language r = None)).
Proof.
  destruct (transform_cases new_URL url)
    as [H|[[H1 H2]|[(l & H1 & H2 & H3)|(l & id & H1 & H2 & H3)]]].
  - rewrite (transform_not_article _ _ H). eexists. split; [reflexivity|].
    right. cbn. repeat (split; try reflexivity). eexists; reflexivity.
  - rewrite (transform_no_language _ _ H1 H2). eexists. split; [reflexivity|].
    right. cbn. repeat (split; try reflexivity). eexists; reflexivity.
  - rewrite (transform_no_article_name _ _ _ H1 H2 H3). eexists. split; [reflexivity|].
    right. cbn. repeat (split; try reflexivity). eexists; reflexivity.
  - rewrite (transform_success _ _ _ _ H1 H2 H3). eexists. split; [reflexivity|].
    left. cbn. repeat (split; try reflexivity); eexists; reflexivity.
Qed.

(** C10. [extractArticleName] does not look at the hostname: whenever
    the URL parses and its path is [/wiki/] followed by a non-empty
    remainder, it returns that remainder, whatever the host; and when
    the host is not under [.wikipedia.org], [isArticlePage] is [false]
    on the same URL. *)
Theorem extractArticleName_ignores_hostname (url : jsstring) (u : URL) (remainder : jsstring) :
  new_URL url = Normal u ->
  pathname u = js "/wiki/" ++ remainder ->
  remainder <> [] ->
  extractArticleName new_URL url = Normal (Some remainder)
  /\ (endsWith (hostname u) (js ".wikipedia.org") = false ->
      isArticlePage new_URL url = Normal false).
Proof.
  intros Hu Hp Hr. split.
  - apply extractArticleName_Some. now exists u.
  - intros Hh. rewrite isArticlePage_eq, Hu. unfold is_article_URL. now rewrite Hh.
Qed.

End Properties.

(* ===================================================================== *)
(** * Concrete runs                                                       *)
(* ===================================================================== *)

Lemma language_label_en : LanguageCode (js "en").
Proof.
  left. split; [now left|].
  repeat constructor; unfold is_lowercase_letter; cbn; lia.
Qed.

(** The source URL has a query string and a fragment; the destination
    has neither, and the identifier keeps its escapes. *)
Lemma transform_destination_witness :
  result_of (transformToGrokipedia URL_constructor sami_url) = Normal sami_result
  /\ success sami_result = true
  /\ exists u identifier,
      URL_constructor sami_url = Normal u
      /\ pathname u = js "/wiki/" ++ identifier
      /\ extractArticleName URL_constructor sami_url = Normal (Some identifier)
      /\ articleName sami_result = Some identifier
      /\ grokipediaUrl sami_result
         = Some (js "https://grokipedia.com" ++ js "/page/" ++ identifier)
      /\ (conforms URL_constructor -> basic_URL_parser sami_url <> Unmodelled ->
          no_delimiter (js "https://grokipedia.com" ++ js "/page/" ++ identifier)).
Proof.
  split; [reflexivity|]. split; [reflexivity|].
  apply (transform_destination URL_constructor sami_url sami_result); reflexivity.
Defined.

(** One URL for each of the four ways a run can go. *)
Lemma transform_order_and_short_circuit_witness :
  transformToGrokipedia URL_constructor (js "https://google.com/wiki/Article")
  = ([Call_isArticlePage], Normal (failure (js "Not a Wikipedia article page")))
  /\ transformToGrokipedia URL_constructor (js "https://commons.wikipedia.org/wiki/Main_Page")
     = ([Call_isArticlePage; Call_extractLanguage],
        Normal (failure (js "Could not extract language from URL")))
  /\ transformToGrokipedia URL_constructor (js "https://en.wikipedia.org/wiki/")
     = ([Call_isArticlePage; Call_extractLanguage; Call_extractArticleName],
        Normal (failure (js "Could not extract article name from URL")))
  /\ (calls_of (transformToGrokipedia URL_constructor
                  (js "https://en.wikipedia.org/wiki/Matchbox_Twenty"))
      = [Call_isArticlePage; Call_extractLanguage; Call_extractArticleName]
      /\ exists r,
          result_of (transformToGrokipedia URL_constructor
                       (js "https://en.wikipedia.org/wiki/Matchbox_Twenty")) = Normal r
          /\ success r = true).
Proof.
  repeat apply conj.
  - apply (transform_order_and_short_circuit URL_constructor
             (js "https://google.com/wiki/Article")). reflexivity.
  - apply (transform_order_and_short_circuit URL_constructor
             (js "https://commons.wikipedia.org/wiki/Main_Page")); reflexivity.
  - apply (proj1 (proj2 (proj2 (transform_order_and_short_circuit URL_constructor
             (js "https://en.wikipedia.org/wiki/")))) (js "en")); reflexivity.
  - apply (proj1 (proj2 (proj2 (proj2 (transform_order_and_short_circuit URL_constructor
             (js "https://en.wikipedia.org/wiki/Matchbox_Twenty")))))
             (js "en") (js "Matchbox_Twenty")); reflexivity.
  - apply (proj1 (proj2 (proj2 (proj2 (transform_order_and_short_circuit URL_constructor
             (js "https://en.wikipedia.org/wiki/Matchbox_Twenty")))))
             (js "en") (js "Matchbox_Twenty")); reflexivity.
Defined.



Lemma extractLanguage_characterisation_witness :
  extractLanguage URL_constructor (js "https://als.wikipedia.org/wiki/Article")
  = Normal (Some (js "als"))
  /\ extractLanguage URL_constructor (js "https://simple.wikipedia.org/wiki/Article")
     = Normal (Some (js "simple"))
  /\ forall u l, URL_constructor (js "https://en.m.wikipedia.org/wiki/Article") = Normal u ->
                 LanguageCode l -> hostname u <> l ++ js ".wikipedia.org".
Proof.
  repeat apply conj.
  - reflexivity.
  - reflexivity.
  - apply (extractLanguage_characterisation URL_constructor
             (js "https://en.m.wikipedia.org/wiki/Article")). reflexivity.
Defined.

(** The host of the input is written in uppercase; URL parsing lowercases
    it, and the language is extracted. *)
Lemma uppercase_host_yields_language :
  basic_URL_parser (js "https://EN.wikipedia.org/wiki/Foo")
  = Parsed {| hostname := js "en.wikipedia.org";
              pathname := js "/wiki/Foo";
              search := js "";
              hash := js "" |}
  /\ extractLanguage URL_constructor (js "https://EN.wikipedia.org/wiki/Foo")
     = Normal (Some (js "en")).
Proof. split; reflexivity. Qed.

Lemma bare_wiki_path_witness :
  URL_constructor (js "https://en.wikipedia.org/wiki/") = Normal bare_wiki_URL
  /\ hostname bare_wiki_URL = js "en" ++ js ".wikipedia.org"
  /\ LanguageCode (js "en")
  /\ pathname bare_wiki_URL = js "/wiki/"
  /\ isArticlePage URL_constructor (js "https://en.wikipedia.org/wiki/") = Normal true
  /\ extractArticleName URL_constructor (js "https://en.wikipedia.org/wiki/") = Normal None
  /\ transformToGrokipedia URL_constructor (js "https://en.wikipedia.org/wiki/")
     = (all_calls, Normal (failure (js "Could not extract article name from URL"))).
Proof.
  split; [reflexivity|]. split; [reflexivity|]. split; [exact language_label_en|].
  split; [reflexivity|].
  destruct (proj1 (bare_wiki_path_passes_check_and_fails_transform URL_constructor
                     (js "https://en.wikipedia.org/wiki/") bare_wiki_URL (js "en")
                     eq_refl eq_refl) eq_refl) as (H1 & H2 & H3 & _).
  split; [exact H1|]. split; [exact H2|]. exact (H3 language_label_en).
Defined.

(** The mobile site is a subdomain of the domain without a language
    code: on its bare [/wiki/] path the check passes, there is no
    article name, and the run fails at the language, not at the article
    name. *)
Lemma mobile_bare_wiki_path_fails_at_language :
  basic_URL_parser (js "https://en.m.wikipedia.org/wiki/")
  = Parsed {| hostname := js "en.m.wikipedia.org";
              pathname := js "/wiki/";
              search := js "";
              hash := js "" |}
  /\ isArticlePage URL_constructor (js "https://en.m.wikipedia.org/wiki/") = Normal true
  /\ extractArticleName URL_constructor (js "https://en.m.wikipedia.org/wiki/")
     = Normal None
  /\ transformToGrokipedia URL_constructor (js "https://en.m.wikipedia.org/wiki/")
     = ([Call_isArticlePage; Call_extractLanguage],
        Normal (failure (js "Could not extract language from URL"))).
Proof. repeat split. Qed.

Lemma parse_failure_fails_closed_witness :
  URL_constructor (js "not a url") = Throw TypeError
  /\ isArticlePage URL_constructor (js "not a url") = Normal false
  /\ extractLanguage URL_constructor (js "not a url") = Normal None
  /\ extractArticleName URL_constructor (js "not a url") = Normal None.
Proof.
  split; [reflexivity|].
  apply (parse_failure_fails_closed URL_constructor (js "not a url")) with (e := TypeError).
  reflexivity.
Defined.

Lemma decodeArticleName_witness :
  decodeURIComponent (js "S%C3%A1mi_people") = Normal (js "S" ++ [225] ++ js "mi_people")
  /\ decodeArticleName (js "S%C3%A1mi_people") = Normal (js "S" ++ [225] ++ js "mi people")
  /\ decodeURIComponent (js "Invalid%ZZ_name") = Throw URIError
  /\ decodeArticleName (js "Invalid%ZZ_name") = Normal (js "Invalid%ZZ name").
Proof.
  split; [reflexivity|]. split; [|split; [reflexivity|]].
  - exact (proj1 (decodeArticleName_decodes_then_replaces (js "S%C3%A1mi_people"))
             (js "S" ++ [225] ++ js "mi_people") eq_refl).
  - exact (proj1 (proj2 (decodeArticleName_decodes_then_replaces (js "Invalid%ZZ_name")))
             URIError eq_refl).
Defined.

Lemma isLanguageEnabled_witness :
  isLanguageEnabled (js "zh") [] = Normal true
  /\ isLanguageEnabled (js "en") [js "en"; js "de"] = Normal true
  /\ isLanguageEnabled (js "ja") [js "en"; js "de"] = Normal false
  /\ isLanguageEnabled (js "EN") [js "en"; js "de"] = Normal false.
Proof.
  assert (Hne : [js "en"; js "de"] <> []) by discriminate.
  repeat apply conj.
  - exact (proj1 (isLanguageEnabled_spec (js "zh") [])).
  - apply (proj1 (proj2 (isLanguageEnabled_spec (js "en") [js "en"; js "de"])) Hne).
    now left.
  - apply (proj2 (proj2 (isLanguageEnabled_spec (js "ja") [js "en"; js "de"])) Hne).
    intros [H|[H|[]]]; discriminate.
  - apply (proj2 (proj2 (isLanguageEnabled_spec (js "EN") [js "en"; js "de"])) Hne).
    intros [H|[H|[]]]; discriminate.
Defined.

(** Extraction succeeds on a URL that is no candidate. *)
Lemma extractArticleName_ignores_hostname_witness :
  URL_constructor (js "https://example.com/wiki/Foo") = Normal example_com_URL
  /\ pathname example_com_URL = js "/wiki/" ++ js "Foo"
  /\ js "Foo" <> []
  /\ endsWith (hostname example_com_URL) (js ".wikipedia.org") = false
  /\ extractArticleName URL_constructor (js "https://example.com/wiki/Foo")
     = Normal (Some (js "Foo"))
  /\ isArticlePage URL_constructor (js "https://example.com/wiki/Foo") = Normal false.
Proof.
  assert (H : js "Foo" <> []) by discriminate.
  split; [reflexivity|]. split; [reflexivity|]. split; [exact H|]. split; [reflexivity|].
  split.
  - exact (proj1 (extractArticleName_ignores_hostname URL_constructor
                    (js "https://example.com/wiki/Foo") example_com_URL (js "Foo")
                    eq_refl eq_refl H)).
  - exact (proj2 (extractArticleName_ignores_hostname URL_constructor
                    (js "https://example.com/wiki/Foo") example_com_URL (js "Foo")
                    eq_refl eq_refl H) eq_refl).
Defined.

(* ===================================================================== *)
(** * The unit tests of the repository                                    *)
(* ===================================================================== *)

(** The assertions of the repository's unit tests for the URL
    transformer, run on the embedding with [URL_constructor].  Every URL
    of these tests, and of the concrete runs above, is one the parser
    models. *)

Example concrete_inputs_are_modelled :
  forallb is_modelled
    [ js "https://en.wikipedia.org/wiki/Albert_Einstein";
      js "https://en.wikipedia.org/wiki/Matchbox_Twenty";
      js "https://en.wikipedia.org/wiki/JavaScript";
      js "https://de.wikipedia.org/wiki/Berlin";
      js "https://fr.wikipedia.org/wiki/Paris";
      js "https://ja.wikipedia.org/wiki/" ++ [26481; 20140];
      js "https://ja.wikipedia.org/wiki/" ++ [35352; 20107];
      js "https://en.wikipedia.org/wiki/Main_Page";
      js "https://en.wikipedia.org/wiki/Special:Search";
      js "https://en.wikipedia.org/wiki/Special:Random";
      js "https://en.wikipedia.org/wiki/Wikipedia:About";
      js "https://en.wikipedia.org/wiki/Wikipedia:Contents";
      js "https://en.wikipedia.org/wiki/Talk:Albert_Einstein";
      js "https://en.wikipedia.org/wiki/User:Example";
      js "https://en.wikipedia.org/wiki/User_talk:Example";
      js "https://en.wikipedia.org/wiki/File:Example.jpg";
      js "https://en.wikipedia.org/wiki/Template:Infobox";
      js "https://en.wikipedia.org/wiki/Help:Contents";
      js "https://en.wikipedia.org/wiki/Category:Science";
      js "https://en.wikipedia.org/wiki/Portal:Science";
      js "https://en.wikipedia.org/wiki/Draft:Article";
      js "https://en.wikipedia.org/wiki/Module:Example";
      js "https://google.com/wiki/Article";
      js "https://example.org/wiki/Article";
      js "https://example.com/wiki/Foo";
      js "https://en.wikipedia.org/w/index.php";
      js "https://en.wikipedia.org/about";
      js "not a url";
      js "";
      js "https://en.wikipedia.org/wiki/Article";
      js "https://de.wikipedia.org/wiki/Artikel";
      js "https://als.wikipedia.org/wiki/Article";
      js "https://simple.wikipedia.org/wiki/Article";
      js "https://en.wikipedia.org/wiki/C%2B%2B";
      js "https://en.wikipedia.org/wiki/S%C3%A1mi_people";
      js "https://en.wikipedia.org/wiki/";
      js "https://commons.wikipedia.org/wiki/Main_Page";
      js "https://en.m.wikipedia.org/wiki/Article";
      js "https://en.m.wikipedia.org/wiki/Berlin";
      js "https://EN.wikipedia.org/wiki/Foo";
      js "https://en.wikipedia.org/wiki/Special:/../Foo";
      wiki_prefix ++ js "User:" ++ js "Example/drafts/./notes?action=edit#top";
      sami_url ]
  = true.
Proof. reflexivity. Qed.

Example test_isArticlePage_articles :
  map (isArticlePage URL_constructor)
    [ js "https://en.wikipedia.org/wiki/Albert_Einstein";
      js "https://en.wikipedia.org/wiki/Matchbox_Twenty";
      js "https://en.wikipedia.org/wiki/JavaScript";
      js "https://de.wikipedia.org/wiki/Berlin";
      js "https://fr.wikipedia.org/wiki/Paris";
      js "https://ja.wikipedia.org/wiki/" ++ [26481; 20140];
      js "https://en.wikipedia.org/wiki/Main_Page" ]
  = repeat (Normal true) 7.
Proof. reflexivity. Qed.

Example test_isArticlePage_namespaces :
  map (isArticlePage URL_constructor)
    [ js "https://en.wikipedia.org/wiki/Special:Search";
      js "https://en.wikipedia.org/wiki/Special:Random";
      js "https://en.wikipedia.org/wiki/Wikipedia:About";
      js "https://en.wikipedia.org/wiki/Wikipedia:Contents";
      js "https://en.wikipedia.org/wiki/Talk:Albert_Einstein";
      js "https://en.wikipedia.org/wiki/User:Example";
      js "https://en.wikipedia.org/wiki/User_talk:Example";
      js "https://en.wikipedia.org/wiki/File:Example.jpg";
      js "https://en.wikipedia.org/wiki/Template:Infobox";
      js "https://en.wikipedia.org/wiki/Help:Contents";
      js "https://en.wikipedia.org/wiki/Category:Science";
      js "https://en.wikipedia.org/wiki/Portal:Science";
      js "https://en.wikipedia.org/wiki/Draft:Article";
      js "https://en.wikipedia.org/wiki/Module:Example" ]
  = repeat (Normal false) 14.
Proof. reflexivity. Qed.

Example test_isArticlePage_other_pages :
  map (isArticlePage URL_constructor)
    [ js "https://google.com/wiki/Article";
      js "https://example.org/wiki/Article";
      js "https://en.wikipedia.org/w/index.php";
      js "https://en.wikipedia.org/about";
      js "not a url";
      js "" ]
  = repeat (Normal false) 6.
Proof. reflexivity. Qed.

Example test_extractLanguage :
  map (extractLanguage URL_constructor)
    [ js "https://en.wikipedia.org/wiki/Article";
      js "https://de.wikipedia.org/wiki/Artikel";
      js "https://ja.wikipedia.org/wiki/" ++ [35352; 20107];
      js "https://als.wikipedia.org/wiki/Article";
      js "https://simple.wikipedia.org/wiki/Article";
      js "https://google.com/wiki/Article";
      js "not a url" ]
  = [ Normal (Some (js "en")); Normal (Some (js "de")); Normal (Some (js "ja"));
      Normal (Some (js "als")); Normal (Some (js "simple")); Normal None; Normal None ].
Proof. reflexivity. Qed.

Example test_extractArticleName :
  map (extractArticleName URL_constructor)
    [ js "https://en.wikipedia.org/wiki/JavaScript";
      js "https://en.wikipedia.org/wiki/Albert_Einstein";
      js "https://en.wikipedia.org/wiki/C%2B%2B";
      js "https://en.wikipedia.org/wiki/S%C3%A1mi_people";
      js "https://en.wikipedia.org/about";
      js "not a url" ]
  = [ Normal (Some (js "JavaScript")); Normal (Some (js "Albert_Einstein"));
      Normal (Some (js "C%2B%2B")); Normal (Some (js "S%C3%A1mi_people"));
      Normal None; Normal None ].
Proof. reflexivity. Qed.

Example test_transformToGrokipedia :
  map (fun url => result_of (transformToGrokipedia URL_constructor url))
    [ js "https://en.wikipedia.org/wiki/Matchbox_Twenty";
      js "https://de.wikipedia.org/wiki/Berlin";
      js "https://en.wikipedia.org/wiki/S%C3%A1mi_people";
      js "https://en.wikipedia.org/wiki/Special:Search";
      js "https://google.com/wiki/Article" ]
  = [ Normal {| success := true;
                grokipediaUrl := Some (js "https://grokipedia.com/page/Matchbox_Twenty");
                articleName := Some (js "Matchbox_Twenty");
                language := Some (js "en");
                error := None |};
      Normal {| success := true;
                grokipediaUrl := Some (js "https://grokipedia.com/page/Berlin");
                articleName := Some (js "Berlin");
                language := Some (js "de");
                error := None |};
      Normal {| success := true;
                grokipediaUrl := Some (js "https://grokipedia.com/page/S%C3%A1mi_people");
                articleName := Some (js "S%C3%A1mi_people");
                language := Some (js "en");
                error := None |};
      Normal (failure (js "Not a Wikipedia article page"));
      Normal (failure (js "Not a Wikipedia article page")) ].
Proof. reflexivity. Qed.

Example test_decodeArticleName :
  map decodeArticleName
    [ js "Albert_Einstein"; js "S%C3%A1mi_people"; js "C%2B%2B"; js "JavaScript";
      js "Invalid%ZZ" ]
  = [ Normal (js "Albert Einstein"); Normal (js "S" ++ [225] ++ js "mi people");
      Normal (js "C++"); Normal (js "JavaScript"); Normal (js "Invalid%ZZ") ].
Proof. reflexivity. Qed.

Example test_isLanguageEnabled :
  isLanguageEnabled (js "en") [js "en"; js "de"; js "fr"] = Normal true
  /\ isLanguageEnabled (js "de") [js "en"; js "de"; js "fr"] = Normal true
  /\ isLanguageEnabled (js "ja") [js "en"; js "de"; js "fr"] = Normal false
  /\ isLanguageEnabled (js "en") [] = Normal true
  /\ isLanguageEnabled (js "ja") [] = Normal true
  /\ isLanguageEnabled (js "zh") [] = Normal true.
Proof. repeat split. Qed.

(** Hosts that carry no language code: no subdomain, a second subdomain,
    a digit in the label, a label of one or of four letters. *)
Example extractLanguage_other_shapes :
  map (extractLanguage URL_constructor)
    [ js "https://wikipedia.org/wiki/Article";
      js "https://en.m.wikipedia.org/wiki/Article";
      js "https://e1.wikipedia.org/wiki/Article";
      js "https://e.wikipedia.org/wiki/Article";
      js "https://abcd.wikipedia.org/wiki/Article";
      js "https://en.wikipedia.org.example.com/wiki/Article" ]
  = repeat (Normal None) 6.
Proof. reflexivity. Qed.

(** A host under the domain that carries no language label, such as the
    mobile site: the candidate check passes and the run stops at the
    language. *)
Example mobile_host_has_no_language :
  transformToGrokipedia URL_constructor (js "https://en.m.wikipedia.org/wiki/Berlin")
  = ([Call_isArticlePage; Call_extractLanguage],
     Normal (failure (js "Could not extract language from URL"))).
Proof. reflexivity. Qed.

(** A quotation mark is no forbidden host code point: the host parses,
    it is a host of the domain, and it carries no language code. *)
Example quotation_mark_in_host :
  let url := js "https://en" ++ [34] ++ js "x.wikipedia.org/wiki/Foo" in
  basic_URL_parser url
  = Parsed {| hostname := js "en" ++ [34] ++ js "x.wikipedia.org";
              pathname := js "/wiki/Foo";
              search := js "";
              hash := js "" |}
  /\ isArticlePage URL_constructor url = Normal true
  /\ extractLanguage URL_constructor url = Normal None.
Proof. repeat split. Qed.

(* ===================================================================== *)
(** * Article titles, from the address to the banner                      *)
(* ===================================================================== *)

(** Linear arithmetic with divisions by constants. *)
Ltac div_lia := zify; Z.to_euclidean_division_equations; lia.

(** ** Escapes *)

Lemma hex_digit_value_upper (n : N) :
  n < 16 -> hex_digit_value (upper_hex_digit n) = Some n.
Proof.
  intros H. unfold hex_digit_value, upper_hex_digit.
  destruct (N.ltb_spec n 10).
  - replace ((48 <=? 48 + n) && (48 + n <=? 57)) with true by (N_bool; reflexivity).
    f_equal. lia.
  - replace ((48 <=? 55 + n) && (55 + n <=? 57)) with false by (N_bool; reflexivity).
    replace ((65 <=? 55 + n) && (55 + n <=? 70)) with true by (N_bool; reflexivity).
    f_equal. lia.
Qed.

Lemma ParseHexOctet_encode (b : N) :
  b < 256 ->
  ParseHexOctet (upper_hex_digit (b / 16)) (upper_hex_digit (b mod 16)) = Some b.
Proof.
  intros H. unfold ParseHexOctet.
  rewrite !hex_digit_value_upper by div_lia. f_equal. div_lia.
Qed.

Lemma decode_literal (c : code_unit) (s : jsstring) :
  c <> 37 ->
  decodeURIComponent (c :: s) = bind (decodeURIComponent s) (fun R => Normal (c :: R)).
Proof.
  intros H. unfold decodeURIComponent. cbn [length Decode_loop].
  now destruct (N.eqb_spec c 37).
Qed.

Lemma read_escapes_encoded (octets : list N) (s : jsstring) :
  Forall (fun b => b < 256) octets ->
  read_escapes (length octets) (flat_map percent_encode_byte octets ++ s)
  = Some (octets, s).
Proof.
  induction 1 as [|b octets Hb _ IH]; [reflexivity|].
  cbn [length flat_map percent_encode_byte app read_escapes].
  change (37 =? 37) with true. cbv iota.
  now rewrite (ParseHexOctet_encode b Hb), IH.
Qed.

(** The bytes of the UTF-8 encoding of a scalar value. *)
Lemma utf8_encode_bytes (c : N) :
  c < 1114112 -> Forall (fun b => b < 256) (utf8_encode c).
Proof.
  intros H. unfold utf8_encode.
  destruct (N.ltb_spec c 128); [repeat constructor; lia|].
  destruct (N.ltb_spec c 2048); [repeat constructor; div_lia|].
  destruct (N.ltb_spec c 65536); repeat constructor; div_lia.
Qed.

Lemma decode_octet (b : N) (s : jsstring) :
  b < 128 ->
  decodeURIComponent (percent_encode_byte b ++ s)
  = bind (decodeURIComponent s) (fun R => Normal (b :: R)).
Proof.
  intros H. unfold decodeURIComponent, percent_encode_byte.
  cbn [app length].
  match goal with |- context [Decode_loop (S ?f) _] => set (fuel := f) end.
  cbn [Decode_loop]. change (37 =? 37) with true. cbv iota.
  rewrite ParseHexOctet_encode by lia.
  replace (leading_ones b) with 0%nat
    by (unfold leading_ones; destruct (N.ltb_spec b 128); [reflexivity | lia]).
  now rewrite (Decode_loop_fuel fuel s (length s)) by (subst fuel; lia).
Qed.

Lemma decode_octets (b0 V : N) (octets : list N) (s : jsstring) :
  b0 < 256 -> Forall (fun b => b < 256) octets ->
  (1 <= length octets <= 3)%nat ->
  leading_ones b0 = S (length octets) ->
  utf8_code_point (b0 :: octets) = Some V ->
  decodeURIComponent (flat_map percent_encode_byte (b0 :: octets) ++ s)
  = bind (decodeURIComponent s) (fun R => Normal (UTF16EncodeCodePoint V ++ R)).
Proof.
  intros Hb0 Hoctets Hlength Hleading Hvalue.
  pose proof (read_escapes_encoded octets s Hoctets) as Hread.
  unfold decodeURIComponent. cbn [flat_map]. rewrite <- app_assoc.
  change (percent_encode_byte b0)
    with [37; upper_hex_digit (b0 / 16); upper_hex_digit (b0 mod 16)].
  cbn [app length].
  match goal with |- context [Decode_loop (S ?f) _] => set (fuel := f) end.
  assert (Hfuel : (length s <= fuel)%nat) by (subst fuel; rewrite length_app; lia).
  clearbody fuel.
  cbn [Decode_loop]. change (37 =? 37) with true. cbv iota.
  rewrite ParseHexOctet_encode by exact Hb0. rewrite Hleading.
  destruct (length octets) as [|[|[|[|n]]]] eqn:E; try lia;
    rewrite Hread, Hvalue;
    now rewrite (Decode_loop_fuel fuel s (length s)) by lia.
Qed.

Ltac holds :=
  repeat match goal with
         | |- _ && _ = true => apply andb_true_iff; split
         | |- negb _ = true => apply negb_true_iff
         | |- _ && _ = false => apply andb_false_iff
         | |- (_ <=? _) = true => apply N.leb_le
         | |- (_ <? _) = true => apply N.ltb_lt
         end.

(** What the URL parser escapes, [decodeURIComponent] gives back: the
    escaped UTF-8 encoding of a scalar value decodes to its UTF-16
    encoding. *)
Lemma decode_escape (c : N) (s : jsstring) :
  c < 1114112 -> ~ (55296 <= c <= 57343) ->
  decodeURIComponent (flat_map percent_encode_byte (utf8_encode c) ++ s)
  = bind (decodeURIComponent s) (fun R => Normal (UTF16EncodeCodePoint c ++ R)).
Proof.
  intros Hmax Hscalar. pose proof (utf8_encode_bytes c Hmax) as Hbytes.
  unfold utf8_encode in *.
  destruct (N.ltb_spec c 128) as [H1|H1].
  - cbn [flat_map]. rewrite app_nil_r, decode_octet by exact H1.
    unfold UTF16EncodeCodePoint.
    now replace (c <=? 65535) with true by (symmetry; apply N.leb_le; lia).
  - destruct (N.ltb_spec c 2048) as [H2|H2]; [|destruct (N.ltb_spec c 65536) as [H3|H3]];
      inversion Hbytes as [|? ? Hb0 Hrest]; subst;
      (apply decode_octets; [exact Hb0 | exact Hrest | cbn [length]; lia | |]).
    + unfold leading_ones.
      repeat match goal with
             | |- context [?a <? ?b] => destruct (N.ltb_spec a b); try div_lia
             end; reflexivity.
    + unfold utf8_code_point, is_continuation. cbv zeta.
      replace ((192 + c / 64 - 192) * 64 + (128 + c mod 64 - 128)) with c by div_lia.
      match goal with |- (if ?b then _ else _) = _ => replace b with true; [reflexivity|] end.
      symmetry. holds; div_lia.
    + unfold leading_ones.
      repeat match goal with
             | |- context [?a <? ?b] => destruct (N.ltb_spec a b); try div_lia
             end; reflexivity.
    + unfold utf8_code_point, is_continuation. cbv zeta.
      replace ((224 + c / 4096 - 224) * 4096 + (128 + (c / 64) mod 64 - 128) * 64
               + (128 + c mod 64 - 128)) with c by div_lia.
      match goal with |- (if ?b then _ else _) = _ => replace b with true; [reflexivity|] end.
      symmetry. holds; try div_lia.
      destruct (N.leb_spec 55296 c); [right; apply N.leb_gt; lia | now left].
    + unfold leading_ones.
      repeat match goal with
             | |- context [?a <? ?b] => destruct (N.ltb_spec a b); try div_lia
             end; reflexivity.
    + unfold utf8_code_point, is_continuation. cbv zeta.
      replace ((240 + c / 262144 - 240) * 262144 + (128 + (c / 4096) mod 64 - 128) * 4096
               + (128 + (c / 64) mod 64 - 128) * 64 + (128 + c mod 64 - 128))
        with c by div_lia.
      match goal with |- (if ?b then _ else _) = _ => replace b with true; [reflexivity|] end.
      symmetry. holds; div_lia.
Qed.

(** ** Titles *)

Lemma title_code_point_range (c : N) :
  is_title_code_point c = true ->
  c < 1114112 /\ ~ (55296 <= c <= 57343)
  /\ c <> 9 /\ c <> 10 /\ c <> 13 /\ c <> 47 /\ c <> 92 /\ c <> 63 /\ c <> 35 /\ c <> 37.
Proof.
  unfold is_title_code_point, is_tab_or_newline, is_slash. intros H.
  repeat (apply andb_true_iff in H; destruct H as [H ?]).
  repeat match goal with
         | H : negb _ = true |- _ => apply negb_true_iff in H
         | H : _ || _ = false |- _ => apply orb_false_iff in H; destruct H
         | H : (_ =? _) = false |- _ => apply N.eqb_neq in H
         | H : (_ <? _) = true |- _ => apply N.ltb_lt in H
         end.
  repeat apply conj; try assumption.
  intros [Hlow Hhigh]. apply N.leb_le in Hlow, Hhigh.
  match goal with H : _ && _ = false |- _ => rewrite Hlow, Hhigh in H; discriminate H end.
Qed.

Lemma not_escaped_range (c : N) : path_percent_encode_set c = false -> 32 < c < 127.
Proof.
  unfold path_percent_encode_set, query_percent_encode_set, C0_control_percent_encode_set.
  intros H.
  repeat match goal with
         | H : _ || _ = false |- _ => apply orb_false_iff in H; destruct H
         | H : (_ =? _) = false |- _ => apply N.eqb_neq in H
         | H : (_ <=? _) = false |- _ => apply N.leb_gt in H
         | H : (_ <? _) = false |- _ => apply N.ltb_ge in H
         end.
  lia.
Qed.

(** [decodeURIComponent] undoes percent-encoding, whichever code points
    are escaped, as long as the others are ASCII characters other than
    [%]. *)
Lemma decode_carried_text (escaped : N -> bool) (text : list N) :
  forallb (is_carried escaped) text = true ->
  decodeURIComponent (percent_encode_after_encoding escaped text) = Normal (utf16 text).
Proof.
  unfold percent_encode_after_encoding, utf16.
  induction text as [|c text IH]; [reflexivity|].
  cbn [forallb flat_map]. intros [Hc Htext]%andb_true_iff.
  unfold is_carried in Hc.
  apply andb_true_iff in Hc as [Hc Hliteral]. apply andb_true_iff in Hc as [Hmax Hscalar].
  apply N.ltb_lt in Hmax. apply negb_true_iff in Hscalar.
  assert (Hscalar' : ~ (55296 <= c <= 57343)).
  { intros [Hlow Hhigh]. apply N.leb_le in Hlow, Hhigh.
    rewrite Hlow, Hhigh in Hscalar. discriminate Hscalar. }
  unfold utf8_percent_encode at 1. destruct (escaped c).
  - rewrite decode_escape by assumption. now rewrite (IH Htext).
  - cbn [orb] in Hliteral. apply andb_true_iff in Hliteral as [Hascii Hpercent].
    apply N.ltb_lt in Hascii. apply negb_true_iff, N.eqb_neq in Hpercent.
    cbn [app]. rewrite decode_literal by exact Hpercent. rewrite (IH Htext). cbn [bind].
    unfold UTF16EncodeCodePoint.
    now replace (c <=? 65535) with true by (symmetry; apply N.leb_le; lia).
Qed.

(** The code points of a title are carried by the parser of the URL
    Standard, which escapes with the path percent-encode set. *)
Lemma title_code_point_is_carried (c : N) :
  is_title_code_point c = true -> is_carried path_percent_encode_set c = true.
Proof.
  intros Hc. destruct (title_code_point_range c Hc) as (Hmax & Hscalar & H).
  unfold is_carried. holds.
  - exact Hmax.
  - destruct (N.leb_spec 55296 c); [right; apply N.leb_gt; lia | now left].
  - destruct (path_percent_encode_set c) eqn:E; [reflexivity|].
    apply not_escaped_range in E. cbn [orb]. holds; [lia|].
    apply N.eqb_neq. tauto.
Qed.

Lemma to_scalar_values_utf16 (text : list N) :
  forallb is_title_code_point text = true -> to_scalar_values (utf16 text) = text.
Proof.
  unfold utf16. induction text as [|c text IH]; [reflexivity|].
  cbn [forallb flat_map]. intros [Hc Htext]%andb_true_iff.
  destruct (title_code_point_range c Hc) as (Hmax & Hscalar & _).
  unfold UTF16EncodeCodePoint at 1. destruct (N.leb_spec c 65535) as [H|H].
  - cbn [app to_scalar_values]. unfold is_high_surrogate, is_low_surrogate.
    destruct (N.leb_spec 55296 c), (N.leb_spec c 56319), (N.leb_spec 56320 c),
      (N.leb_spec c 57343); cbn [andb]; try lia; now rewrite (IH Htext).
  - cbn [app to_scalar_values].
    replace (is_high_surrogate ((c - 65536) / 1024 + 55296)) with true
      by (symmetry; unfold is_high_surrogate; holds; div_lia).
    replace (is_low_surrogate ((c - 65536) mod 1024 + 56320)) with true
      by (symmetry; unfold is_low_surrogate; holds; div_lia).
    rewrite (IH Htext). f_equal. div_lia.
Qed.

Lemma strip_trailing_id (text : list N) :
  is_C0_control_or_space (last text 0) = false -> strip_trailing text = text.
Proof.
  intros H. unfold strip_trailing.
  destruct (exists_last (l := text)) as (front & z & ->).
  - intros ->. cbn in H. discriminate H.
  - rewrite last_last in H. rewrite rev_app_distr. cbn [rev app dropWhile].
    rewrite H. cbn [rev]. now rewrite rev_involutive.
Qed.

Lemma suffix_as_parsed_title (text : list N) :
  is_title text -> suffix_as_parsed (utf16 text) = text.
Proof.
  intros (_ & Htext & Hlast & _). unfold suffix_as_parsed.
  rewrite (to_scalar_values_utf16 text Htext), (strip_trailing_id text Hlast).
  unfold remove_tab_newline. apply filter_all. apply forallb_forall. intros c Hc.
  rewrite forallb_forall in Htext.
  destruct (title_code_point_range c (Htext c Hc)) as (_ & _ & H9 & H10 & H13 & _).
  unfold is_tab_or_newline.
  destruct (N.eqb_spec c 9), (N.eqb_spec c 10), (N.eqb_spec c 13); tauto.
Qed.

Lemma path_state_title (text : list N) :
  forallb is_title_code_point text = true ->
  forall path buffer,
    path_state path buffer text
    = (end_segment path
         (buffer ++ percent_encode_after_encoding path_percent_encode_set text) false,
       []).
Proof.
  unfold percent_encode_after_encoding.
  induction text as [|c text IH]; intros Htext path buffer.
  - cbn. now rewrite app_nil_r.
  - cbn [forallb] in Htext. apply andb_true_iff in Htext as [Hc Htext].
    destruct (title_code_point_range c Hc) as (_ & _ & _ & _ & _ & H47 & H92 & H63 & H35 & _).
    cbn [path_state flat_map].
    replace (is_slash c) with false
      by (unfold is_slash; destruct (N.eqb_spec c 47), (N.eqb_spec c 92); tauto).
    replace ((c =? 63) || (c =? 35)) with false
      by (destruct (N.eqb_spec c 63), (N.eqb_spec c 35); tauto).
    rewrite (IH Htext). now rewrite <- app_assoc.
Qed.

Lemma lowercase_is (c k : N) : k < 65 -> ascii_lowercase c = k -> c = k.
Proof. intros Hk H. apply ascii_lowercase_inv in H. destruct H as [H|[H1 H2]]; lia. Qed.

(** The encoding of a title is not a dot segment. *)
Lemma title_is_no_dot_segment (text : list N) :
  is_title text ->
  let segment := percent_encode_after_encoding path_percent_encode_set text in
  is_single_dot segment = false /\ is_double_dot segment = false.
Proof.
  intros (_ & Htext & _ & Hdot & Hdots) segment. subst segment.
  assert (Hpercent : ~ In 37 text).
  { intros H. rewrite forallb_forall in Htext.
    destruct (title_code_point_range 37 (Htext 37 H)) as (_ & _ & _ & _ & _ & _ & _ & _ & _ & E).
    now apply E. }
  split.
  - destruct (is_single_dot (percent_encode_after_encoding _ text)) eqn:E; [|reflexivity].
    rewrite (percent_encode_escapes text (is_single_dot_escapes _ E)) in E.
    exfalso. unfold is_single_dot in E. cbn [existsb] in E.
    change (js ".") with [46] in E. change (js "%2e") with [37; 50; 101] in E.
    rewrite !orb_true_iff, !jsstring_eqb_eq in E.
    destruct E as [E|[E|E]]; [| |discriminate E];
      repeat (apply map_cons_inv in E; destruct E as (? & ? & -> & ? & E));
      apply map_eq_nil in E; subst;
      repeat match goal with
             | H : ascii_lowercase _ = 46 |- _ => apply lowercase_is in H; [subst|lia]
             | H : ascii_lowercase _ = 37 |- _ => apply lowercase_is in H; [subst|lia]
             end.
    + now apply Hdot.
    + apply Hpercent. now left.
  - apply double_dot_encoded.
    destruct (is_double_dot text) eqn:E; [|reflexivity].
    exfalso. unfold is_double_dot in E. cbn [existsb] in E.
    change (js "..") with [46; 46] in E. change (js ".%2e") with [46; 37; 50; 101] in E.
    change (js "%2e.") with [37; 50; 101; 46] in E.
    change (js "%2e%2e") with [37; 50; 101; 37; 50; 101] in E.
    rewrite !orb_true_iff, !jsstring_eqb_eq in E.
    destruct E as [E|[E|[E|[E|E]]]]; [| | | |discriminate E];
      repeat (apply map_cons_inv in E; destruct E as (? & ? & -> & ? & E));
      apply map_eq_nil in E; subst;
      repeat match goal with
             | H : ascii_lowercase _ = 46 |- _ => apply lowercase_is in H; [subst|lia]
             | H : ascii_lowercase _ = 37 |- _ => apply lowercase_is in H; [subst|lia]
             end.
    + now apply Hdots.
    + apply Hpercent. right. now left.
    + apply Hpercent. now left.
    + apply Hpercent. now left.
Qed.

(** The parse of the address of an article of the English Wikipedia,
    from its title. *)
Lemma parse_wiki_title (text : list N) :
  is_title text ->
  basic_URL_parser (wiki_prefix ++ utf16 text)
  = Parsed {| hostname := js "en.wikipedia.org";
              pathname :=
                js "/wiki/" ++ percent_encode_after_encoding path_percent_encode_set text;
              search := [];
              hash := [] |}.
Proof.
  intros Htitle.
  pose proof (suffix_as_parsed_title text Htitle) as Hsuffix.
  destruct (title_is_no_dot_segment text Htitle) as [Hsingle Hdouble].
  destruct Htitle as (_ & Htext & _).
  unfold basic_URL_parser.
  change wiki_prefix with (js "https://en.wikipedia.org/wiki" ++ [47]).
  rewrite (preprocess_app _ (utf16 text) 47) by reflexivity.
  rewrite Hsuffix.
  change (js "https://en.wikipedia.org/wiki" ++ [47]) with wiki_prefix.
  change (scheme_start_state (wiki_prefix ++ text))
    with (Some (js "https", js "//en.wikipedia.org/wiki/" ++ text)).
  cbv iota beta.
  change (is_special_not_file (js "https")) with true. cbv iota.
  change (dropWhile is_slash (js "//en.wikipedia.org/wiki/" ++ text))
    with (js "en.wikipedia.org/wiki/" ++ text).
  change (break_at is_authority_end (js "en.wikipedia.org/wiki/" ++ text))
    with (js "en.wikipedia.org", js "/wiki/" ++ text).
  cbv iota beta.
  change (authority_state (js "en.wikipedia.org")) with (Host (js "en.wikipedia.org")).
  cbv iota beta.
  change (path_start_state (js "/wiki/" ++ text))
    with (path_state [js "wiki"] [] text).
  rewrite (path_state_title text Htext). cbn [app].
  unfold end_segment. rewrite Hsingle, Hdouble.
  cbn [query_state]. unfold serialize_path. cbn [app flat_map]. rewrite app_nil_r.
  reflexivity.
Qed.


Section TitleFacts.

Variable new_URL : jsstring -> completion URL.


(** X1.  [isArticlePage] returns [true] exactly for the URLs that
    parse, have a host name that ends with [.wikipedia.org] and a path
    that begins with [/wiki/], and whose path behind [/wiki/] begins
    with none of the excluded namespaces; it returns [false] for every
    other string.  The test for the main page changes nothing. *)
Theorem isArticlePage_characterisation (url : jsstring) :
  (isArticlePage new_URL url = Normal true <->
   exists u front rest,
     new_URL url = Normal u
     /\ hostname u = front ++ js ".wikipedia.org"
     /\ pathname u = js "/wiki/" ++ rest
     /\ forall namespace, In namespace EXCLUDED_NAMESPACES -> startsWith rest namespace = false)
  /\ (isArticlePage new_URL url = Normal true \/ isArticlePage new_URL url = Normal false).
Proof.
  rewrite isArticlePage_eq. split.
  - split.
    + destruct (new_URL url) as [u|e]; [|discriminate]. intros [= H].
      apply is_article_URL_iff in H. destruct H as [[front Hhost] (rest & Hpath & Hns)].
      exists u, front, rest. repeat apply conj; try assumption; try reflexivity.
      intros namespace Hin. destruct (startsWith rest namespace) eqn:E; [|reflexivity].
      apply startsWith_iff in E. destruct E as [tail ->].
      now rewrite (in_excluded_namespace_In namespace tail _ Hin) in Hns.
    + intros (u & front & rest & -> & Hhost & Hpath & Hns). f_equal.
      apply is_article_URL_iff. split; [now exists front|]. exists rest. split; [exact Hpath|].
      destruct (in_excluded_namespace rest EXCLUDED_NAMESPACES) eqn:E; [|reflexivity].
      apply in_excluded_namespace_true in E. destruct E as (p & tail & Hp & ->).
      specialize (Hns p Hp). now rewrite startsWith_app in Hns.
  - destruct (new_URL url) as [u|e]; [|now right].
    destruct (is_article_URL u); [now left | now right].
Qed.

(** X2.  [transformToGrokipedia] succeeds exactly when the URL parses,
    its host name is a language code followed by [.wikipedia.org], and
    its path is [/wiki/] followed by a name that is not empty and begins
    with no excluded namespace.  The result then has that language, that
    name and the Grokipedia URL of the name, and no error; in every
    other case the result is a failure with an error and nothing
    else. *)
Theorem transformToGrokipedia_succeeds_exactly (url : jsstring) :
  exists result,
    result_of (transformToGrokipedia new_URL url) = Normal result
    /\ (success result = true <->
        exists u language name,
          new_URL url = Normal u
          /\ hostname u = language ++ js ".wikipedia.org"
          /\ LanguageCode language
          /\ pathname u = js "/wiki/" ++ name
          /\ name <> []
          /\ in_excluded_namespace name EXCLUDED_NAMESPACES = false)
    /\ (forall u language name,
          new_URL url = Normal u ->
          hostname u = language ++ js ".wikipedia.org" ->
          LanguageCode language ->
          pathname u = js "/wiki/" ++ name ->
          name <> [] ->
          in_excluded_namespace name EXCLUDED_NAMESPACES = false ->
          result = {| success := true;
                      grokipediaUrl := Some (js "https://grokipedia.com" ++ js "/page/" ++ name);
                      articleName := Some name;
                      language := Some language;
                      error := None |})
    /\ (success result = false ->
        grokipediaUrl result = None /\ articleName result = None
        /\ language result = None /\ exists reason, error result = Some reason).
Proof.
  assert (Hforward :
            forall u l name,
              new_URL url = Normal u ->
              hostname u = l ++ js ".wikipedia.org" -> LanguageCode l ->
              pathname u = js "/wiki/" ++ name -> name <> [] ->
              in_excluded_namespace name EXCLUDED_NAMESPACES = false ->
              transformToGrokipedia new_URL url
              = (all_calls,
                 Normal {| success := true;
                           grokipediaUrl :=
                             Some (js "https://grokipedia.com" ++ js "/page/" ++ name);
                           articleName := Some name;
                           language := Some l;
                           error := None |})).
  { intros u l name Hurl Hhost Hl Hpath Hname Hns.
    apply transform_success.
    - rewrite isArticlePage_eq, Hurl. f_equal. apply is_article_URL_iff.
      split; [now exists l|]. now exists name.
    - apply extractLanguage_Some. now exists u.
    - apply extractArticleName_Some. now exists u. }
  destruct (transform_cases new_URL url)
    as [H1 | [[H1 H2] | [(l & H1 & H2 & H3) | (l & id & H1 & H2 & H3)]]].
  - rewrite (transform_not_article new_URL url H1). eexists. split; [reflexivity|].
    split; [split; [discriminate|]|split];
      [intros (u & l & name & Hurl & Hhost & Hl & Hpath & Hname & Hns)
      |intros u l name Hurl Hhost Hl Hpath Hname Hns
      |intros _; repeat (split; [reflexivity|]); eexists; reflexivity];
      specialize (Hforward u l name Hurl Hhost Hl Hpath Hname Hns);
      rewrite (transform_not_article new_URL url H1) in Hforward; discriminate Hforward.
  - rewrite (transform_no_language new_URL url H1 H2). eexists. split; [reflexivity|].
    split; [split; [discriminate|]|split];
      [intros (u & l & name & Hurl & Hhost & Hl & Hpath & Hname & Hns)
      |intros u l name Hurl Hhost Hl Hpath Hname Hns
      |intros _; repeat (split; [reflexivity|]); eexists; reflexivity];
      specialize (Hforward u l name Hurl Hhost Hl Hpath Hname Hns);
      rewrite (transform_no_language new_URL url H1 H2) in Hforward; discriminate Hforward.
  - rewrite (transform_no_article_name new_URL url l H1 H2 H3).
    eexists. split; [reflexivity|].
    split; [split; [discriminate|]|split];
      [intros (u & l' & name & Hurl & Hhost & Hl & Hpath & Hname & Hns)
      |intros u l' name Hurl Hhost Hl Hpath Hname Hns
      |intros _; repeat (split; [reflexivity|]); eexists; reflexivity];
      specialize (Hforward u l' name Hurl Hhost Hl Hpath Hname Hns);
      rewrite (transform_no_article_name new_URL url l H1 H2 H3) in Hforward; discriminate Hforward.
  - rewrite (transform_success new_URL url l id H1 H2 H3).
    eexists. split; [reflexivity|]. split; [|split; [|discriminate]].
    + split; [intros _|reflexivity].
      apply extractLanguage_Some in H2. destruct H2 as (u & Hurl & Hhost & Hl).
      apply extractArticleName_Some in H3. destruct H3 as (u' & Hurl' & Hpath & Hname).
      rewrite Hurl in Hurl'. injection Hurl' as <-.
      rewrite isArticlePage_eq, Hurl in H1. injection H1 as H1.
      apply is_article_URL_iff in H1. destruct H1 as [_ (rest & Hpath' & Hns)].
      rewrite Hpath in Hpath'. apply app_inv_head in Hpath'. subst rest.
      exists u, l, id. now repeat split.
    + intros u l' name Hurl Hhost Hl Hpath Hname Hns.
      specialize (Hforward u l' name Hurl Hhost Hl Hpath Hname Hns).
      pose proof (transform_success new_URL url l id H1 H2 H3) as E.
      congruence.
Qed.

End TitleFacts.

Import Promise Settings.

(* ===================================================================== *)
(** * The settings store                                                  *)
(* ===================================================================== *)


(** ** Object spread *)

Lemma spread_as_Partial (a s : UserSettings) : spread a (Some (as_Partial s)) = s.
Proof. now destruct s. Qed.

Lemma spread_empty (a : UserSettings) : spread a (Some Partial.empty) = a.
Proof. now destruct a. Qed.

Lemma includes_In (array : list jsstring) (x : jsstring) :
  includes array x = true <-> In x array.
Proof.
  unfold includes. rewrite existsb_exists. split.
  - intros [y [Hy E]]. apply jsstring_eqb_eq in E. now subst.
  - intros H. exists x. split; [exact H | apply jsstring_eqb_refl].
Qed.

Lemma includes_false (array : list jsstring) (x : jsstring) :
  includes array x = false <-> ~ In x array.
Proof.
  rewrite <- includes_In. destruct (includes array x); split; congruence.
Qed.

Section StorageFacts.

Variable World : Type.
Variable chrome_storage_sync_get : jsstring -> async World (Object.object Partial.t).
Variable chrome_storage_sync_set : Object.object Partial.t -> async World unit.
Variable console_error : jsstring -> exception -> World -> World.

Local Abbreviation getSettings := (Storage.getSettings World chrome_storage_sync_get console_error).
Local Abbreviation saveSettings :=
  (Storage.saveSettings World chrome_storage_sync_get chrome_storage_sync_set console_error).
Local Abbreviation resetSettings := (Storage.resetSettings World chrome_storage_sync_set console_error).
Local Abbreviation toggleSetting :=
  (Storage.toggleSetting World chrome_storage_sync_get chrome_storage_sync_set console_error).
Local Abbreviation addLanguage :=
  (Storage.addLanguage World chrome_storage_sync_get chrome_storage_sync_set console_error).
Local Abbreviation removeLanguage :=
  (Storage.removeLanguage World chrome_storage_sync_get chrome_storage_sync_set console_error).
Local Abbreviation enableAllLanguages :=
  (Storage.enableAllLanguages World chrome_storage_sync_get chrome_storage_sync_set
     console_error).

(** [getSettings] always fulfils. *)
Lemma getSettings_fulfils (w : World) :
  exists s w', getSettings w = (Fulfilled s, w').
Proof.
  unfold Storage.getSettings, try_catch, bind, effect, ret.
  destruct (chrome_storage_sync_get STORAGE_KEY w) as [[items | reason] w']; eauto.
Qed.

Lemma getSettings_after_rejected_read (w : World) :
  exists settings w',
    getSettings w = (Fulfilled settings, w')
    /\ forall reason w1,
         chrome_storage_sync_get STORAGE_KEY w = (Rejected reason, w1) ->
         settings = DEFAULT_SETTINGS.
Proof.
  unfold Storage.getSettings, try_catch, bind, effect, ret.
  destruct (chrome_storage_sync_get STORAGE_KEY w) as [[items | reason] w0].
  - eexists; eexists; split; [reflexivity|]. intros reason w1 [=].
  - eexists; eexists; split; [reflexivity|]. reflexivity.
Qed.

(** X4.  [getSettings] never rejects, whatever the storage does.  When
    the read is rejected it logs the error and returns the default
    settings; when nothing is stored under the key it returns the default
    settings; and when an object is stored, each setting is the stored
    property if the object has it and the default otherwise. *)
Theorem getSettings_never_rejects (w : World) :
  exists settings w',
    getSettings w = (Fulfilled settings, w')
    /\ (forall reason w1,
          chrome_storage_sync_get STORAGE_KEY w = (Rejected reason, w1) ->
          settings = DEFAULT_SETTINGS
          /\ w' = console_error (js "Failed to get settings:") reason w1)
    /\ (forall items w1,
          chrome_storage_sync_get STORAGE_KEY w = (Fulfilled items, w1) ->
          w' = w1
          /\ match Object.get items STORAGE_KEY with
             | None => settings = DEFAULT_SETTINGS
             | Some storedSettings =>
                 autoRedirect settings = own (Partial.autoRedirect storedSettings) false
                 /\ useNotifications settings
                    = own (Partial.useNotifications storedSettings) false
                 /\ redirectDelay settings = own (Partial.redirectDelay storedSettings) 0%Z
                 /\ enabledLanguages settings
                    = own (Partial.enabledLanguages storedSettings) [js "en"]
                 /\ enabled settings = own (Partial.enabled storedSettings) true
             end).
Proof.
  unfold Storage.getSettings, try_catch, bind, effect, ret.
  destruct (chrome_storage_sync_get STORAGE_KEY w) as [[items | reason] w0].
  - eexists; eexists; split; [reflexivity|]. split.
    + intros reason w1 [=].
    + intros items' w1 [= <- <-]. split; [reflexivity|].
      destruct (Object.get items STORAGE_KEY) as [storedSettings|]; [|reflexivity].
      cbn. now repeat apply conj.
  - eexists; eexists; split; [reflexivity|]. split.
    + intros reason' w1 [= <- <-]. now split.
    + intros items w1 [=].
Qed.

(** X5.  [saveSettings] first reads the current settings, which cannot
    fail, and writes them back merged with the update.  It fulfils when
    that write fulfils, and when the write is rejected it logs the error
    and rejects with the same reason.  A rejected read is not reported:
    the object written is then the default settings merged with the
    update, in place of what was stored. *)
Theorem saveSettings_rejects_with_the_write (settings : Partial.t) (w : World) :
  exists current w0,
    getSettings w = (Fulfilled current, w0)
    /\ (forall w1,
          chrome_storage_sync_set
            [(STORAGE_KEY, as_Partial (spread current (Some settings)))] w0
          = (Fulfilled tt, w1) ->
          saveSettings settings w = (Fulfilled tt, w1))
    /\ (forall reason w1,
          chrome_storage_sync_set
            [(STORAGE_KEY, as_Partial (spread current (Some settings)))] w0
          = (Rejected reason, w1) ->
          saveSettings settings w
          = (Rejected reason, console_error (js "Failed to save settings:") reason w1))
    /\ (forall reason w1,
          chrome_storage_sync_get STORAGE_KEY w = (Rejected reason, w1) ->
          current = DEFAULT_SETTINGS).
Proof.
  destruct (getSettings_after_rejected_read w) as (current & w0 & E & Hrejected).
  exists current, w0. split; [exact E|].
  unfold Storage.saveSettings, try_catch, bind, effect, throw. rewrite E.
  repeat apply conj.
  - intros w1 ->. reflexivity.
  - intros reason w1 ->. reflexivity.
  - exact Hrejected.
Qed.

Section Reliable.

Variable stored : World -> option Partial.t.
Hypothesis storage_works :
  reliable chrome_storage_sync_get chrome_storage_sync_set stored.

Lemma getSettings_reliable (w : World) :
  exists w', getSettings w = (Fulfilled (in_force (stored w)), w')
             /\ stored w' = stored w.
Proof.
  destruct (get_reads _ _ _ storage_works w) as (items & w' & E & Hitems & Hw').
  exists w'. unfold Storage.getSettings, try_catch, bind, ret.
  rewrite E, Hitems. now split.
Qed.

Lemma getSettings_inv (w w' : World) (s : UserSettings) :
  getSettings w = (Fulfilled s, w') ->
  s = in_force (stored w) /\ stored w' = stored w.
Proof.
  destruct (getSettings_reliable w) as (w0 & E & H). rewrite E.
  intros [= <- <-]. now split.
Qed.

Lemma saveSettings_reliable (settings : Partial.t) (w : World) :
  exists w',
    saveSettings settings w = (Fulfilled tt, w')
    /\ stored w' =
       Some (as_Partial (spread (in_force (stored w)) (Some settings))).
Proof.
  destruct (getSettings_reliable w) as (w0 & E & H0).
  destruct (set_writes _ _ _ storage_works
              (as_Partial (spread (in_force (stored w)) (Some settings))) w0)
    as (w1 & E1 & H1).
  exists w1. unfold Storage.saveSettings, try_catch, bind.
  rewrite E, E1. now split.
Qed.

(** Saving and reading back. *)
Lemma saveSettings_getSettings (settings : Partial.t) (w : World) :
  exists w1 w2,
    saveSettings settings w = (Fulfilled tt, w1)
    /\ getSettings w1 =
       (Fulfilled (spread (in_force (stored w)) (Some settings)), w2)
    /\ stored w2 = stored w1.
Proof.
  destruct (saveSettings_reliable settings w) as (w1 & E1 & H1).
  destruct (getSettings_reliable w1) as (w2 & E2 & H2).
  exists w1, w2. rewrite H1 in E2. unfold in_force at 1 in E2.
  rewrite spread_as_Partial in E2. now repeat apply conj.
Qed.


(** X6.  On a storage area that works, [saveSettings] fulfils, what it
    stores is a complete settings object, and [getSettings] then returns
    the settings that [getSettings] returned before with the properties
    of the update replaced: a setting that the update does not have keeps
    its value. *)
Theorem saveSettings_then_getSettings (settings : Partial.t) (w : World) :
  exists current w0 w1 w2,
    getSettings w = (Fulfilled current, w0)
    /\ saveSettings settings w = (Fulfilled tt, w1)
    /\ stored w1 = Some (as_Partial (spread current (Some settings)))
    /\ getSettings w1 = (Fulfilled (spread current (Some settings)), w2)
    /\ autoRedirect (spread current (Some settings))
       = own (Partial.autoRedirect settings) (autoRedirect current)
    /\ useNotifications (spread current (Some settings))
       = own (Partial.useNotifications settings) (useNotifications current)
    /\ redirectDelay (spread current (Some settings))
       = own (Partial.redirectDelay settings) (redirectDelay current)
    /\ enabledLanguages (spread current (Some settings))
       = own (Partial.enabledLanguages settings) (enabledLanguages current)
    /\ enabled (spread current (Some settings))
       = own (Partial.enabled settings) (enabled current).
Proof.
  destruct (getSettings_reliable w) as (w0 & E0 & _).
  destruct (saveSettings_reliable settings w) as (w1 & E1 & H1).
  destruct (saveSettings_getSettings settings w) as (w1' & w2 & E1' & E2 & _).
  rewrite E1 in E1'. injection E1' as <-.
  exists (in_force (stored w)), w0, w1, w2. now repeat apply conj.
Qed.

(** X7.  On a storage area that works, [resetSettings] fulfils and
    [getSettings] then returns the default settings, whatever was stored
    before. *)
Theorem resetSettings_then_getSettings (w : World) :
  exists w1 w2,
    resetSettings w = (Fulfilled tt, w1)
    /\ stored w1 = Some (as_Partial DEFAULT_SETTINGS)
    /\ getSettings w1 = (Fulfilled DEFAULT_SETTINGS, w2).
Proof.
  destruct (set_writes _ _ _ storage_works (as_Partial DEFAULT_SETTINGS) w) as (w1 & E1 & H1).
  destruct (getSettings_reliable w1) as (w2 & E2 & _).
  exists w1, w2. unfold Storage.resetSettings, try_catch. rewrite E1.
  rewrite H1 in E2. unfold in_force in E2. rewrite spread_as_Partial in E2.
  now repeat apply conj.
Qed.

Lemma toggleSetting_reliable (key : Storage.BooleanSetting) (w : World) :
  exists w1,
    toggleSetting key w = (Fulfilled (negb (Storage.get_setting (in_force (stored w)) key)), w1)
    /\ in_force (stored w1)
       = spread (in_force (stored w))
           (Some (Storage.computed_property key
                    (negb (Storage.get_setting (in_force (stored w)) key)))).
Proof.
  destruct (getSettings_reliable w) as (w0 & E0 & H0).
  destruct (saveSettings_reliable
              (Storage.computed_property key
                 (negb (Storage.get_setting (in_force (stored w)) key))) w0)
    as (w1 & E1 & H1).
  exists w1. unfold Storage.toggleSetting, bind, ret. rewrite E0, E1. split; [reflexivity|].
  rewrite H1, H0. unfold in_force at 1. now rewrite spread_as_Partial.
Qed.

(** X8.  On a storage area that works, [toggleSetting] returns the
    negation of the setting, [getSettings] then returns the settings with
    that one setting negated and the four others unchanged, and a second
    [toggleSetting] of the same key returns the first value and restores
    the settings. *)
Theorem toggleSetting_flips_one_setting (key : Storage.BooleanSetting) (w : World) :
  exists current w0 after w1 w2 w3 w4,
    getSettings w = (Fulfilled current, w0)
    /\ toggleSetting key w = (Fulfilled (negb (Storage.get_setting current key)), w1)
    /\ getSettings w1 = (Fulfilled after, w2)
    /\ Storage.get_setting after key = negb (Storage.get_setting current key)
    /\ (forall other, other <> key ->
          Storage.get_setting after other = Storage.get_setting current other)
    /\ redirectDelay after = redirectDelay current
    /\ enabledLanguages after = enabledLanguages current
    /\ toggleSetting key w1 = (Fulfilled (Storage.get_setting current key), w3)
    /\ getSettings w3 = (Fulfilled current, w4).
Proof.
  destruct (getSettings_reliable w) as (w0 & E0 & _).
  destruct (toggleSetting_reliable key w) as (w1 & E1 & H1).
  destruct (getSettings_reliable w1) as (w2 & E2 & _).
  destruct (toggleSetting_reliable key w1) as (w3 & E3 & H3).
  destruct (getSettings_reliable w3) as (w4 & E4 & _).
  exists (in_force (stored w)), w0, (in_force (stored w1)), w1, w2, w3, w4.
  rewrite H3 in E4. rewrite H1 in E2, E3, E4 |- *.
  set (current := in_force (stored w)) in *.
  assert (Hflip : Storage.get_setting
                    (spread current
                       (Some (Storage.computed_property key
                                (negb (Storage.get_setting current key))))) key
                  = negb (Storage.get_setting current key))
    by (destruct key; reflexivity).
  rewrite Hflip, negb_involutive in E3, E4.
  assert (Hback : spread
                    (spread current
                       (Some (Storage.computed_property key
                                (negb (Storage.get_setting current key)))))
                    (Some (Storage.computed_property key (Storage.get_setting current key)))
                  = current)
    by (destruct current, key; reflexivity).
  rewrite Hback in E4.
  repeat apply conj; try assumption.
  - intros other Hother. destruct key, other; try reflexivity; contradiction.
  - destruct key; reflexivity.
  - destruct key; reflexivity.
Qed.

Lemma addLanguage_reliable (language : jsstring) (w : World) :
  exists w1,
    addLanguage language w = (Fulfilled tt, w1)
    /\ in_force (stored w1)
       = if includes (enabledLanguages (in_force (stored w))) language
         then in_force (stored w)
         else spread (in_force (stored w))
                (Some (Storage.only_enabledLanguages
                         (enabledLanguages (in_force (stored w)) ++ [language]))).
Proof.
  destruct (getSettings_reliable w) as (w0 & E0 & H0).
  unfold Storage.addLanguage, bind. rewrite E0.
  destruct (includes (enabledLanguages (in_force (stored w))) language) eqn:Hin; cbn.
  - exists w0. split; [reflexivity|]. now rewrite H0.
  - destruct (saveSettings_reliable
                (Storage.only_enabledLanguages
                   (enabledLanguages (in_force (stored w)) ++ [language])) w0)
      as (w1 & E1 & H1).
    exists w1. split; [exact E1|].
    rewrite H1, H0. unfold in_force at 1. now rewrite spread_as_Partial.
Qed.

(** X9.  On a storage area that works, [addLanguage] fulfils and leaves
    a list that contains the language: the list as it was when the
    language was already in it, and otherwise the list with the language
    appended at the end.  It introduces no duplicate, changes no other
    setting, and adding the same language again changes nothing. *)
Theorem addLanguage_appends_once (language : jsstring) (w : World) :
  exists current w0 after w1 w2 w3 w4,
    getSettings w = (Fulfilled current, w0)
    /\ addLanguage language w = (Fulfilled tt, w1)
    /\ getSettings w1 = (Fulfilled after, w2)
    /\ enabledLanguages after
       = (if includes (enabledLanguages current) language
          then enabledLanguages current
          else enabledLanguages current ++ [language])
    /\ In language (enabledLanguages after)
    /\ (NoDup (enabledLanguages current) -> NoDup (enabledLanguages after))
    /\ autoRedirect after = autoRedirect current
    /\ useNotifications after = useNotifications current
    /\ redirectDelay after = redirectDelay current
    /\ enabled after = enabled current
    /\ addLanguage language w1 = (Fulfilled tt, w3)
    /\ getSettings w3 = (Fulfilled after, w4).
Proof.
  destruct (getSettings_reliable w) as (w0 & E0 & _).
  destruct (addLanguage_reliable language w) as (w1 & E1 & H1).
  destruct (getSettings_reliable w1) as (w2 & E2 & _).
  destruct (addLanguage_reliable language w1) as (w3 & E3 & H3).
  destruct (getSettings_reliable w3) as (w4 & E4 & _).
  exists (in_force (stored w)), w0, (in_force (stored w1)), w1, w2, w3, w4.
  set (current := in_force (stored w)) in *.
  assert (Hafter : In language (enabledLanguages (in_force (stored w1)))).
  { rewrite H1. destruct (includes (enabledLanguages current) language) eqn:Hin.
    - now apply includes_In.
    - cbn. apply in_or_app. right. now left. }
  assert (Hagain : in_force (stored w3) = in_force (stored w1)).
  { rewrite H3. apply includes_In in Hafter. now rewrite Hafter. }
  rewrite Hagain in E4.
  assert (Hlist : enabledLanguages (in_force (stored w1))
                  = if includes (enabledLanguages current) language
                    then enabledLanguages current
                    else enabledLanguages current ++ [language]).
  { rewrite H1. now destruct (includes (enabledLanguages current) language). }
  assert (Hrest : autoRedirect (in_force (stored w1)) = autoRedirect current
                  /\ useNotifications (in_force (stored w1)) = useNotifications current
                  /\ redirectDelay (in_force (stored w1)) = redirectDelay current
                  /\ enabled (in_force (stored w1)) = enabled current).
  { rewrite H1. now destruct (includes (enabledLanguages current) language). }
  destruct Hrest as (Ha & Hu & Hd & He).
  repeat apply conj; try assumption.
  rewrite Hlist. intros Hnodup.
  destruct (includes (enabledLanguages current) language) eqn:Hin; [exact Hnodup|].
  apply includes_false in Hin.
  apply NoDup_rev in Hnodup.
  rewrite <- (rev_involutive (enabledLanguages current ++ [language])).
  apply NoDup_rev. rewrite rev_app_distr. cbn. constructor; [|exact Hnodup].
  now rewrite <- in_rev.
Qed.

Lemma removeLanguage_reliable (language : jsstring) (w : World) :
  exists w1,
    removeLanguage language w = (Fulfilled tt, w1)
    /\ in_force (stored w1)
       = spread (in_force (stored w))
           (Some (Storage.only_enabledLanguages
                    (filter (fun l => negb (jsstring_eqb l language))
                            (enabledLanguages (in_force (stored w)))))).
Proof.
  destruct (getSettings_reliable w) as (w0 & E0 & H0).
  unfold Storage.removeLanguage, bind. rewrite E0.
  destruct (saveSettings_reliable
              (Storage.only_enabledLanguages
                 (filter (fun l => negb (jsstring_eqb l language))
                         (enabledLanguages (in_force (stored w))))) w0)
    as (w1 & E1 & H1).
  exists w1. split; [exact E1|].
  rewrite H1, H0. unfold in_force at 1. now rewrite spread_as_Partial.
Qed.

(** X10.  On a storage area that works, [removeLanguage] fulfils and
    leaves the list without any occurrence of the language and with the
    other languages in their order; it changes no other setting, and it
    leaves the settings as they were when the language was not in the
    list. *)
Theorem removeLanguage_removes_every_occurrence (language : jsstring) (w : World) :
  exists current w0 after w1 w2,
    getSettings w = (Fulfilled current, w0)
    /\ removeLanguage language w = (Fulfilled tt, w1)
    /\ getSettings w1 = (Fulfilled after, w2)
    /\ enabledLanguages after
       = filter (fun l => negb (jsstring_eqb l language)) (enabledLanguages current)
    /\ ~ In language (enabledLanguages after)
    /\ (forall l, l <> language ->
          (In l (enabledLanguages after) <-> In l (enabledLanguages current)))
    /\ autoRedirect after = autoRedirect current
    /\ useNotifications after = useNotifications current
    /\ redirectDelay after = redirectDelay current
    /\ enabled after = enabled current
    /\ (~ In language (enabledLanguages current) -> after = current).
Proof.
  destruct (getSettings_reliable w) as (w0 & E0 & _).
  destruct (removeLanguage_reliable language w) as (w1 & E1 & H1).
  destruct (getSettings_reliable w1) as (w2 & E2 & _).
  exists (in_force (stored w)), w0, (in_force (stored w1)), w1, w2.
  set (current := in_force (stored w)) in *.
  assert (Hlist : enabledLanguages (in_force (stored w1))
                  = filter (fun l => negb (jsstring_eqb l language))
                           (enabledLanguages current))
    by now rewrite H1.
  repeat apply conj; try assumption; try (rewrite H1; reflexivity).
  - rewrite Hlist, filter_In. intros [_ H]. now rewrite jsstring_eqb_refl in H.
  - intros l Hl. rewrite Hlist, filter_In. split; [now intros [H _]|].
    intros H. split; [exact H|]. now apply negb_true_iff, jsstring_eqb_neq.
  - intros Hnot. rewrite H1. destruct current as [a u d languages e]. cbn in *. f_equal.
    apply forallb_filter_id. apply forallb_forall. intros l Hl.
    apply negb_true_iff, jsstring_eqb_neq. intros ->. contradiction.
Qed.

(** X11.  The empty list stands for every language, so on a storage area
    that works: after [enableAllLanguages] every language is enabled;
    after [removeLanguage] of the only language of the list every
    language is enabled, the removed one too; and [addLanguage] on the
    empty list leaves exactly that one language enabled. *)
Theorem empty_list_enables_every_language (language : jsstring) (w : World) :
  exists current w0,
    getSettings w = (Fulfilled current, w0)
    /\ (exists after w1 w2,
          enableAllLanguages w = (Fulfilled tt, w1)
          /\ getSettings w1 = (Fulfilled after, w2)
          /\ enabledLanguages after = []
          /\ forall l, UrlTransformer.isLanguageEnabled l (enabledLanguages after)
                       = Normal true)
    /\ (exists after w1 w2,
          removeLanguage language w = (Fulfilled tt, w1)
          /\ getSettings w1 = (Fulfilled after, w2)
          /\ ((forall l, In l (enabledLanguages current) -> l = language) ->
              forall l, UrlTransformer.isLanguageEnabled l (enabledLanguages after)
                        = Normal true))
    /\ (exists after w1 w2,
          addLanguage language w = (Fulfilled tt, w1)
          /\ getSettings w1 = (Fulfilled after, w2)
          /\ (enabledLanguages current = [] ->
              (forall l, UrlTransformer.isLanguageEnabled l (enabledLanguages current)
                         = Normal true)
              /\ forall l, UrlTransformer.isLanguageEnabled l (enabledLanguages after)
                           = Normal (jsstring_eqb language l))).
Proof.
  destruct (getSettings_reliable w) as (w0 & E0 & _).
  exists (in_force (stored w)), w0. split; [exact E0|].
  set (current := in_force (stored w)) in *.
  split; [|split].
  - destruct (saveSettings_getSettings (Storage.only_enabledLanguages []) w)
      as (w1 & w2 & E1 & E2 & _).
    exists (spread (in_force (stored w)) (Some (Storage.only_enabledLanguages []))), w1, w2.
    repeat apply conj; assumption || reflexivity.
  - destruct (removeLanguage_reliable language w) as (w1 & E1 & H1).
    destruct (getSettings_reliable w1) as (w2 & E2 & _).
    exists (in_force (stored w1)), w1, w2. repeat apply conj; try assumption.
    intros Honly l. rewrite H1. cbn. fold current.
    replace (filter (fun l0 => negb (jsstring_eqb l0 language)) (enabledLanguages current))
      with (@nil jsstring); [reflexivity|].
    symmetry. induction (enabledLanguages current) as [|x rest IH]; [reflexivity|].
    cbn. rewrite (Honly x (or_introl eq_refl)), jsstring_eqb_refl. cbn.
    apply IH. intros y Hy. apply Honly. now right.
  - destruct (addLanguage_reliable language w) as (w1 & E1 & H1).
    destruct (getSettings_reliable w1) as (w2 & E2 & _).
    exists (in_force (stored w1)), w1, w2. repeat apply conj; try assumption.
    intros H. split; [now rewrite H|].
    intros l. rewrite H1. fold current. rewrite H. cbn.
    unfold UrlTransformer.isLanguageEnabled, includes. cbn.
    rewrite orb_false_r. f_equal.
    destruct (jsstring_eqb l language) eqn:El.
    + apply jsstring_eqb_eq in El. subst. now rewrite jsstring_eqb_refl.
    + apply jsstring_eqb_neq in El. symmetry. apply jsstring_eqb_neq. congruence.
Qed.

End Reliable.

(** X12.  The listener of [onSettingsChange] calls the callback only for
    a change of the settings key in the [sync] area, with the new and the
    old value each merged with the default settings.  For the change that
    a [saveSettings] makes, the callback receives exactly what
    [getSettings] returns after the save and what it returned before. *)
Theorem listener_reports_settings_as_getSettings_returns
    (callback : UserSettings -> UserSettings -> World -> World)
    (changes : Object.object Storage.StorageChange) (areaName : jsstring) :
  (areaName <> js "sync" -> forall w, Storage.listener World callback changes areaName w = w)
  /\ (Object.get changes STORAGE_KEY = None ->
      forall w, Storage.listener World callback changes areaName w = w)
  /\ (forall change,
        areaName = js "sync" -> Object.get changes STORAGE_KEY = Some change ->
        Storage.listener World callback changes areaName
        = callback (in_force (Storage.newValue change)) (in_force (Storage.oldValue change)))
  /\ (forall previous settings,
        areaName = js "sync" ->
        Object.get changes STORAGE_KEY
        = Some {| Storage.oldValue := previous;
                  Storage.newValue :=
                    Some (as_Partial (spread (in_force previous) (Some settings))) |} ->
        Storage.listener World callback changes areaName
        = callback (spread (in_force previous) (Some settings)) (in_force previous)).
Proof.
  unfold Storage.listener. repeat apply conj.
  - intros Harea w. apply jsstring_eqb_neq in Harea. now rewrite Harea.
  - intros Hkey w. rewrite Hkey. now destruct (negb _).
  - intros change -> ->. reflexivity.
  - intros previous settings -> ->. cbn -[spread in_force as_Partial].
    unfold in_force at 1. now rewrite spread_as_Partial.
Qed.

End StorageFacts.

(* ===================================================================== *)
(** * The redirect rules of the service worker                            *)
(* ===================================================================== *)


Lemma exclusion_rules_ids (namespaces : list jsstring) (index : N) :
  map ServiceWorker.id (ServiceWorker.exclusion_rules namespaces index)
  = ServiceWorker.exclusion_rule_ids (length namespaces) index.
Proof.
  revert index. induction namespaces as [|namespace rest IH]; intros index;
    [reflexivity|].
  cbn [ServiceWorker.exclusion_rules ServiceWorker.exclusion_rule_ids length map].
  now rewrite IH.
Qed.

Lemma exclusion_rule_ids_In (remaining : nat) (i x : N) :
  In x (ServiceWorker.exclusion_rule_ids remaining i)
  <-> ServiceWorker.EXCLUSION_RULE_START_ID + i <= x
      < ServiceWorker.EXCLUSION_RULE_START_ID + i + N.of_nat remaining.
Proof.
  revert i. induction remaining as [|n IH]; intros i.
  - cbn. lia.
  - cbn [ServiceWorker.exclusion_rule_ids In]. rewrite IH. lia.
Qed.

Lemma exclusion_rule_ids_NoDup (remaining : nat) (i : N) :
  NoDup (ServiceWorker.exclusion_rule_ids remaining i).
Proof.
  revert i. induction remaining as [|n IH]; intros i; [constructor|].
  cbn [ServiceWorker.exclusion_rule_ids]. constructor; [|apply IH].
  rewrite exclusion_rule_ids_In. lia.
Qed.

Lemma createRedirectRules_ids :
  map ServiceWorker.id ServiceWorker.createRedirectRules = ServiceWorker.getAllRuleIds.
Proof.
  unfold ServiceWorker.createRedirectRules, ServiceWorker.getAllRuleIds.
  cbn [map]. now rewrite exclusion_rules_ids.
Qed.

Lemma getAllRuleIds_In (i : N) : In i ServiceWorker.getAllRuleIds <-> 1 <= i <= 20.
Proof.
  unfold ServiceWorker.getAllRuleIds. cbn [In]. rewrite exclusion_rule_ids_In.
  unfold ServiceWorker.REDIRECT_RULE_ID, ServiceWorker.EXCLUSION_RULE_START_ID.
  cbn [length ServiceWorker.EXCLUDED_NAMESPACES]. lia.
Qed.

Lemma getAllRuleIds_NoDup : NoDup ServiceWorker.getAllRuleIds.
Proof.
  unfold ServiceWorker.getAllRuleIds. constructor; [|apply exclusion_rule_ids_NoDup].
  rewrite exclusion_rule_ids_In.
  unfold ServiceWorker.REDIRECT_RULE_ID, ServiceWorker.EXCLUSION_RULE_START_ID. lia.
Qed.

(** X13.  The ids that [getAllRuleIds] returns are the ids of the rules
    that [createRedirectRules] creates, in the same order, whatever the
    number of excluded namespaces; they are pairwise distinct and, for
    the nineteen namespaces of the service worker, the numbers from 1 to
    20.  So an update that removes the ids of [getAllRuleIds] removes
    every rule that the extension has added, and no two of its rules
    share an id. *)
Theorem getAllRuleIds_are_the_ids_of_the_rules :
  (forall namespaces index,
     map ServiceWorker.id (ServiceWorker.exclusion_rules namespaces index)
     = ServiceWorker.exclusion_rule_ids (length namespaces) index)
  /\ map ServiceWorker.id ServiceWorker.createRedirectRules = ServiceWorker.getAllRuleIds
  /\ NoDup ServiceWorker.getAllRuleIds
  /\ (forall i, In i ServiceWorker.getAllRuleIds <-> 1 <= i <= 20).
Proof.
  split; [exact exclusion_rules_ids|].
  split; [exact createRedirectRules_ids|].
  split; [exact getAllRuleIds_NoDup | exact getAllRuleIds_In].
Qed.

(** ** Updating the rules *)

Lemma kept_rules_In (ids : list N) (rules : list ServiceWorker.Rule)
    (rule : ServiceWorker.Rule) :
  In rule (kept_rules ids rules) <-> In rule rules /\ ~ In (ServiceWorker.id rule) ids.
Proof.
  unfold kept_rules. rewrite filter_In, negb_true_iff.
  split; intros [H1 H2]; (split; [exact H1|]).
  - intros Hin. assert (E : existsb (N.eqb (ServiceWorker.id rule)) ids = true).
    { apply existsb_exists. exists (ServiceWorker.id rule). split; [exact Hin|].
      apply N.eqb_refl. }
    congruence.
  - destruct (existsb _ ids) eqn:E; [|reflexivity].
    apply existsb_exists in E. destruct E as (x & Hx & E).
    apply N.eqb_eq in E. subst. contradiction.
Qed.

Lemma kept_rules_NoDup (ids : list N) (rules : list ServiceWorker.Rule) :
  NoDup (map ServiceWorker.id rules) -> NoDup (map ServiceWorker.id (kept_rules ids rules)).
Proof.
  induction rules as [|rule rest IH]; [intros _; constructor|].
  cbn [map]. intros H. inversion H as [|? ? Hnot Hrest]; subst.
  unfold kept_rules. cbn [filter]. fold (kept_rules ids rest).
  destruct (negb _); [|now apply IH].
  cbn [map]. constructor; [|now apply IH].
  intros Hin. apply Hnot. apply in_map_iff in Hin. destruct Hin as (r & E & Hr).
  apply kept_rules_In in Hr. apply in_map_iff. exists r. now split.
Qed.

Lemma kept_rules_app (ids : list N) (a b : list ServiceWorker.Rule) :
  kept_rules ids (a ++ b) = kept_rules ids a ++ kept_rules ids b.
Proof. apply filter_app. Qed.

Lemma kept_rules_idem (ids : list N) (rules : list ServiceWorker.Rule) :
  kept_rules ids (kept_rules ids rules) = kept_rules ids rules.
Proof.
  unfold kept_rules. induction rules as [|rule rest IH]; [reflexivity|].
  cbn [filter]. destruct (negb _) eqn:E; [|exact IH].
  cbn [filter]. now rewrite E, IH.
Qed.

Lemma kept_rules_none (ids : list N) (rules : list ServiceWorker.Rule) :
  (forall rule, In rule rules -> In (ServiceWorker.id rule) ids) ->
  kept_rules ids rules = [].
Proof.
  intros H. induction rules as [|rule rest IH]; [reflexivity|].
  unfold kept_rules. cbn [filter]. fold (kept_rules ids rest).
  assert (E : existsb (N.eqb (ServiceWorker.id rule)) ids = true).
  { apply existsb_exists. exists (ServiceWorker.id rule).
    split; [apply H; now left | apply N.eqb_refl]. }
  rewrite E. cbn. apply IH. intros r Hr. apply H. now right.
Qed.

Lemma created_rules_are_managed (rule : ServiceWorker.Rule) :
  In rule ServiceWorker.createRedirectRules ->
  In (ServiceWorker.id rule) ServiceWorker.getAllRuleIds.
Proof.
  intros H.
  rewrite <- createRedirectRules_ids.
  now apply in_map.
Qed.

Lemma NoDup_app_disjoint {A} (a b : list A) :
  NoDup a -> NoDup b -> (forall x, In x a -> ~ In x b) -> NoDup (a ++ b).
Proof.
  intros Ha Hb Hdisjoint. induction a as [|x rest IH]; [exact Hb|].
  inversion Ha as [|? ? Hnot Hrest]; subst. cbn. constructor.
  - rewrite in_app_iff. intros [H | H]; [contradiction|].
    apply (Hdisjoint x); [now left | exact H].
  - apply IH; [exact Hrest|]. intros y Hy. apply Hdisjoint. now right.
Qed.

Section RulesFacts.

Variable World : Type.
Variable chrome_declarativeNetRequest_updateDynamicRules :
  ServiceWorker.UpdateRuleOptions -> async World unit.
Variable console_log : jsstring -> World -> World.
Variable console_error : jsstring -> exception -> World -> World.

Local Abbreviation updateRedirectRules :=
  (ServiceWorker.updateRedirectRules World chrome_declarativeNetRequest_updateDynamicRules
     console_log console_error).

(** The rules of the extension for some settings. *)
Local Abbreviation rules_for settings :=
  (if enabled settings && autoRedirect settings
   then ServiceWorker.createRedirectRules else []).

Lemma updateRedirectRules_fulfils (settings : UserSettings) (w : World) :
  exists w', updateRedirectRules settings w = (Fulfilled tt, w').
Proof.
  unfold ServiceWorker.updateRedirectRules, try_catch, bind, effect.
  destruct (enabled settings && autoRedirect settings);
    match goal with
    | |- context [chrome_declarativeNetRequest_updateDynamicRules ?o w] =>
        destruct (chrome_declarativeNetRequest_updateDynamicRules o w) as [[[] | reason] w']
    end; eauto.
Qed.

Variable dynamicRules : World -> list ServiceWorker.Rule.
Hypothesis rules_work :
  rules_are_updated chrome_declarativeNetRequest_updateDynamicRules console_log
    dynamicRules.

Lemma updateRedirectRules_reliable (settings : UserSettings) (w : World) :
  NoDup (map ServiceWorker.id (dynamicRules w)) ->
  exists w',
    updateRedirectRules settings w = (Fulfilled tt, w')
    /\ dynamicRules w'
       = kept_rules ServiceWorker.getAllRuleIds (dynamicRules w) ++ rules_for settings.
Proof.
  intros Hdistinct.
  assert (Hkept := kept_rules_NoDup ServiceWorker.getAllRuleIds _ Hdistinct).
  unfold ServiceWorker.updateRedirectRules, try_catch, bind, effect.
  destruct (enabled settings && autoRedirect settings).
  - destruct (update_applies _ _ _ rules_work
                {| ServiceWorker.removeRuleIds := Some ServiceWorker.getAllRuleIds;
                   ServiceWorker.addRules := Some ServiceWorker.createRedirectRules |} w)
      as (w' & E & H).
    + cbn [own ServiceWorker.removeRuleIds ServiceWorker.addRules].
      rewrite map_app. apply NoDup_app_disjoint.
      * exact Hkept.
      * rewrite createRedirectRules_ids. exact getAllRuleIds_NoDup.
      * intros x Hx. rewrite createRedirectRules_ids.
        apply in_map_iff in Hx. destruct Hx as (rule & <- & Hrule).
        now apply kept_rules_In in Hrule.
    + rewrite E. eexists. split; [reflexivity|].
      rewrite (log_keeps_rules _ _ _ rules_work). exact H.
  - destruct (update_applies _ _ _ rules_work
                {| ServiceWorker.removeRuleIds := Some ServiceWorker.getAllRuleIds;
                   ServiceWorker.addRules := None |} w)
      as (w' & E & H).
    + cbn [own ServiceWorker.removeRuleIds ServiceWorker.addRules].
      now rewrite app_nil_r.
    + rewrite E. eexists. split; [reflexivity|].
      rewrite (log_keeps_rules _ _ _ rules_work). exact H.
Qed.

(** X15.  [updateRedirectRules] never rejects.  With dynamic rules that
    are updated as documented, it leaves the rules of other ids as they
    were and, under the ids it manages, exactly the rules of
    [createRedirectRules] when the settings have both [enabled] and
    [autoRedirect], and no rule otherwise; the ids stay pairwise
    distinct, so that the next update succeeds as well, and an update
    for the same settings changes nothing more. *)
Theorem updateRedirectRules_installs_exactly_its_rules
    (settings : UserSettings) (w : World) :
  NoDup (map ServiceWorker.id (dynamicRules w)) ->
  exists w' w'',
    updateRedirectRules settings w = (Fulfilled tt, w')
    /\ dynamicRules w'
       = kept_rules ServiceWorker.getAllRuleIds (dynamicRules w)
         ++ (if enabled settings && autoRedirect settings
             then ServiceWorker.createRedirectRules else [])
    /\ (forall rule,
          ~ In (ServiceWorker.id rule) ServiceWorker.getAllRuleIds ->
          (In rule (dynamicRules w') <-> In rule (dynamicRules w)))
    /\ (forall rule,
          In (ServiceWorker.id rule) ServiceWorker.getAllRuleIds ->
          (In rule (dynamicRules w')
           <-> enabled settings && autoRedirect settings = true
               /\ In rule ServiceWorker.createRedirectRules))
    /\ NoDup (map ServiceWorker.id (dynamicRules w'))
    /\ updateRedirectRules settings w' = (Fulfilled tt, w'')
    /\ dynamicRules w'' = dynamicRules w'.
Proof.
  intros Hdistinct.
  destruct (updateRedirectRules_reliable settings w Hdistinct) as (w' & E & H).
  assert (Hcreated : forall rule, In rule (rules_for settings) ->
                                  In (ServiceWorker.id rule) ServiceWorker.getAllRuleIds).
  { intros rule Hrule. destruct (enabled settings && autoRedirect settings);
      [now apply created_rules_are_managed | destruct Hrule]. }
  assert (Hdistinct' : NoDup (map ServiceWorker.id (dynamicRules w'))).
  { rewrite H, map_app. apply NoDup_app_disjoint.
    - now apply kept_rules_NoDup.
    - destruct (enabled settings && autoRedirect settings); [|constructor].
      rewrite createRedirectRules_ids. exact getAllRuleIds_NoDup.
    - intros x Hx Hx'. apply in_map_iff in Hx. destruct Hx as (rule & <- & Hrule).
      apply kept_rules_In in Hrule. apply (proj2 Hrule).
      apply in_map_iff in Hx'. destruct Hx' as (rule' & <- & Hrule').
      now apply Hcreated. }
  destruct (updateRedirectRules_reliable settings w' Hdistinct') as (w'' & E' & H').
  exists w', w''. split; [exact E|]. split; [exact H|].
  split; [|split; [|split; [exact Hdistinct'|split; [exact E'|]]]].
  - intros rule Hforeign. rewrite H, in_app_iff, kept_rules_In. split.
    + intros [[Hin _] | Hin]; [exact Hin|]. apply Hcreated in Hin. contradiction.
    + intros Hin. left. now split.
  - intros rule Hmanaged. rewrite H, in_app_iff, kept_rules_In. split.
    + intros [[_ Hin] | Hin]; [contradiction|].
      destruct (enabled settings && autoRedirect settings); [now split | destruct Hin].
    + intros [Hon Hin]. right. now rewrite Hon.
  - rewrite H'. rewrite H at 1.
    rewrite kept_rules_app, kept_rules_idem, (kept_rules_none _ (rules_for settings)).
    + rewrite app_nil_r. now rewrite H.
    + exact Hcreated.
Qed.

(** X16.  The callback that the service worker registers for settings
    changes brings the rules in line with the new settings: for the
    change that a [saveSettings] makes, the rules under the managed ids
    are afterwards those of the settings that [getSettings] returns
    after the save. *)
Theorem rules_follow_the_saved_settings
    (previous : option Partial.t) (update : Partial.t)
    (changes : Object.object Storage.StorageChange) (w : World) :
  NoDup (map ServiceWorker.id (dynamicRules w)) ->
  Object.get changes STORAGE_KEY
  = Some {| Storage.oldValue := previous;
            Storage.newValue :=
              Some (as_Partial (spread (in_force previous) (Some update))) |} ->
  let saved := spread (in_force previous) (Some update) in
  let w' :=
    Storage.listener World
      (ServiceWorker.on_settings_change World
         chrome_declarativeNetRequest_updateDynamicRules console_log console_error)
      changes (js "sync") w in
  dynamicRules w'
  = kept_rules ServiceWorker.getAllRuleIds (dynamicRules w)
    ++ (if enabled saved && autoRedirect saved
        then ServiceWorker.createRedirectRules else []).
Proof.
  intros Hdistinct Hchange saved w'. subst w'.
  unfold Storage.listener. rewrite Hchange. cbn [negb jsstring_eqb].
  change (jsstring_eqb (js "sync") (js "sync")) with true. cbn [negb].
  cbn [Storage.newValue Storage.oldValue].
  unfold in_force at 1. rewrite spread_as_Partial. fold saved.
  unfold ServiceWorker.on_settings_change.
  destruct (updateRedirectRules_reliable saved w Hdistinct) as (w' & E & H).
  change (spread (spread DEFAULT_SETTINGS previous) (Some update)) with saved.
  rewrite E. exact H.
Qed.

End RulesFacts.

(** ** The namespaces of the exclusion rules *)

Lemma exclusion_rules_filters (namespaces : list jsstring) (index : N)
    (rule : ServiceWorker.Rule) :
  In rule (ServiceWorker.exclusion_rules namespaces index) ->
  ServiceWorker.action_type (ServiceWorker.action rule) = ServiceWorker.ALLOW
  /\ ServiceWorker.priority rule = 2
  /\ exists namespace,
       In namespace namespaces
       /\ ServiceWorker.urlFilter (ServiceWorker.condition rule)
          = Some (js "*://*.wikipedia.org/wiki/" ++ namespace ++ js "*").
Proof.
  revert index. induction namespaces as [|n ns IH]; intros index; [intros []|].
  cbn [ServiceWorker.exclusion_rules In]. intros [<- | H].
  - cbn. repeat apply conj; try reflexivity. exists n. split; [now left | reflexivity].
  - destruct (IH _ H) as (H1 & H2 & namespace & H3 & H4).
    repeat apply conj; try assumption. exists namespace. split; [now right | exact H4].
Qed.

Lemma exclusion_rules_named (namespaces : list jsstring) (index : N)
    (namespace : jsstring) :
  In namespace namespaces ->
  exists rule,
    In rule (ServiceWorker.exclusion_rules namespaces index)
    /\ ServiceWorker.urlFilter (ServiceWorker.condition rule)
       = Some (js "*://*.wikipedia.org/wiki/" ++ namespace ++ js "*").
Proof.
  revert index. induction namespaces as [|n ns IH]; intros index; [intros []|].
  cbn [ServiceWorker.exclusion_rules In]. intros [<- | H].
  - eexists. split; [left; reflexivity | reflexivity].
  - destruct (IH (index + 1) H) as (rule & H1 & H2). exists rule. split; [now right | exact H2].
Qed.

Lemma worker_namespaces_are_excluded (namespace : jsstring) :
  In namespace ServiceWorker.EXCLUDED_NAMESPACES -> In namespace EXCLUDED_NAMESPACES.
Proof.
  unfold ServiceWorker.EXCLUDED_NAMESPACES. cbn [In]. intros H.
  repeat (destruct H as [<- | H]; [cbn; tauto|]). contradiction.
Qed.

Section NamespaceFacts.

Variable new_URL : jsstring -> completion URL.

(** X14 (createRedirectRules, EXCLUDED_NAMESPACES of both files,
    isArticlePage): every rule of the service worker other than the
    redirect rule is an allow rule of priority 2, above the priority 1
    of the redirect rule, whose filter names one namespace of the
    service worker, and [isArticlePage] is [false] as well on every URL
    whose parsed pathname is [/wiki/], that namespace and anything, on
    every host and for every URL constructor.  The converse fails:
    [isArticlePage] excludes seven namespaces in this way that no rule
    names. *)
Theorem exclusion_rules_name_excluded_namespaces :
  let names rule namespace :=
    ServiceWorker.urlFilter (ServiceWorker.condition rule)
    = Some (js "*://*.wikipedia.org/wiki/" ++ namespace ++ js "*") in
  let excluded namespace :=
    forall url u rest,
      new_URL url = Normal u ->
      pathname u = js "/wiki/" ++ namespace ++ rest ->
      isArticlePage new_URL url = Normal false in
  (forall rule,
     In rule ServiceWorker.createRedirectRules ->
     (rule = ServiceWorker.redirect_rule /\ ServiceWorker.priority rule = 1)
     \/ (ServiceWorker.action_type (ServiceWorker.action rule) = ServiceWorker.ALLOW
         /\ ServiceWorker.priority rule = 2
         /\ exists namespace,
              names rule namespace
              /\ In namespace ServiceWorker.EXCLUDED_NAMESPACES
              /\ excluded namespace))
  /\ (forall namespace,
        In namespace ServiceWorker.EXCLUDED_NAMESPACES ->
        exists rule, In rule ServiceWorker.createRedirectRules /\ names rule namespace)
  /\ (forall namespace,
        In namespace [js "MediaWiki:"; js "MediaWiki_talk:"; js "TimedText:";
                      js "Gadget:"; js "Gadget_talk:"; js "Gadget_definition:";
                      js "Gadget_definition_talk:"] ->
        excluded namespace
        /\ forall rule, In rule ServiceWorker.createRedirectRules ->
                        ~ names rule namespace).
Proof.
  intros names excluded.
  assert (Hexcluded : forall p, In p EXCLUDED_NAMESPACES -> excluded p).
  { intros p Hp url u rest Hu Hpath.
    exact (excluded_pathname_is_not_article new_URL url u p rest Hu Hpath Hp). }
  split; [|split].
  - intros rule [<- | H]; [left; split; reflexivity | right].
    destruct (exclusion_rules_filters _ _ _ H) as (H1 & H2 & namespace & H3 & H4).
    repeat apply conj; try assumption. exists namespace.
    split; [exact H4|]. split; [exact H3|].
    apply Hexcluded. now apply worker_namespaces_are_excluded.
  - intros namespace H.
    destruct (exclusion_rules_named _ 0 _ H) as (rule & H1 & H2).
    exists rule. split; [now right | exact H2].
  - intros namespace H. split.
    + apply Hexcluded.
      cbn [In] in H. repeat (destruct H as [<- | H]; [cbn; tauto|]). contradiction.
    + intros rule [<- | Hrule]; unfold names; [discriminate|].
      destruct (exclusion_rules_filters _ _ _ Hrule) as (_ & _ & other & H3 & H4).
      rewrite H4. intros [= E]. apply app_inv_tail in E. subst other.
      cbn [In] in H.
      repeat (destruct H as [<- | H];
              [unfold ServiceWorker.EXCLUDED_NAMESPACES in H3; cbn [In] in H3;
               repeat (destruct H3 as [H3 | H3]; [discriminate H3|]); contradiction|]).
      contradiction.
Qed.

End NamespaceFacts.


(** ** The start of the service worker *)

Section StartFacts.

Variable World : Type.
Variable chrome_storage_sync_get : jsstring -> async World (Object.object Partial.t).
Variable chrome_declarativeNetRequest_updateDynamicRules :
  ServiceWorker.UpdateRuleOptions -> async World unit.
Variable console_log : jsstring -> World -> World.
Variable console_error : jsstring -> exception -> World -> World.
Variable dynamicRules : World -> list ServiceWorker.Rule.

(** X17 (initialize of the service worker, getSettings,
    updateRedirectRules): with dynamic rules that are updated as
    documented and that neither the storage nor the console touches,
    the service worker starts by bringing the rules in line with the
    settings that [getSettings] returns.  So when the settings cannot be
    read, it starts without any of its rules: the defaults have
    auto-redirect off. *)
Theorem service_worker_starts_with_the_rules_of_the_settings (w : World) :
  rules_are_updated chrome_declarativeNetRequest_updateDynamicRules console_log
    dynamicRules ->
  (forall key w, dynamicRules (snd (chrome_storage_sync_get key w)) = dynamicRules w) ->
  (forall message error w, dynamicRules (console_error message error w) = dynamicRules w) ->
  NoDup (map ServiceWorker.id (dynamicRules w)) ->
  let logged := console_log (js "WikiToGrok: Service worker initializing") w in
  exists settings w1 w',
    Storage.getSettings World chrome_storage_sync_get console_error logged
    = (Fulfilled settings, w1)
    /\ ServiceWorker.initialize World chrome_storage_sync_get
         chrome_declarativeNetRequest_updateDynamicRules console_log console_error w
       = (Fulfilled tt, w')
    /\ dynamicRules w'
       = kept_rules ServiceWorker.getAllRuleIds (dynamicRules w)
         ++ (if enabled settings && autoRedirect settings
             then ServiceWorker.createRedirectRules else [])
    /\ (forall reason w0,
          chrome_storage_sync_get STORAGE_KEY logged = (Rejected reason, w0) ->
          forall rule, In rule (dynamicRules w') ->
                       ~ In (ServiceWorker.id rule) ServiceWorker.getAllRuleIds).
Proof.
  intros rules_work Hget Herror Hdistinct logged.
  assert (Rlogged : dynamicRules logged = dynamicRules w)
    by apply (log_keeps_rules _ _ _ rules_work).
  assert (Hsettings : exists settings w1,
            Storage.getSettings World chrome_storage_sync_get console_error logged
            = (Fulfilled settings, w1)
            /\ dynamicRules w1 = dynamicRules w
            /\ (forall reason w0,
                  chrome_storage_sync_get STORAGE_KEY logged = (Rejected reason, w0) ->
                  settings = DEFAULT_SETTINGS)).
  { unfold Storage.getSettings, try_catch, bind, effect, ret.
    specialize (Hget STORAGE_KEY logged).
    destruct (chrome_storage_sync_get STORAGE_KEY logged) as [[items | reason] w0];
      cbn [snd] in Hget.
    - eexists; eexists; split; [reflexivity|].
      split; [now rewrite Hget|]. intros ? ? [=].
    - eexists; eexists; split; [reflexivity|].
      split; [now rewrite Herror, Hget|]. reflexivity. }
  destruct Hsettings as (settings & w1 & E1 & R1 & Hdefault).
  assert (Hdistinct1 : NoDup (map ServiceWorker.id (dynamicRules w1)))
    by now rewrite R1.
  destruct (updateRedirectRules_reliable World
              chrome_declarativeNetRequest_updateDynamicRules console_log console_error
              dynamicRules rules_work settings w1 Hdistinct1) as (w2 & E2 & R2).
  exists settings, w1, (console_log (js "WikiToGrok: Service worker initialized") w2).
  split; [exact E1|]. split; [|split].
  - unfold ServiceWorker.initialize, ServiceWorker.getSettings.
    unfold bind at 1. unfold effect at 1. cbv beta iota. fold logged.
    unfold bind at 1. rewrite E1. cbv beta iota.
    unfold bind at 1. rewrite E2. reflexivity.
  - rewrite (log_keeps_rules _ _ _ rules_work), R2, R1. reflexivity.
  - intros reason w0 Hrejected rule.
    rewrite (log_keeps_rules _ _ _ rules_work), R2, R1.
    rewrite (Hdefault _ _ Hrejected). cbn [enabled autoRedirect DEFAULT_SETTINGS andb].
    rewrite app_nil_r. intros Hrule. now apply kept_rules_In in Hrule.
Qed.

End StartFacts.

(* ===================================================================== *)
(** * The messages of the service worker                                  *)
(* ===================================================================== *)

Section MessageFacts.

Variable World : Type.
Variable chrome_storage_sync_get : jsstring -> async World (Object.object Partial.t).
Variable chrome_storage_sync_set : Object.object Partial.t -> async World unit.
Variable chrome_tabs_update : option Z -> option jsstring -> async World unit.
Variable console_error : jsstring -> exception -> World -> World.
Variable chrome_notifications_create :
  jsstring -> ServiceWorker.NotificationOptions -> async World unit.
Variable chrome_runtime_getURL : jsstring -> jsstring.
Variable chrome_storage_local_set : Object.object jsstring -> async World unit.
Variable Date_now : World -> N.

Local Abbreviation handleMessage :=
  (ServiceWorker.handleMessage World chrome_storage_sync_get chrome_storage_sync_set
     chrome_tabs_update console_error chrome_notifications_create chrome_runtime_getURL
     chrome_storage_local_set Date_now).
Local Abbreviation getSettings :=
  (Storage.getSettings World chrome_storage_sync_get console_error).
Local Abbreviation saveSettings :=
  (Storage.saveSettings World chrome_storage_sync_get chrome_storage_sync_set
     console_error).

Lemma handleMessage_GET_SETTINGS (message : Message) (w : World) :
  type message = js "GET_SETTINGS" ->
  exists settings w',
    getSettings w = (Fulfilled settings, w')
    /\ handleMessage message w
       = (Fulfilled {| success := true; response_settings := Some settings;
                       error := None |}, w').
Proof.
  intros Htype.
  destruct (getSettings_fulfils World chrome_storage_sync_get console_error w)
    as (settings & w' & E).
  exists settings, w'. split; [exact E|].
  unfold ServiceWorker.handleMessage, ServiceWorker.getSettings, bind, ret.
  rewrite Htype. change (jsstring_eqb (js "GET_SETTINGS") (js "GET_SETTINGS")) with true.
  cbv beta iota. now rewrite E.
Qed.

Lemma handleMessage_UPDATE_SETTINGS (message : Message) (w : World) :
  type message = js "UPDATE_SETTINGS" ->
  handleMessage message w
  = match saveSettings (ServiceWorker.settings_of message) w with
    | (Fulfilled _, w') =>
        (Fulfilled {| success := true; response_settings := None; error := None |}, w')
    | (Rejected reason, w') => (Rejected reason, w')
    end.
Proof.
  intros Htype.
  unfold ServiceWorker.handleMessage, ServiceWorker.saveSettings, bind, ret.
  rewrite Htype.
  change (jsstring_eqb (js "UPDATE_SETTINGS") (js "GET_SETTINGS")) with false.
  change (jsstring_eqb (js "UPDATE_SETTINGS") (js "UPDATE_SETTINGS")) with true.
  cbv beta iota.
  now destruct (saveSettings (ServiceWorker.settings_of message) w) as [[[]|] ?].
Qed.

(** X18.  [handleMessage] answers a message of an unknown type with the
    failure response ['Unknown message type'] and does nothing else.  It
    answers [GET_SETTINGS] with the settings that [getSettings] returns,
    and cannot fail there.  It answers [UPDATE_SETTINGS] with success
    when [saveSettings] fulfils and rejects with its reason otherwise.
    So a failure response is only ever the answer to an unknown type:
    the errors of the platform reject the promise instead. *)
Theorem handleMessage_fails_only_for_unknown_types (message : Message) (w : World) :
  let known :=
    [js "GET_SETTINGS"; js "UPDATE_SETTINGS"; js "SHOW_NOTIFICATION"; js "REDIRECT_TAB"] in
  (~ In (type message) known ->
   handleMessage message w
   = (Fulfilled {| success := false; response_settings := None;
                   error := Some (js "Unknown message type") |}, w))
  /\ (type message = js "GET_SETTINGS" ->
      exists settings w',
        getSettings w = (Fulfilled settings, w')
        /\ handleMessage message w
           = (Fulfilled {| success := true; response_settings := Some settings;
                           error := None |}, w'))
  /\ (type message = js "UPDATE_SETTINGS" ->
      (forall w',
         saveSettings (ServiceWorker.settings_of message) w = (Fulfilled tt, w') ->
         handleMessage message w
         = (Fulfilled {| success := true; response_settings := None; error := None |},
            w'))
      /\ (forall reason w',
            saveSettings (ServiceWorker.settings_of message) w = (Rejected reason, w') ->
            handleMessage message w = (Rejected reason, w')))
  /\ (forall response w',
        handleMessage message w = (Fulfilled response, w') ->
        success response = false ->
        ~ In (type message) known
        /\ error response = Some (js "Unknown message type")
        /\ w' = w).
Proof.
  intros known. split; [|split; [|split]].
  - intros Hunknown. unfold ServiceWorker.handleMessage.
    repeat match goal with
           | |- context [jsstring_eqb (type message) ?literal] =>
               let E := fresh "E" in
               destruct (jsstring_eqb (type message) literal) eqn:E;
               [apply jsstring_eqb_eq in E; exfalso; apply Hunknown; rewrite E;
                subst known; cbn [In]; tauto|]
           end.
    reflexivity.
  - apply handleMessage_GET_SETTINGS.
  - intros Htype. rewrite (handleMessage_UPDATE_SETTINGS message w Htype). split.
    + now intros w' ->.
    + now intros reason w' ->.
  - intros response w' Hrun Hfailure.
    destruct (jsstring_eqb (type message) (js "GET_SETTINGS")) eqn:E1.
    { apply jsstring_eqb_eq in E1.
      destruct (handleMessage_GET_SETTINGS message w E1) as (s & w1 & _ & E).
      rewrite E in Hrun. injection Hrun as <- <-. discriminate Hfailure. }
    destruct (jsstring_eqb (type message) (js "UPDATE_SETTINGS")) eqn:E2.
    { apply jsstring_eqb_eq in E2.
      rewrite (handleMessage_UPDATE_SETTINGS message w E2) in Hrun.
      destruct (saveSettings (ServiceWorker.settings_of message) w) as [[[]|] ?];
        [injection Hrun as <- <-; discriminate Hfailure | discriminate Hrun]. }
    unfold ServiceWorker.handleMessage in Hrun. rewrite E1, E2 in Hrun.
    destruct (jsstring_eqb (type message) (js "SHOW_NOTIFICATION")) eqn:E3.
    { unfold bind, ret in Hrun.
      destruct (ServiceWorker.showNotification _ _ _ _ _ _ _ _ w) as [[[]|] ?];
        [injection Hrun as <- <-; discriminate Hfailure | discriminate Hrun]. }
    destruct (jsstring_eqb (type message) (js "REDIRECT_TAB")) eqn:E4.
    { unfold bind, ret in Hrun.
      destruct (chrome_tabs_update (tabId message) (url message) w) as [[[]|] ?];
        [injection Hrun as <- <-; discriminate Hfailure | discriminate Hrun]. }
    injection Hrun as <- <-. repeat apply conj; try reflexivity.
    subst known. cbn [In]. apply jsstring_eqb_neq in E1, E2, E3, E4.
    intros [H|[H|[H|[H|[]]]]]; congruence.
Qed.

End MessageFacts.

(* ===================================================================== *)
(** * The notifications of the service worker                             *)
(* ===================================================================== *)

Section NotificationFacts.

Variable World : Type.
Variable chrome_notifications_create :
  jsstring -> ServiceWorker.NotificationOptions -> async World unit.
Variable chrome_notifications_clear : jsstring -> World -> World.
Variable chrome_runtime_getURL : jsstring -> jsstring.
Variable chrome_storage_local_get : jsstring -> async World (Object.object jsstring).
Variable chrome_storage_local_set : Object.object jsstring -> async World unit.
Variable chrome_storage_local_remove : jsstring -> async World unit.
Variable chrome_tabs_create : jsstring -> async World unit.
Variable Date_now : World -> N.
Variable kept : World -> jsstring -> option jsstring.
Variable tabs : World -> list jsstring.

Local Abbreviation showNotification :=
  (ServiceWorker.showNotification World chrome_notifications_create
     chrome_runtime_getURL chrome_storage_local_set Date_now).
Local Abbreviation open_stored_url :=
  (ServiceWorker.open_stored_url World chrome_storage_local_get chrome_tabs_create).
Local Abbreviation onClicked :=
  (ServiceWorker.onClicked World chrome_notifications_clear chrome_storage_local_get
     chrome_storage_local_remove chrome_tabs_create).
Local Abbreviation onButtonClicked :=
  (ServiceWorker.onButtonClicked World chrome_notifications_clear
     chrome_storage_local_get chrome_storage_local_remove chrome_tabs_create).

Hypothesis platform :
  notifications_work chrome_notifications_create chrome_notifications_clear
    chrome_storage_local_get chrome_storage_local_set chrome_storage_local_remove
    chrome_tabs_create kept tabs.

Lemma truthy_Some_nonempty (url : jsstring) : url <> [] -> truthy (Some url) = true.
Proof. destruct url; [congruence | reflexivity]. Qed.

Lemma open_stored_url_kept (id url : jsstring) (w : World) :
  kept w (js "notification-" ++ id) = Some url -> url <> [] ->
  exists w', open_stored_url id w = (Fulfilled tt, w')
             /\ kept w' = kept w /\ tabs w' = tabs w ++ [url].
Proof.
  intros Hkept Hurl. unfold ServiceWorker.open_stored_url, bind.
  destruct (local_get_reads _ _ _ _ _ _ _ _ platform (js "notification-" ++ id) w)
    as (items & -> & Hitems).
  cbv beta iota. rewrite Hitems, Hkept, (truthy_Some_nonempty url Hurl).
  destruct (tabs_create_opens _ _ _ _ _ _ _ _ platform url w) as (w' & E & H1 & H2).
  exists w'. auto.
Qed.

Lemma open_stored_url_none (id : jsstring) (w : World) :
  kept w (js "notification-" ++ id) = None ->
  open_stored_url id w = (Fulfilled tt, w).
Proof.
  intros Hkept. unfold ServiceWorker.open_stored_url, bind.
  destruct (local_get_reads _ _ _ _ _ _ _ _ platform (js "notification-" ++ id) w)
    as (items & -> & Hitems).
  cbv beta iota. now rewrite Hitems, Hkept.
Qed.

Lemma clean_up (id : jsstring) (w : World) :
  exists w',
    (chrome_storage_local_remove (js "notification-" ++ id) ;;;
     effect (chrome_notifications_clear id)) w = (Fulfilled tt, w')
    /\ kept w' (js "notification-" ++ id) = None /\ tabs w' = tabs w.
Proof.
  unfold bind, effect.
  destruct (local_remove_deletes _ _ _ _ _ _ _ _ platform (js "notification-" ++ id) w)
    as (w' & -> & H1 & _ & H2).
  destruct (clear_keeps _ _ _ _ _ _ _ _ platform id w') as [H3 H4].
  eexists. split; [reflexivity|]. rewrite H3, H4. auto.
Qed.

Lemma onClicked_kept (id url : jsstring) (w : World) :
  kept w (js "notification-" ++ id) = Some url -> url <> [] ->
  exists w', onClicked id w = (Fulfilled tt, w')
             /\ kept w' (js "notification-" ++ id) = None
             /\ tabs w' = tabs w ++ [url].
Proof.
  intros Hkept Hurl.
  destruct (open_stored_url_kept id url w Hkept Hurl) as (w1 & E1 & _ & T1).
  destruct (clean_up id w1) as (w2 & E2 & K2 & T2).
  exists w2. unfold ServiceWorker.onClicked, bind at 1. rewrite E1.
  split; [exact E2|]. split; [exact K2|]. now rewrite T2, T1.
Qed.

Lemma onClicked_none (id : jsstring) (w : World) :
  kept w (js "notification-" ++ id) = None ->
  exists w', onClicked id w = (Fulfilled tt, w')
             /\ kept w' (js "notification-" ++ id) = None /\ tabs w' = tabs w.
Proof.
  intros Hkept. destruct (clean_up id w) as (w2 & E2 & K2 & T2).
  exists w2. unfold ServiceWorker.onClicked, bind at 1.
  rewrite (open_stored_url_none id w Hkept). auto.
Qed.

Lemma onButtonClicked_open (id url : jsstring) (w : World) :
  kept w (js "notification-" ++ id) = Some url -> url <> [] ->
  exists w', onButtonClicked id 0%Z w = (Fulfilled tt, w')
             /\ kept w' (js "notification-" ++ id) = None
             /\ tabs w' = tabs w ++ [url].
Proof.
  intros Hkept Hurl.
  destruct (open_stored_url_kept id url w Hkept Hurl) as (w1 & E1 & _ & T1).
  destruct (clean_up id w1) as (w2 & E2 & K2 & T2).
  exists w2. unfold ServiceWorker.onButtonClicked, bind at 1.
  cbn [Z.eqb]. rewrite E1.
  split; [exact E2|]. split; [exact K2|]. now rewrite T2, T1.
Qed.

Lemma onButtonClicked_other (id : jsstring) (buttonIndex : Z) (w : World) :
  buttonIndex <> 0%Z \/ kept w (js "notification-" ++ id) = None ->
  exists w', onButtonClicked id buttonIndex w = (Fulfilled tt, w')
             /\ kept w' (js "notification-" ++ id) = None /\ tabs w' = tabs w.
Proof.
  intros H. destruct (clean_up id w) as (w2 & E2 & K2 & T2).
  exists w2. unfold ServiceWorker.onButtonClicked, bind at 1.
  destruct (Z.eqb_spec buttonIndex 0) as [E|E].
  - destruct H as [H|H]; [congruence|].
    rewrite (open_stored_url_none id w H). auto.
  - unfold ret. auto.
Qed.

Lemma showNotification_stores (title message : option jsstring) (url : jsstring)
    (w : World) :
  url <> [] ->
  exists w',
    showNotification title message (Some url) w = (Fulfilled tt, w')
    /\ kept w' (js "notification-" ++ js "wikitogrok-" ++ ServiceWorker.Number_toString (Date_now w))
       = Some url
    /\ tabs w' = tabs w.
Proof.
  intros Hurl. unfold ServiceWorker.showNotification, bind.
  match goal with
  | |- context [chrome_notifications_create ?i ?o w] =>
      destruct (create_shows _ _ _ _ _ _ _ _ platform i o w) as (w1 & -> & K1 & T1)
  end.
  cbv beta iota. rewrite (truthy_Some_nonempty url Hurl).
  match goal with
  | |- context [chrome_storage_local_set [(?k, ?v)] w1] =>
      destruct (local_set_writes _ _ _ _ _ _ _ _ platform k v w1)
        as (w2 & -> & K2 & _ & T2)
  end.
  exists w2. split; [reflexivity|]. split; [exact K2|]. now rewrite T2, T1.
Qed.

Lemma showNotification_without_url (title message grokipediaUrl : option jsstring)
    (w : World) :
  truthy grokipediaUrl = false ->
  exists w',
    showNotification title message grokipediaUrl w = (Fulfilled tt, w')
    /\ kept w' = kept w /\ tabs w' = tabs w.
Proof.
  intros Hurl. unfold ServiceWorker.showNotification, bind.
  match goal with
  | |- context [chrome_notifications_create ?i ?o w] =>
      destruct (create_shows _ _ _ _ _ _ _ _ platform i o w) as (w1 & -> & K1 & T1)
  end.
  cbv beta iota. exists w1.
  destruct grokipediaUrl as [url|]; [rewrite Hurl|]; unfold ret; auto.
Qed.

End NotificationFacts.

(** X19 (showNotification, onClicked, onButtonClicked): a notification
    that is shown with a non-empty address opens that address in a new
    tab when it is clicked, or when its first button is clicked, and then
    forgets it; a click on another button opens nothing and forgets the
    address too; and once the address is forgotten, no click on the
    notification or on any of its buttons opens a tab.  A notification
    shown without an address, or with the empty one, keeps nothing. *)
Theorem notification_opens_its_address_once
    (World : Type)
    (chrome_notifications_create :
       jsstring -> ServiceWorker.NotificationOptions -> async World unit)
    (chrome_notifications_clear : jsstring -> World -> World)
    (chrome_runtime_getURL : jsstring -> jsstring)
    (chrome_storage_local_get : jsstring -> async World (Object.object jsstring))
    (chrome_storage_local_set : Object.object jsstring -> async World unit)
    (chrome_storage_local_remove : jsstring -> async World unit)
    (chrome_tabs_create : jsstring -> async World unit)
    (Date_now : World -> N)
    (kept : World -> jsstring -> option jsstring)
    (tabs : World -> list jsstring)
    (title message : option jsstring) (url : jsstring) (w : World) :
  notifications_work chrome_notifications_create chrome_notifications_clear
    chrome_storage_local_get chrome_storage_local_set chrome_storage_local_remove
    chrome_tabs_create kept tabs ->
  url <> [] ->
  let showNotification :=
    ServiceWorker.showNotification World chrome_notifications_create
      chrome_runtime_getURL chrome_storage_local_set Date_now in
  let onClicked :=
    ServiceWorker.onClicked World chrome_notifications_clear chrome_storage_local_get
      chrome_storage_local_remove chrome_tabs_create in
  let onButtonClicked :=
    ServiceWorker.onButtonClicked World chrome_notifications_clear
      chrome_storage_local_get chrome_storage_local_remove chrome_tabs_create in
  let notificationId := js "wikitogrok-" ++ ServiceWorker.Number_toString (Date_now w) in
  let forgotten w' := kept w' (js "notification-" ++ notificationId) = None in
  (exists shown,
     showNotification title message (Some url) w = (Fulfilled tt, shown)
     /\ tabs shown = tabs w
     /\ (exists clicked,
           onClicked notificationId shown = (Fulfilled tt, clicked)
           /\ tabs clicked = tabs w ++ [url] /\ forgotten clicked)
     /\ (exists clicked,
           onButtonClicked notificationId 0%Z shown = (Fulfilled tt, clicked)
           /\ tabs clicked = tabs w ++ [url] /\ forgotten clicked)
     /\ (forall buttonIndex, buttonIndex <> 0%Z ->
         exists clicked,
           onButtonClicked notificationId buttonIndex shown = (Fulfilled tt, clicked)
           /\ tabs clicked = tabs w /\ forgotten clicked))
  /\ (forall w', forgotten w' ->
      (exists clicked,
         onClicked notificationId w' = (Fulfilled tt, clicked)
         /\ tabs clicked = tabs w' /\ forgotten clicked)
      /\ (forall buttonIndex,
          exists clicked,
            onButtonClicked notificationId buttonIndex w' = (Fulfilled tt, clicked)
            /\ tabs clicked = tabs w' /\ forgotten clicked))
  /\ (forall grokipediaUrl,
      truthy grokipediaUrl = false ->
      exists shown,
        showNotification title message grokipediaUrl w = (Fulfilled tt, shown)
        /\ kept shown = kept w /\ tabs shown = tabs w).
Proof.
  intros platform Hurl showNotification onClicked onButtonClicked notificationId forgotten.
  subst showNotification onClicked onButtonClicked forgotten. cbv beta.
  split; [|split].
  - destruct (showNotification_stores _ _ _ chrome_runtime_getURL _ _ _ _ Date_now
                kept tabs platform title message url w Hurl) as (shown & E & K & T).
    fold notificationId in K.
    exists shown. split; [exact E|]. split; [exact T|]. rewrite <- T.
    split; [|split].
    + destruct (onClicked_kept _ _ _ _ _ _ _ kept tabs platform notificationId url shown K Hurl)
        as (c & Ec & Kc & Tc). exists c. auto.
    + destruct (onButtonClicked_open _ _ _ _ _ _ _ kept tabs platform notificationId url shown
                  K Hurl) as (c & Ec & Kc & Tc). exists c. auto.
    + intros i Hi.
      destruct (onButtonClicked_other _ _ _ _ _ _ _ kept tabs platform notificationId i shown
                  (or_introl Hi)) as (c & Ec & Kc & Tc). exists c. auto.
  - intros w' Hw'. split.
    + destruct (onClicked_none _ _ _ _ _ _ _ kept tabs platform notificationId w' Hw')
        as (c & Ec & Kc & Tc). exists c. auto.
    + intros i.
      destruct (onButtonClicked_other _ _ _ _ _ _ _ kept tabs platform notificationId i w'
                  (or_intror Hw')) as (c & Ec & Kc & Tc). exists c. auto.
  - intros g Hg.
    exact (showNotification_without_url _ _ _ chrome_runtime_getURL _ _ _ _ Date_now
             kept tabs platform title message g w Hg).
Qed.

(* ===================================================================== *)
(** * The content script                                                  *)
(* ===================================================================== *)

Lemma decodeArticleName_total (articleName : jsstring) :
  exists decoded, UrlTransformer.decodeArticleName articleName = Normal decoded.
Proof.
  unfold UrlTransformer.decodeArticleName.
  destruct (decodeURIComponent articleName); eexists; reflexivity.
Qed.

Lemma isLanguageEnabled_total (language : jsstring) (enabledLanguages : list jsstring) :
  UrlTransformer.isLanguageEnabled language enabledLanguages
  = Normal ((length enabledLanguages =? 0)%nat || includes enabledLanguages language).
Proof.
  unfold UrlTransformer.isLanguageEnabled. now destruct (length enabledLanguages =? 0)%nat.
Qed.

Section ContentFacts.

Variable World : Type.
Variable new_URL : jsstring -> completion WHATWG.URL.
Variable chrome_runtime_sendMessage : Message -> async World (option MessageResponse).
Variable console_error : jsstring -> exception -> World -> World.
Variable window_location_href : World -> jsstring.
Variable set_window_location_href : jsstring -> World -> World.
Variable setTimeout : (World -> World) -> Z -> World -> World.
Variable showBanner : jsstring -> jsstring -> UserSettings -> World -> World.
Variable removeBanner : World -> World.

Local Abbreviation getSettings :=
  (ContentScript.getSettings World chrome_runtime_sendMessage console_error).
Local Abbreviation showNotification :=
  (ContentScript.showNotification World chrome_runtime_sendMessage console_error).
Local Abbreviation performRedirect :=
  (ContentScript.performRedirect World set_window_location_href setTimeout).
Local Abbreviation initialize :=
  (ContentScript.initialize World new_URL chrome_runtime_sendMessage console_error
     window_location_href set_window_location_href setTimeout showBanner).
Local Abbreviation onChanged :=
  (ContentScript.onChanged World new_URL window_location_href set_window_location_href
     setTimeout removeBanner).

Lemma client_getSettings_fulfils (w : World) :
  exists settings w', getSettings w = (Fulfilled settings, w').
Proof.
  unfold ContentScript.getSettings, try_catch, bind, effect, ret.
  destruct (chrome_runtime_sendMessage GET_SETTINGS w)
    as [[[[[] [stored|] ?]|] | reason] w0]; eexists; eexists; reflexivity.
Qed.

(** X20.  The [getSettings] of the content script never rejects.  It
    returns the settings of the response when the service worker answers
    with success and with settings; when the message is rejected it logs
    the error, and then and for every other response it returns the
    default settings. *)
Theorem client_getSettings_falls_back_to_defaults (w : World) :
  exists settings w',
    getSettings w = (Fulfilled settings, w')
    /\ (forall reason w1,
          chrome_runtime_sendMessage GET_SETTINGS w = (Rejected reason, w1) ->
          settings = DEFAULT_SETTINGS
          /\ w' = console_error (js "WikiToGrok: Failed to get settings") reason w1)
    /\ (forall response w1,
          chrome_runtime_sendMessage GET_SETTINGS w = (Fulfilled response, w1) ->
          w' = w1
          /\ settings
             = match response with
               | Some {| success := true; response_settings := Some stored |} => stored
               | _ => DEFAULT_SETTINGS
               end).
Proof.
  unfold ContentScript.getSettings, try_catch, bind, effect, ret.
  destruct (chrome_runtime_sendMessage GET_SETTINGS w)
    as [[[[[] [stored|] ?]|] | reason] w0];
    (eexists; eexists; split; [reflexivity|]; split;
     [intros ? ? [=]; subst; now split | intros ? ? [=]; subst; now split]).
Qed.

Lemma showNotification_fulfils (title message url : jsstring) (w : World) :
  exists w', showNotification title message url w = (Fulfilled tt, w').
Proof.
  unfold ContentScript.showNotification, try_catch, bind, effect, ret.
  destruct (chrome_runtime_sendMessage _ w) as [[?|?] ?]; eexists; reflexivity.
Qed.

Lemma redirectable_transform (url language articleName : jsstring) :
  redirectable new_URL url language articleName ->
  language <> [] /\ articleName <> []
  /\ UrlTransformer.result_of (UrlTransformer.transformToGrokipedia new_URL url)
     = Normal {| UrlTransformer.success := true;
                 UrlTransformer.grokipediaUrl :=
                   Some (js "https://grokipedia.com" ++ js "/page/" ++ articleName);
                 UrlTransformer.articleName := Some articleName;
                 UrlTransformer.language := Some language;
                 UrlTransformer.error := None |}.
Proof.
  intros (H1 & H2 & H3). repeat apply conj.
  - apply LanguageCode_nonempty. apply extractLanguage_Some in H2.
    now destruct H2 as (u & _ & _ & H).
  - apply extractArticleName_Some in H3. now destruct H3 as (u & _ & _ & H).
  - now rewrite (transform_success new_URL url language articleName H1 H2 H3).
Qed.

Lemma not_redirectable_transform (url : jsstring) :
  (forall language articleName, ~ redirectable new_URL url language articleName) ->
  UrlTransformer.isArticlePage new_URL url = Normal false
  \/ (UrlTransformer.isArticlePage new_URL url = Normal true
      /\ exists message,
           UrlTransformer.result_of (UrlTransformer.transformToGrokipedia new_URL url)
           = Normal (UrlTransformer.failure message)).
Proof.
  intros H.
  destruct (transform_cases new_URL url)
    as [H1 | [[H1 H2] | [(l & H1 & H2 & H3) | (l & id & H1 & H2 & H3)]]].
  - now left.
  - right. split; [exact H1|]. eexists.
    now rewrite (transform_no_language new_URL url H1 H2).
  - right. split; [exact H1|]. eexists.
    now rewrite (transform_no_article_name new_URL url l H1 H2 H3).
  - destruct (H l id). now repeat split.
Qed.

(** What [initialize] does on a page that a redirect is offered for. *)
Lemma initialize_redirectable (w w1 : World) (language articleName title : jsstring)
    (settings : UserSettings) :
  redirectable new_URL (window_location_href w) language articleName ->
  getSettings w = (Fulfilled settings, w1) ->
  UrlTransformer.decodeArticleName articleName = Normal title ->
  initialize w
  = if negb (enabled settings) then (Fulfilled tt, w1)
    else if negb ((length (enabledLanguages settings) =? 0)%nat
                  || includes (enabledLanguages settings) language)
    then (Fulfilled tt, w1)
    else if autoRedirect settings
    then (Fulfilled tt,
          performRedirect (js "https://grokipedia.com" ++ js "/page/" ++ articleName)
            (redirectDelay settings) w1)
    else if useNotifications settings
    then showNotification (js "WikiToGrok")
           (js "View " ++ [34] ++ title ++ [34] ++ js " on Grokipedia")
           (js "https://grokipedia.com" ++ js "/page/" ++ articleName) w1
    else (Fulfilled tt,
          showBanner title (js "https://grokipedia.com" ++ js "/page/" ++ articleName)
            settings w1).
Proof.
  intros Hpage Hsettings Htitle.
  destruct (redirectable_transform _ _ _ Hpage) as (Hl & Ha & Hresult).
  destruct Hpage as (H1 & _ & _).
  assert (T1 : truthy (Some language) = true) by now apply truthy_Some.
  assert (T2 : truthy (Some articleName) = true) by now apply truthy_Some.
  unfold ContentScript.initialize. rewrite H1, Hresult.
  unfold sync. unfold bind, ret, effect, throw.
  cbn [negb UrlTransformer.grokipediaUrl UrlTransformer.articleName
       UrlTransformer.language UrlTransformer.success].
  rewrite T1, T2. cbn [negb orb truthy app js map list_ascii_of_string].
  rewrite Hsettings.
  destruct (enabled settings); [|reflexivity]. cbn [negb].
  rewrite isLanguageEnabled_total.
  destruct ((length (enabledLanguages settings) =? 0)%nat
            || includes (enabledLanguages settings) language); [|reflexivity].
  cbn [negb]. rewrite Htitle. cbv beta iota.
  destruct (autoRedirect settings); [reflexivity|].
  destruct (useNotifications settings); reflexivity.
Qed.

(** X21.  [initialize] never rejects, and on a page that no redirect is
    offered for (no article page, or no language or article name to
    extract) it does nothing at all: it sends no message, shows nothing
    and leaves the address as it is. *)
Theorem initialize_does_nothing_on_other_pages (w : World) :
  (exists w', initialize w = (Fulfilled tt, w'))
  /\ ((forall language articleName,
         ~ redirectable new_URL (window_location_href w) language articleName) ->
      initialize w = (Fulfilled tt, w)).
Proof.
  assert (Hother :
            (forall language articleName,
                ~ redirectable new_URL (window_location_href w) language articleName) ->
            initialize w = (Fulfilled tt, w)).
  { intros H. apply not_redirectable_transform in H.
    unfold ContentScript.initialize.
    destruct H as [H1 | [H1 [message Hresult]]]; rewrite H1; [reflexivity|].
    rewrite Hresult. reflexivity. }
  split; [|exact Hother].
  destruct (transform_cases new_URL (window_location_href w))
    as [H1 | [[H1 H2] | [(l & H1 & H2 & H3) | (l & id & H1 & H2 & H3)]]].
  1-3: exists w; apply Hother; intros language articleName (H1' & H2' & H3'); congruence.
  destruct (client_getSettings_fulfils w) as (settings & w1 & Hsettings).
  destruct (decodeArticleName_total id) as (title & Htitle).
  rewrite (initialize_redirectable w w1 l id title settings
             (conj H1 (conj H2 H3)) Hsettings Htitle).
  destruct (negb (enabled settings)); [eexists; reflexivity|].
  destruct (negb _); [eexists; reflexivity|].
  destruct (autoRedirect settings); [eexists; reflexivity|].
  destruct (useNotifications settings); [|eexists; reflexivity].
  apply showNotification_fulfils.
Qed.

(** X22.  On a page that a redirect is offered for, [initialize] asks
    for the settings once and then takes at most one action: none when
    the extension is disabled or the language of the page is not
    enabled; otherwise a redirect to the Grokipedia page when
    [autoRedirect] is set, whatever [useNotifications] is; otherwise a
    notification request when [useNotifications] is set; otherwise the
    banner.  The redirect is immediate when the delay is not positive,
    and by a timer of that delay when it is. *)
Theorem initialize_takes_one_action (w : World) (language articleName : jsstring) :
  redirectable new_URL (window_location_href w) language articleName ->
  exists settings w1 title,
    getSettings w = (Fulfilled settings, w1)
    /\ UrlTransformer.decodeArticleName articleName = Normal title
    /\ let grokipediaUrl := js "https://grokipedia.com" ++ js "/page/" ++ articleName in
       (enabled settings = false -> initialize w = (Fulfilled tt, w1))
       /\ (UrlTransformer.isLanguageEnabled language (enabledLanguages settings)
           = Normal false ->
           initialize w = (Fulfilled tt, w1))
       /\ (enabled settings = true ->
           UrlTransformer.isLanguageEnabled language (enabledLanguages settings)
           = Normal true ->
           (autoRedirect settings = true ->
            initialize w
            = (Fulfilled tt, performRedirect grokipediaUrl (redirectDelay settings) w1))
           /\ (autoRedirect settings = false -> useNotifications settings = true ->
               initialize w
               = showNotification (js "WikiToGrok")
                   (js "View " ++ [34] ++ title ++ [34] ++ js " on Grokipedia")
                   grokipediaUrl w1)
           /\ (autoRedirect settings = false -> useNotifications settings = false ->
               initialize w = (Fulfilled tt, showBanner title grokipediaUrl settings w1)))
       /\ ((redirectDelay settings <= 0)%Z ->
           performRedirect grokipediaUrl (redirectDelay settings)
           = set_window_location_href grokipediaUrl)
       /\ ((0 < redirectDelay settings)%Z ->
           performRedirect grokipediaUrl (redirectDelay settings)
           = setTimeout (set_window_location_href grokipediaUrl) (redirectDelay settings)).
Proof.
  intros Hpage.
  destruct (client_getSettings_fulfils w) as (settings & w1 & Hsettings).
  destruct (decodeArticleName_total articleName) as (title & Htitle).
  exists settings, w1, title. split; [exact Hsettings|]. split; [exact Htitle|].
  intros grokipediaUrl.
  rewrite (initialize_redirectable w w1 language articleName title settings
             Hpage Hsettings Htitle).
  rewrite isLanguageEnabled_total. fold grokipediaUrl.
  split; [|split; [|split; [|split]]].
  - now intros ->.
  - intros [= ->]. now destruct (enabled settings).
  - intros -> [= ->]. cbn [negb]. repeat apply conj.
    + now intros ->.
    + now intros -> ->.
    + now intros -> ->.
  - intros Hdelay. unfold ContentScript.performRedirect.
    destruct (Z.gtb_spec (redirectDelay settings) 0); [lia | reflexivity].
  - intros Hdelay. unfold ContentScript.performRedirect.
    destruct (Z.gtb_spec (redirectDelay settings) 0); [reflexivity | lia].
Qed.

(** X23.  When a settings change turns [autoRedirect] on, the listener
    of the content script redirects an open page that a redirect is
    offered for, and it does so without looking at the list of enabled
    languages: a page in a language that is not enabled is redirected
    too, although [initialize] with the same settings does nothing on
    that page. *)
Theorem enabling_autoRedirect_redirects_every_language
    (w : World) (change : ContentScript.SettingsChange) (language articleName : jsstring) :
  redirectable new_URL (window_location_href w) language articleName ->
  enabled (ContentScript.newValue change) = true ->
  autoRedirect (ContentScript.newValue change) = true ->
  (forall oldSettings,
     ContentScript.oldValue change = Some oldSettings -> autoRedirect oldSettings = false) ->
  onChanged (Some change) (js "sync") w
  = (Fulfilled tt,
     performRedirect (js "https://grokipedia.com" ++ js "/page/" ++ articleName)
       (redirectDelay (ContentScript.newValue change)) w)
  /\ (UrlTransformer.isLanguageEnabled language
        (enabledLanguages (ContentScript.newValue change)) = Normal false ->
      forall w1,
        getSettings w = (Fulfilled (ContentScript.newValue change), w1) ->
        initialize w = (Fulfilled tt, w1)).
Proof.
  intros Hpage Henabled Hauto Hold.
  destruct (redirectable_transform _ _ _ Hpage) as (Hl & Ha & Hresult).
  split.
  - unfold ContentScript.onChanged.
    change (jsstring_eqb (js "sync") (js "sync")) with true. cbv iota.
    rewrite Henabled, Hauto. cbn [negb andb].
    assert (Hwas : match ContentScript.oldValue change with
                   | Some oldSettings => autoRedirect oldSettings
                   | None => false
                   end = false).
    { destruct (ContentScript.oldValue change) as [oldSettings|] eqn:E;
        [now apply Hold | reflexivity]. }
    rewrite Hwas. cbn [negb]. rewrite Hresult. reflexivity.
  - intros Hlanguage w1 Hsettings.
    destruct (decodeArticleName_total articleName) as (title & Htitle).
    rewrite (initialize_redirectable w w1 language articleName title _
               Hpage Hsettings Htitle).
    rewrite isLanguageEnabled_total in Hlanguage. injection Hlanguage as ->.
    now rewrite Henabled.
Qed.

End ContentFacts.

(* ===================================================================== *)
(** * The languages grid of the options page                              *)
(* ===================================================================== *)

(** A grid, from the code and the state of each of its checkboxes. *)
Local Abbreviation checkbox_of := (fun box : jsstring * bool =>
  {| Options.id := js "lang-" ++ fst box; Options.checked := snd box |}).

Lemma selected_of_grid (boxes : list (jsstring * bool)) :
  flat_map (fun checkbox =>
              if Options.checked checkbox
              then [replace (Options.id checkbox) (js "lang-") (js "")]
              else [])
           (map checkbox_of boxes)
  = map fst (filter snd boxes).
Proof.
  induction boxes as [|[code [|]] rest IH]; [reflexivity| |]; cbn [map flat_map filter snd fst].
  - cbn [Options.checked Options.id fst snd]. rewrite replace_prefix, IH. reflexivity.
  - cbn [Options.checked Options.id fst snd]. now rewrite IH.
Qed.

Lemma filter_length_le {A} (f : A -> bool) (l : list A) :
  (length (filter f l) <= length l)%nat.
Proof. induction l as [|x rest IH]; cbn; [lia|]. destruct (f x); cbn; lia. Qed.

Lemma filter_length_all {A} (f : A -> bool) (l : list A) :
  (length (filter f l) =? length l)%nat = forallb f l.
Proof.
  induction l as [|x rest IH]; [reflexivity|]. cbn [filter forallb length].
  pose proof (filter_length_le f rest) as Hle.
  destruct (f x); cbn [length andb].
  - exact IH.
  - apply Nat.eqb_neq. lia.
Qed.

Lemma filter_nil_existsb {A} (f : A -> bool) (l : list A) :
  existsb f l = false -> filter f l = [].
Proof.
  induction l as [|x rest IH]; [reflexivity|]. cbn. destruct (f x); [discriminate|].
  exact IH.
Qed.

Lemma existsb_filter_nonempty {A} (f : A -> bool) (l : list A) :
  existsb f l = true -> (length (filter f l) =? 0)%nat = false.
Proof.
  induction l as [|x rest IH]; [discriminate|]. cbn. destruct (f x); [reflexivity|].
  exact IH.
Qed.

Lemma includes_selected (boxes : list (jsstring * bool)) (code : jsstring) (state : bool) :
  NoDup (map fst boxes) -> In (code, state) boxes ->
  includes (map fst (filter snd boxes)) code = state.
Proof.
  intros Hdistinct Hin. destruct state.
  - apply includes_In. apply in_map_iff. exists (code, true). split; [reflexivity|].
    apply filter_In. now split.
  - apply includes_false. intros H. apply in_map_iff in H.
    destruct H as ([code' state'] & E & H). cbn in E. subst code'.
    apply filter_In in H. destruct H as [H Hstate]. cbn in Hstate. subst state'.
    clear - Hdistinct Hin H. induction boxes as [|[c s] rest IH]; [destruct Hin|].
    cbn in Hdistinct. inversion Hdistinct as [|? ? Hnot Hrest]; subst.
    destruct Hin as [[= -> ->] | Hin], H as [[= ] | H].
    + apply Hnot. apply in_map_iff. exists (code, true). now split.
    + subst. apply Hnot. apply in_map_iff. exists (code, false). now split.
    + now apply IH.
Qed.

Lemma supported_codes_NoDup : NoDup supported_codes.
Proof.
  unfold supported_codes. cbn.
  repeat (constructor; [cbn [In]; intuition discriminate|]). constructor.
Qed.

Lemma supported_codes_length : length supported_codes = length SUPPORTED_LANGUAGES.
Proof. apply length_map. Qed.

Lemma populateLanguages_eq (enabledLanguages : list jsstring) :
  Options.populateLanguages enabledLanguages
  = map checkbox_of
      (map (fun code =>
              (code, (length enabledLanguages =? 0)%nat || includes enabledLanguages code))
           supported_codes).
Proof.
  unfold Options.populateLanguages, supported_codes. now rewrite !map_map.
Qed.

Lemma languages_grid_boxes (grid : list Options.Checkbox) :
  is_languages_grid grid ->
  exists boxes,
    grid = map checkbox_of boxes /\ map fst boxes = supported_codes.
Proof.
  unfold is_languages_grid. generalize supported_codes. clear.
  induction grid as [|[id checked] rest IH]; intros [|code codes]; try discriminate.
  - intros _. now exists [].
  - cbn [map Options.id]. intros [= -> H]. destruct (IH codes H) as (boxes & -> & Hcodes).
    exists ((code, checked) :: boxes). cbn. now rewrite Hcodes.
Qed.

Lemma getSelectedLanguages_boxes (boxes : list (jsstring * bool)) :
  map fst boxes = supported_codes ->
  Options.getSelectedLanguages (map checkbox_of boxes)
  = if forallb snd boxes then [] else map fst (filter snd boxes).
Proof.
  intros Hcodes. unfold Options.getSelectedLanguages.
  rewrite selected_of_grid, length_map, <- supported_codes_length, <- Hcodes, length_map.
  now rewrite filter_length_all.
Qed.

Lemma existsb_checked (boxes : list (jsstring * bool)) :
  existsb Options.checked (map checkbox_of boxes) = existsb snd boxes.
Proof.
  induction boxes as [|[c s] rest IH]; [reflexivity|].
  cbn [existsb map Options.checked snd]. now rewrite IH.
Qed.

Lemma forallb_true_existsb {A} (f : A -> bool) (l : list A) :
  l <> [] -> forallb f l = true -> existsb f l = true.
Proof. destruct l as [|x rest]; [congruence|]. cbn. intros _. now destruct (f x). Qed.

(** The state that [isLanguageEnabled] gives a language for the list
    that [getSelectedLanguages] returns. *)
Lemma selected_language_enabled (boxes : list (jsstring * bool)) (code : jsstring)
    (state : bool) :
  map fst boxes = supported_codes -> In (code, state) boxes ->
  let selected := Options.getSelectedLanguages (map checkbox_of boxes) in
  (length selected =? 0)%nat || includes selected code
  = if existsb snd boxes then state else true.
Proof.
  intros Hcodes Hin selected. subst selected.
  rewrite (getSelectedLanguages_boxes boxes Hcodes).
  assert (Hdistinct : NoDup (map fst boxes))
    by (rewrite Hcodes; exact supported_codes_NoDup).
  destruct (forallb snd boxes) eqn:Hall.
  - cbn. rewrite forallb_forall in Hall. specialize (Hall _ Hin). cbn in Hall. subst.
    now destruct (existsb snd boxes).
  - destruct (existsb snd boxes) eqn:Hsome.
    + rewrite length_map, (existsb_filter_nonempty _ _ Hsome). cbn [orb].
      now apply includes_selected.
    + now rewrite (filter_nil_existsb _ _ Hsome).
Qed.

(** X24.  What is saved from a languages grid and shown again is the
    grid itself, provided that some box is checked: then
    [isLanguageEnabled] holds of the saved list for exactly the checked
    languages.  With no box checked, [getSelectedLanguages] returns the
    empty list, which enables every language, and the grid is shown with
    every box checked. *)
Theorem languages_grid_is_shown_as_saved (grid : list Options.Checkbox) :
  is_languages_grid grid ->
  let saved := Options.getSelectedLanguages grid in
  (existsb Options.checked grid = true ->
   Options.populateLanguages saved = grid
   /\ forall checkbox,
        In checkbox grid ->
        UrlTransformer.isLanguageEnabled
          (replace (Options.id checkbox) (js "lang-") (js "")) saved
        = Normal (Options.checked checkbox))
  /\ (existsb Options.checked grid = false ->
      saved = []
      /\ (forall language, UrlTransformer.isLanguageEnabled language saved = Normal true)
      /\ map Options.id (Options.populateLanguages saved) = map Options.id grid
      /\ forallb Options.checked (Options.populateLanguages saved) = true).
Proof.
  intros Hgrid saved.
  destruct (languages_grid_boxes grid Hgrid) as (boxes & -> & Hcodes).
  rewrite existsb_checked. subst saved. split.
  - intros Hsome. split.
    + rewrite populateLanguages_eq. f_equal. rewrite <- Hcodes, map_map.
      transitivity (map (fun box : jsstring * bool => box) boxes); [|apply map_id].
      apply map_ext_in. intros [code state] Hin. cbn [fst]. f_equal.
      rewrite (selected_language_enabled boxes code state Hcodes Hin). now rewrite Hsome.
    + intros checkbox Hin. apply in_map_iff in Hin. destruct Hin as ([code state] & <- & Hin).
      cbn [Options.id Options.checked fst snd]. rewrite replace_prefix.
      rewrite isLanguageEnabled_total.
      rewrite (selected_language_enabled boxes code state Hcodes Hin). now rewrite Hsome.
  - intros Hnone.
    assert (Hsaved : Options.getSelectedLanguages (map checkbox_of boxes) = []).
    { rewrite (getSelectedLanguages_boxes boxes Hcodes).
      destruct (forallb snd boxes); [reflexivity|].
      now rewrite (filter_nil_existsb _ _ Hnone). }
    rewrite Hsaved. repeat apply conj; try reflexivity.
    unfold is_languages_grid in Hgrid. rewrite Hgrid. reflexivity.
Qed.

Lemma filter_tagged {A} (f : A -> bool) (l : list A) :
  map fst (filter snd (map (fun x => (x, f x)) l)) = filter f l.
Proof.
  induction l as [|x rest IH]; [reflexivity|]. cbn [map filter snd].
  destruct (f x); cbn [map fst]; now rewrite IH.
Qed.

Lemma forallb_tagged {A} (f : A -> bool) (l : list A) :
  forallb snd (map (fun x => (x, f x)) l) = forallb f l.
Proof. induction l as [|x rest IH]; [reflexivity|]. cbn [map forallb snd]. now rewrite IH. Qed.

Lemma existsb_tagged {A} (f : A -> bool) (l : list A) :
  existsb snd (map (fun x => (x, f x)) l) = existsb f l.
Proof. induction l as [|x rest IH]; [reflexivity|]. cbn [map existsb snd]. now rewrite IH. Qed.

Lemma fst_tagged {A} (f : A -> bool) (l : list A) :
  map fst (map (fun x => (x, f x)) l) = l.
Proof. rewrite map_map. cbn [fst]. apply map_id. Qed.

(** X25.  A list of languages that is shown in the grid and saved from
    it comes back as its supported languages in the order of the table,
    closed under the rule that the empty list means every language: it
    comes back empty when it was empty or had every supported language.
    A language that the table does not have is dropped, and a list of
    such languages only comes back empty, which enables every
    language. *)
Theorem enabled_languages_are_saved_as_shown (enabledLanguages : list jsstring) :
  let shown code := (length enabledLanguages =? 0)%nat || includes enabledLanguages code in
  let saved := Options.getSelectedLanguages (Options.populateLanguages enabledLanguages) in
  saved = (if forallb shown supported_codes then [] else filter shown supported_codes)
  /\ (forall language, In language saved -> In language supported_codes)
  /\ (existsb shown supported_codes = true ->
      forall language,
        In language supported_codes ->
        UrlTransformer.isLanguageEnabled language saved
        = UrlTransformer.isLanguageEnabled language enabledLanguages)
  /\ (existsb shown supported_codes = false ->
      enabledLanguages <> []
      /\ saved = []
      /\ forall language, UrlTransformer.isLanguageEnabled language saved = Normal true).
Proof.
  intros shown saved. subst saved. rewrite populateLanguages_eq.
  change (fun code : jsstring =>
            (code, (length enabledLanguages =? 0)%nat || includes enabledLanguages code))
    with (fun code : jsstring => (code, shown code)).
  set (boxes := map (fun code => (code, shown code)) supported_codes).
  set (saved := Options.getSelectedLanguages (map checkbox_of boxes)).
  assert (Hcodes : map fst boxes = supported_codes) by apply fst_tagged.
  assert (Hfilter : map fst (filter snd boxes) = filter shown supported_codes)
    by apply filter_tagged.
  assert (Hall : forallb snd boxes = forallb shown supported_codes)
    by apply forallb_tagged.
  assert (Hsome : existsb snd boxes = existsb shown supported_codes)
    by apply existsb_tagged.
  assert (Hsaved : saved
                   = if forallb shown supported_codes then []
                     else filter shown supported_codes).
  { subst saved. rewrite (getSelectedLanguages_boxes boxes Hcodes).
    now rewrite Hall, Hfilter. }
  clearbody saved boxes.
  split; [exact Hsaved|]. split; [|split].
  - intros language. rewrite Hsaved.
    destruct (forallb shown supported_codes); [intros []|].
    rewrite filter_In. tauto.
  - intros Hshown language Hin. rewrite !isLanguageEnabled_total. f_equal.
    rewrite Hsaved.
    assert (Hlanguage : includes (filter shown supported_codes) language = shown language).
    { destruct (shown language) eqn:E.
      - apply includes_In, filter_In. now split.
      - apply includes_false. rewrite filter_In. intros [_ H]. congruence. }
    destruct (forallb shown supported_codes) eqn:Hevery.
    + rewrite forallb_forall in Hevery. symmetry. exact (Hevery _ Hin).
    + rewrite (existsb_filter_nonempty _ _ Hshown), Hlanguage. reflexivity.
  - intros Hnone. repeat apply conj.
    + intros ->.
      assert (H : existsb shown supported_codes = true).
      { apply existsb_exists. exists (js "en"). split; [now left | reflexivity]. }
      congruence.
    + rewrite Hsaved. destruct (forallb shown supported_codes); [reflexivity|].
      now apply filter_nil_existsb.
    + intros language. rewrite Hsaved.
      destruct (forallb shown supported_codes); [reflexivity|].
      now rewrite (filter_nil_existsb _ _ Hnone).
Qed.

(** ** The buttons of the languages *)

Lemma set_checked_grid (value : bool) (grid : list Options.Checkbox) :
  is_languages_grid grid ->
  map (Options.set_checked value) grid
  = map (fun code => {| Options.id := js "lang-" ++ code; Options.checked := value |})
        supported_codes.
Proof.
  intros Hgrid.
  transitivity (map (fun i => {| Options.id := i; Options.checked := value |})
                    (map Options.id grid)).
  - rewrite map_map. reflexivity.
  - rewrite Hgrid, map_map. reflexivity.
Qed.

Section ButtonFacts.

Variable World : Type.
Variable chrome_runtime_sendMessage : Message -> async World (option MessageResponse).
Variable console_error : jsstring -> exception -> World -> World.
Variable showToast : jsstring -> jsstring -> World -> World.

Local Abbreviation selectAllBtn_click :=
  (Options.selectAllBtn_click World chrome_runtime_sendMessage console_error showToast).
Local Abbreviation selectNoneBtn_click :=
  (Options.selectNoneBtn_click World chrome_runtime_sendMessage console_error showToast).

(** X26 (the click listeners of the select-all and select-none buttons,
    updateSettings, getSelectedLanguages, populateLanguages): when the
    save succeeds, each button leaves the grid as [populateLanguages]
    shows the list that it saved, the empty list for every language and
    the list of English alone, and that list is what
    [getSelectedLanguages] reads from the grid again.  When the save is
    rejected, the listener logs the error and rejects with the same
    reason, without a toast and with the boxes already changed: after
    select-all every box is checked, and after select-none no box is
    checked, English neither, which reads as every language. *)
Theorem language_buttons_show_what_they_save (grid : list Options.Checkbox) (w : World) :
  is_languages_grid grid ->
  let every_language := UPDATE_SETTINGS (Storage.only_enabledLanguages []) in
  let english_only := UPDATE_SETTINGS (Storage.only_enabledLanguages [js "en"]) in
  (forall response w',
     chrome_runtime_sendMessage every_language w = (Fulfilled response, w') ->
     selectAllBtn_click (grid, w)
     = (Fulfilled tt,
        (Options.populateLanguages [],
         showToast (js "All languages enabled") (js "success") w')))
  /\ (forall response w',
        chrome_runtime_sendMessage english_only w = (Fulfilled response, w') ->
        selectNoneBtn_click (grid, w)
        = (Fulfilled tt,
           (Options.populateLanguages [js "en"],
            showToast (js "Only English enabled") (js "success") w')))
  /\ Options.getSelectedLanguages (Options.populateLanguages []) = []
  /\ Options.getSelectedLanguages (Options.populateLanguages [js "en"]) = [js "en"]
  /\ (forall reason w',
        chrome_runtime_sendMessage every_language w = (Rejected reason, w') ->
        selectAllBtn_click (grid, w)
        = (Rejected reason,
           (Options.populateLanguages [],
            console_error (js "Failed to update settings:") reason w')))
  /\ (forall reason w',
        chrome_runtime_sendMessage english_only w = (Rejected reason, w') ->
        exists unchecked,
          selectNoneBtn_click (grid, w)
          = (Rejected reason,
             (unchecked, console_error (js "Failed to update settings:") reason w'))
          /\ map Options.id unchecked = map Options.id grid
          /\ existsb Options.checked unchecked = false
          /\ Options.getSelectedLanguages unchecked = []).
Proof.
  intros Hgrid every_language english_only.
  pose proof (set_checked_grid true grid Hgrid) as Hall.
  pose proof (set_checked_grid false grid Hgrid) as Hnone.
  repeat apply conj.
  - intros response w' E.
    unfold Options.selectAllBtn_click, Options.updateSettings, Options.on_grid,
      Options.on_platform, try_catch, bind, effect, ret, throw.
    cbn [fst snd]. fold every_language. rewrite E, Hall. reflexivity.
  - intros response w' E.
    unfold Options.selectNoneBtn_click, Options.updateSettings, Options.on_grid,
      Options.on_platform, try_catch, bind, effect, ret, throw.
    cbn [fst snd]. fold english_only. rewrite E, Hnone. reflexivity.
  - reflexivity.
  - reflexivity.
  - intros reason w' E.
    unfold Options.selectAllBtn_click, Options.updateSettings, Options.on_grid,
      Options.on_platform, try_catch, bind, effect, ret, throw.
    cbn [fst snd]. fold every_language. rewrite E, Hall. reflexivity.
  - intros reason w' E. eexists. split; [|split; [|split]].
    + unfold Options.selectNoneBtn_click, Options.updateSettings, Options.on_grid,
        Options.on_platform, try_catch, bind, effect, ret, throw.
      cbn [fst snd]. fold english_only. rewrite E, Hnone. reflexivity.
    + rewrite Hgrid. reflexivity.
    + reflexivity.
    + reflexivity.
Qed.

End ButtonFacts.

(* ===================================================================== *)
(** * The popup                                                           *)
(* ===================================================================== *)

(** ** The status indicator *)

Lemma classList_remove_In (classes tokens : list jsstring) (c : jsstring) :
  In c (Popup.classList_remove classes tokens) <-> In c classes /\ ~ In c tokens.
Proof.
  unfold Popup.classList_remove. rewrite filter_In, negb_true_iff.
  split; intros [H1 H2]; split; auto.
  - intros H. apply includes_In in H. congruence.
  - apply includes_false. exact H2.
Qed.

Lemma classList_add_In (classes : list jsstring) (token c : jsstring) :
  In c (Popup.classList_add classes token) <-> In c classes \/ c = token.
Proof.
  unfold Popup.classList_add. destruct (includes classes token) eqn:E.
  - split; [auto|]. intros [H| ->]; [exact H|]. now apply includes_In.
  - rewrite in_app_iff. cbn [In]. intuition congruence.
Qed.

Lemma classList_remove_twice (classes tokens : list jsstring) :
  Popup.classList_remove (Popup.classList_remove classes tokens) tokens
  = Popup.classList_remove classes tokens.
Proof.
  unfold Popup.classList_remove. induction classes as [|x l IH]; [reflexivity|].
  cbn [filter]. destruct (includes tokens x) eqn:E; cbn [negb]; [exact IH|].
  cbn [filter]. rewrite E. cbn [negb]. now rewrite IH.
Qed.

Lemma classList_remove_add (classes tokens : list jsstring) (token : jsstring) :
  In token tokens ->
  Popup.classList_remove
    (Popup.classList_add (Popup.classList_remove classes tokens) token) tokens
  = Popup.classList_remove classes tokens.
Proof.
  intros Htoken. unfold Popup.classList_add.
  destruct (includes (Popup.classList_remove classes tokens) token);
    [apply classList_remove_twice|].
  unfold Popup.classList_remove at 1. rewrite filter_app. cbn [filter].
  apply includes_In in Htoken. rewrite Htoken. cbn [negb]. rewrite app_nil_r.
  apply classList_remove_twice.
Qed.

(** X27 (updateStatusIndicator): the status indicator shows the latest
    settings only: updating it for some settings and then for others
    leaves it as updating it for the others alone does.  It has the class
    [disabled] exactly when the extension is disabled, the class
    [auto-redirect] exactly when the extension is enabled with
    auto-redirect, so never both, and it keeps every other class and
    adds none. *)
Theorem status_indicator_shows_the_latest_settings
    (earlier settings : UserSettings) (statusIndicator : Popup.Status) :
  let shown := Popup.updateStatusIndicator settings statusIndicator in
  Popup.updateStatusIndicator settings
    (Popup.updateStatusIndicator earlier statusIndicator) = shown
  /\ (In (js "disabled") (Popup.classList shown) <-> enabled settings = false)
  /\ (In (js "auto-redirect") (Popup.classList shown)
      <-> enabled settings = true /\ autoRedirect settings = true)
  /\ (forall c, c <> js "disabled" -> c <> js "auto-redirect" ->
      (In c (Popup.classList shown) <-> In c (Popup.classList statusIndicator))).
Proof.
  cbv zeta.
  assert (Hd : In (js "disabled") [js "auto-redirect"; js "disabled"])
    by (right; left; reflexivity).
  assert (Ha : In (js "auto-redirect") [js "auto-redirect"; js "disabled"])
    by (left; reflexivity).
  assert (Hneq : js "auto-redirect" <> js "disabled") by discriminate.
  assert (Hstale :
    Popup.classList_remove
      (Popup.classList (Popup.updateStatusIndicator earlier statusIndicator))
      [js "auto-redirect"; js "disabled"]
    = Popup.classList_remove (Popup.classList statusIndicator)
        [js "auto-redirect"; js "disabled"]).
  { unfold Popup.updateStatusIndicator.
    destruct (enabled earlier), (autoRedirect earlier), (useNotifications earlier);
      cbn [negb Popup.classList];
      first [ apply classList_remove_add; assumption | apply classList_remove_twice ]. }
  split; [|split; [|split]].
  - unfold Popup.updateStatusIndicator at 1 3. rewrite Hstale. reflexivity.
  - unfold Popup.updateStatusIndicator.
    destruct (enabled settings), (autoRedirect settings), (useNotifications settings);
      cbn [negb Popup.classList];
      rewrite ?classList_add_In, classList_remove_In; cbn [In];
      intuition congruence.
  - unfold Popup.updateStatusIndicator.
    destruct (enabled settings), (autoRedirect settings), (useNotifications settings);
      cbn [negb Popup.classList];
      rewrite ?classList_add_In, classList_remove_In; cbn [In];
      intuition congruence.
  - intros c Hc1 Hc2. unfold Popup.updateStatusIndicator.
    destruct (enabled settings), (autoRedirect settings), (useNotifications settings);
      cbn [negb Popup.classList];
      rewrite ?classList_add_In, classList_remove_In; cbn [In];
      intuition congruence.
Qed.

(** ** The listeners of the toggles *)

Section PopupFacts.

Variable World : Type.
Variable chrome_storage_sync_get : jsstring -> async World (Object.object Partial.t).
Variable chrome_storage_sync_set : Object.object Partial.t -> async World unit.
Variable chrome_tabs_update : option Z -> option jsstring -> async World unit.
Variable worker_console_error : jsstring -> exception -> World -> World.
Variable chrome_notifications_create :
  jsstring -> ServiceWorker.NotificationOptions -> async World unit.
Variable chrome_runtime_getURL : jsstring -> jsstring.
Variable chrome_storage_local_set : Object.object jsstring -> async World unit.
Variable Date_now : World -> N.
Variable chrome_runtime_sendMessage : Message -> async World (option MessageResponse).
Variable console_error : jsstring -> exception -> World -> World.
Variable stored : World -> option Partial.t.

Local Abbreviation handleMessage :=
  (ServiceWorker.handleMessage World chrome_storage_sync_get chrome_storage_sync_set
     chrome_tabs_update worker_console_error chrome_notifications_create
     chrome_runtime_getURL chrome_storage_local_set Date_now).
Local Abbreviation getSettings :=
  (Popup.getSettings World chrome_runtime_sendMessage console_error).
Local Abbreviation updateSettings :=
  (Popup.updateSettings World chrome_runtime_sendMessage console_error).

Hypothesis storage_works :
  reliable chrome_storage_sync_get chrome_storage_sync_set stored.
Hypothesis worker_answers : answered_by chrome_runtime_sendMessage handleMessage.

Lemma popup_getSettings (w : World) :
  exists w', getSettings w = (Fulfilled (in_force (stored w)), w')
             /\ stored w' = stored w.
Proof.
  destruct (getSettings_reliable World chrome_storage_sync_get chrome_storage_sync_set
              worker_console_error stored storage_works w) as (w' & E & Hw').
  destruct (handleMessage_GET_SETTINGS World chrome_storage_sync_get
              chrome_storage_sync_set chrome_tabs_update worker_console_error
              chrome_notifications_create chrome_runtime_getURL chrome_storage_local_set
              Date_now GET_SETTINGS w eq_refl)
    as (settings & w'' & E' & Hhandle).
  rewrite E in E'. injection E' as <- <-.
  apply worker_answers in Hhandle.
  exists w'. split; [|exact Hw'].
  unfold Popup.getSettings, try_catch, bind. rewrite Hhandle.
  reflexivity.
Qed.

Lemma popup_updateSettings (settings : Partial.t) (w : World) :
  exists w', updateSettings settings w = (Fulfilled tt, w')
             /\ in_force (stored w') = spread (in_force (stored w)) (Some settings).
Proof.
  destruct (saveSettings_reliable World chrome_storage_sync_get chrome_storage_sync_set
              worker_console_error stored storage_works settings w) as (w' & E & Hw').
  pose proof (handleMessage_UPDATE_SETTINGS World chrome_storage_sync_get
                chrome_storage_sync_set chrome_tabs_update worker_console_error
                chrome_notifications_create chrome_runtime_getURL chrome_storage_local_set
                Date_now (UPDATE_SETTINGS settings) w eq_refl) as Hhandle.
  change (ServiceWorker.settings_of (UPDATE_SETTINGS settings))
    with settings in Hhandle.
  rewrite E in Hhandle. apply worker_answers in Hhandle.
  exists w'. split.
  - unfold Popup.updateSettings, try_catch, bind. rewrite Hhandle. reflexivity.
  - rewrite Hw'. unfold in_force at 1. apply spread_as_Partial.
Qed.

End PopupFacts.

(** X28 (the change listener of the enabled toggle, getSettings,
    updateSettings, handleMessage): with a storage that works and a
    service worker that answers, the listener saves the state of the
    toggle as the setting [enabled]; when the toggle is off and the
    auto-redirect toggle is checked, it unchecks that one and saves
    [autoRedirect] as false too, so that enabling the extension again
    does not bring auto-redirect back.  It saves nothing else, disables
    the auto-redirect toggle exactly when the extension is disabled, and
    shows the status of the saved settings. *)
Theorem disabling_in_the_popup_turns_auto_redirect_off
    (World : Type)
    (chrome_storage_sync_get : jsstring -> async World (Object.object Partial.t))
    (chrome_storage_sync_set : Object.object Partial.t -> async World unit)
    (chrome_tabs_update : option Z -> option jsstring -> async World unit)
    (worker_console_error : jsstring -> exception -> World -> World)
    (chrome_notifications_create :
       jsstring -> ServiceWorker.NotificationOptions -> async World unit)
    (chrome_runtime_getURL : jsstring -> jsstring)
    (chrome_storage_local_set : Object.object jsstring -> async World unit)
    (Date_now : World -> N)
    (chrome_runtime_sendMessage : Message -> async World (option MessageResponse))
    (console_error : jsstring -> exception -> World -> World)
    (stored : World -> option Partial.t)
    (elements : Popup.Elements) (w : World) :
  reliable chrome_storage_sync_get chrome_storage_sync_set stored ->
  answered_by chrome_runtime_sendMessage
    (ServiceWorker.handleMessage World chrome_storage_sync_get chrome_storage_sync_set
       chrome_tabs_update worker_console_error chrome_notifications_create
       chrome_runtime_getURL chrome_storage_local_set Date_now) ->
  let checked := Popup.enabledToggle_checked elements in
  let turned_off := negb checked && Popup.autoRedirectToggle_checked elements in
  let before := in_force (stored w) in
  exists elements' w',
    Popup.enabledToggle_change World chrome_runtime_sendMessage console_error
      elements w = (Fulfilled elements', w')
    /\ in_force (stored w')
       = {| autoRedirect := if turned_off then false else autoRedirect before;
            useNotifications := useNotifications before;
            redirectDelay := redirectDelay before;
            enabledLanguages := enabledLanguages before;
            enabled := checked |}
    /\ elements'
       = {| Popup.enabledToggle_checked := checked;
            Popup.autoRedirectToggle_checked :=
              if turned_off then false
              else Popup.autoRedirectToggle_checked elements;
            Popup.autoRedirectToggle_disabled := negb checked;
            Popup.statusIndicator :=
              Popup.updateStatusIndicator (in_force (stored w'))
                (Popup.statusIndicator elements) |}.
Proof.
  intros storage_works worker_answers checked turned_off before.
  pose proof (popup_updateSettings World chrome_storage_sync_get chrome_storage_sync_set
                chrome_tabs_update worker_console_error chrome_notifications_create
                chrome_runtime_getURL chrome_storage_local_set Date_now
                chrome_runtime_sendMessage console_error stored storage_works
                worker_answers) as Hupdate.
  pose proof (popup_getSettings World chrome_storage_sync_get chrome_storage_sync_set
                chrome_tabs_update worker_console_error chrome_notifications_create
                chrome_runtime_getURL chrome_storage_local_set Date_now
                chrome_runtime_sendMessage console_error stored storage_works
                worker_answers) as Hget.
  destruct (Hupdate (Popup.only_enabled checked) w) as (w1 & E1 & S1).
  unfold Popup.enabledToggle_change. fold checked.
  unfold bind at 1. rewrite E1. cbv beta iota zeta.
  cbn [Popup.enabledToggle_checked Popup.autoRedirectToggle_checked
       Popup.autoRedirectToggle_disabled Popup.statusIndicator].
  fold turned_off. destruct turned_off eqn:Hoff.
  - destruct (Hupdate (Popup.only_autoRedirect false) w1) as (w2 & E2 & S2).
    destruct (Hget w2) as (w3 & E3 & S3).
    unfold bind. rewrite E2. cbv beta iota. unfold ret at 1. cbv beta iota.
    rewrite E3. cbv beta iota. unfold ret.
    eexists _, w3. split; [reflexivity|].
    rewrite S3, S2, S1. fold before. split; reflexivity.
  - destruct (Hget w1) as (w3 & E3 & S3).
    unfold bind. unfold ret at 1. cbv beta iota. rewrite E3. cbv beta iota. unfold ret.
    eexists _, w3. split; [reflexivity|].
    rewrite S3, S1. fold before. split; [reflexivity|].
    destruct elements; reflexivity.
Qed.

(* ===================================================================== *)
(** * The platforms in memory                                             *)
(* ===================================================================== *)

(** The mock of the tests and the browser in memory work as the
    properties above require of a platform. *)

Lemma Object_get_set {A} (o : Object.object A) (key : jsstring) (value : A) :
  Object.get (Object.set o key value) key = Some value.
Proof.
  induction o as [|[k v] o IH]; cbn [Object.set Object.get].
  - now rewrite jsstring_eqb_refl.
  - destruct (jsstring_eqb k key) eqn:E; cbn [Object.get]; rewrite E; [reflexivity | exact IH].
Qed.

Lemma Object_get_set_other {A} (o : Object.object A) (key other : jsstring) (value : A) :
  other <> key -> Object.get (Object.set o key value) other = Object.get o other.
Proof.
  intros Hother. induction o as [|[k v] o IH]; cbn [Object.set Object.get].
  - apply not_eq_sym, jsstring_eqb_neq in Hother. now rewrite Hother.
  - destruct (jsstring_eqb k key) eqn:E; cbn [Object.get].
    + apply jsstring_eqb_eq in E. subst k.
      apply not_eq_sym, jsstring_eqb_neq in Hother. now rewrite Hother.
    + now rewrite IH.
Qed.

Lemma Object_get_delete {A} (o : Object.object A) (key : jsstring) :
  Object.get (Object.delete o key) key = None.
Proof.
  unfold Object.delete. induction o as [|[k v] o IH]; [reflexivity|].
  cbn [filter fst]. destruct (jsstring_eqb k key) eqn:E; cbn [negb]; [exact IH|].
  cbn [Object.get]. now rewrite E.
Qed.

Lemma Object_get_delete_other {A} (o : Object.object A) (key other : jsstring) :
  other <> key -> Object.get (Object.delete o key) other = Object.get o other.
Proof.
  intros Hother. unfold Object.delete. induction o as [|[k v] o IH]; [reflexivity|].
  cbn [filter fst Object.get]. destruct (jsstring_eqb k key) eqn:E; cbn [negb Object.get].
  - apply jsstring_eqb_eq in E. subst k.
    apply not_eq_sym, jsstring_eqb_neq in Hother. now rewrite Hother.
  - now rewrite IH.
Qed.

Lemma Object_get_singleton {A} (o : Object.object A) (key : jsstring) :
  Object.get match Object.get o key with
             | Some value => [(key, value)]
             | None => []
             end key
  = Object.get o key.
Proof.
  destruct (Object.get o key); [|reflexivity].
  cbn [Object.get]. now rewrite jsstring_eqb_refl.
Qed.

Lemma MockChrome_reliable :
  reliable MockChrome.get MockChrome.set MockChrome.stored.
Proof.
  split.
  - intros w. eexists; exists w. split; [reflexivity|].
    split; [apply Object_get_singleton | reflexivity].
  - intros value w. eexists. split; [reflexivity|].
    unfold MockChrome.stored. cbn [MockChrome.mockStorage fold_left fst snd].
    apply Object_get_set.
Qed.

Lemma Browser_reliable :
  reliable Browser.chrome_storage_sync_get Browser.chrome_storage_sync_set Browser.stored.
Proof.
  split.
  - intros w. eexists; exists w. split; [reflexivity|].
    split; [apply Object_get_singleton | reflexivity].
  - intros value w. eexists. split; [reflexivity|].
    unfold Browser.stored. cbn [Browser.sync fold_left fst snd]. apply Object_get_set.
Qed.

Lemma distinct_NoDup (ids : list N) : NoDup ids -> Browser.distinct ids = true.
Proof.
  induction 1 as [|i rest Hi _ IH]; [reflexivity|].
  cbn [Browser.distinct]. rewrite IH, andb_true_r. apply negb_true_iff.
  destruct (existsb (N.eqb i) rest) eqn:E; [|reflexivity].
  apply existsb_exists in E as (j & Hj & E). apply N.eqb_eq in E. now subst j.
Qed.

Lemma Browser_rules_are_updated :
  rules_are_updated Browser.chrome_declarativeNetRequest_updateDynamicRules
    Browser.console_log Browser.rules.
Proof.
  split.
  - intros options w kept added Hdistinct.
    unfold Browser.chrome_declarativeNetRequest_updateDynamicRules.
    fold kept added. rewrite (distinct_NoDup _ Hdistinct).
    eexists. split; reflexivity.
  - reflexivity.
Qed.

Lemma Browser_notifications_work :
  notifications_work Browser.chrome_notifications_create
    Browser.chrome_notifications_clear Browser.chrome_storage_local_get
    Browser.chrome_storage_local_set Browser.chrome_storage_local_remove
    Browser.chrome_tabs_create Browser.kept Browser.tabs.
Proof.
  split.
  - intros id options w. eexists. repeat apply conj; reflexivity.
  - intros id w. split; reflexivity.
  - intros key w. eexists. split; [reflexivity|]. apply Object_get_singleton.
  - intros key value w. eexists. split; [reflexivity|].
    unfold Browser.kept. cbn [Browser.local Browser.tabs fold_left fst snd].
    repeat apply conj.
    + apply Object_get_set.
    + intros other Hother. now apply Object_get_set_other.
    + reflexivity.
  - intros key w. eexists. split; [reflexivity|].
    unfold Browser.kept. cbn [Browser.local Browser.tabs].
    repeat apply conj.
    + apply Object_get_delete.
    + intros other Hother. now apply Object_get_delete_other.
    + reflexivity.
  - intros url w. eexists. repeat apply conj; reflexivity.
Qed.

Lemma Browser_answers :
  answered_by Browser.chrome_runtime_sendMessage Browser.handleMessage.
Proof.
  intros message w response w' E. unfold Browser.chrome_runtime_sendMessage.
  now rewrite E.
Qed.

(* ===================================================================== *)
(** * Concrete runs of the settings, the rules and the pages              *)
(* ===================================================================== *)


Lemma saveSettings_then_getSettings_witness :
  reliable MockChrome.get MockChrome.set MockChrome.stored
  /\ exists w1 w2,
       Storage.saveSettings _ MockChrome.get MockChrome.set MockChrome.error
         Sample.autoRedirect_on MockChrome.resetMockStorage
       = (Fulfilled tt, w1)
       /\ Storage.getSettings _ MockChrome.get MockChrome.error w1
          = (Fulfilled Sample.auto_settings, w2).
Proof.
  split; [exact MockChrome_reliable|].
  destruct (saveSettings_then_getSettings _ _ _ MockChrome.error _ MockChrome_reliable
              Sample.autoRedirect_on MockChrome.resetMockStorage)
    as (current & w0 & w1 & w2 & H0 & H1 & _ & H3 & _).
  vm_compute in H0. injection H0 as <- _.
  exists w1, w2. split; [exact H1 | exact H3].
Defined.

Lemma resetSettings_then_getSettings_witness :
  reliable MockChrome.get MockChrome.set MockChrome.stored
  /\ exists w1 w2,
       Storage.resetSettings _ MockChrome.set MockChrome.error Sample.saved_storage
       = (Fulfilled tt, w1)
       /\ Storage.getSettings _ MockChrome.get MockChrome.error w1
          = (Fulfilled DEFAULT_SETTINGS, w2).
Proof.
  split; [exact MockChrome_reliable|].
  destruct (resetSettings_then_getSettings _ _ _ MockChrome.error _ MockChrome_reliable
              Sample.saved_storage) as (w1 & w2 & H1 & _ & H2).
  exists w1, w2. split; [exact H1 | exact H2].
Defined.

Lemma toggleSetting_flips_one_setting_witness :
  reliable MockChrome.get MockChrome.set MockChrome.stored
  /\ exists w1 w3,
       Storage.toggleSetting _ MockChrome.get MockChrome.set MockChrome.error
         Storage.key_autoRedirect MockChrome.resetMockStorage
       = (Fulfilled true, w1)
       /\ Storage.toggleSetting _ MockChrome.get MockChrome.set MockChrome.error
            Storage.key_autoRedirect w1
          = (Fulfilled false, w3).
Proof.
  split; [exact MockChrome_reliable|].
  destruct (toggleSetting_flips_one_setting _ _ _ MockChrome.error _ MockChrome_reliable
              Storage.key_autoRedirect MockChrome.resetMockStorage)
    as (current & w0 & after & w1 & w2 & w3 & w4 & H0 & H1 & _ & _ & _ & _ & _ & H2 & _).
  vm_compute in H0. injection H0 as <- _.
  exists w1, w3. split; [exact H1 | exact H2].
Defined.

Lemma addLanguage_appends_once_witness :
  reliable MockChrome.get MockChrome.set MockChrome.stored
  /\ exists after w1 w2,
       Storage.addLanguage _ MockChrome.get MockChrome.set MockChrome.error
         (js "de") MockChrome.resetMockStorage
       = (Fulfilled tt, w1)
       /\ Storage.getSettings _ MockChrome.get MockChrome.error w1 = (Fulfilled after, w2)
       /\ enabledLanguages after = [js "en"; js "de"].
Proof.
  split; [exact MockChrome_reliable|].
  destruct (addLanguage_appends_once _ _ _ MockChrome.error _ MockChrome_reliable
              (js "de") MockChrome.resetMockStorage)
    as (current & w0 & after & w1 & w2 & w3 & w4 & H0 & H1 & H2 & H3 & _).
  vm_compute in H0. injection H0 as <- _.
  exists after, w1, w2. split; [exact H1|]. split; [exact H2 | exact H3].
Defined.

Lemma removeLanguage_removes_every_occurrence_witness :
  reliable MockChrome.get MockChrome.set MockChrome.stored
  /\ exists after w1 w2,
       Storage.removeLanguage _ MockChrome.get MockChrome.set MockChrome.error
         (js "en") MockChrome.resetMockStorage
       = (Fulfilled tt, w1)
       /\ Storage.getSettings _ MockChrome.get MockChrome.error w1 = (Fulfilled after, w2)
       /\ enabledLanguages after = [].
Proof.
  split; [exact MockChrome_reliable|].
  destruct (removeLanguage_removes_every_occurrence _ _ _ MockChrome.error _
              MockChrome_reliable (js "en") MockChrome.resetMockStorage)
    as (current & w0 & after & w1 & w2 & H0 & H1 & H2 & H3 & _).
  vm_compute in H0. injection H0 as <- _.
  exists after, w1, w2. split; [exact H1|]. split; [exact H2 | exact H3].
Defined.

Lemma empty_list_enables_every_language_witness :
  reliable MockChrome.get MockChrome.set MockChrome.stored
  /\ exists after w1 w2,
       Storage.removeLanguage _ MockChrome.get MockChrome.set MockChrome.error
         (js "en") MockChrome.resetMockStorage
       = (Fulfilled tt, w1)
       /\ Storage.getSettings _ MockChrome.get MockChrome.error w1 = (Fulfilled after, w2)
       /\ forall l, isLanguageEnabled l (enabledLanguages after) = Normal true.
Proof.
  split; [exact MockChrome_reliable|].
  destruct (empty_list_enables_every_language _ _ _ MockChrome.error _
              MockChrome_reliable (js "en") MockChrome.resetMockStorage)
    as (current & w0 & H0 & _ & (after & w1 & w2 & H1 & H2 & H3) & _).
  vm_compute in H0. injection H0 as <- _.
  exists after, w1, w2. split; [exact H1|]. split; [exact H2|].
  apply H3. intros l [<- | []]. reflexivity.
Defined.

Lemma updateRedirectRules_installs_exactly_its_rules_witness :
  rules_are_updated Browser.chrome_declarativeNetRequest_updateDynamicRules
    Browser.console_log Browser.rules
  /\ NoDup (map ServiceWorker.id (Browser.rules Sample.fresh_browser))
  /\ exists w',
       ServiceWorker.updateRedirectRules _
         Browser.chrome_declarativeNetRequest_updateDynamicRules Browser.console_log
         Browser.console_error Sample.auto_settings Sample.fresh_browser
       = (Fulfilled tt, w')
       /\ Browser.rules w' = ServiceWorker.createRedirectRules.
Proof.
  assert (H : NoDup (map ServiceWorker.id (Browser.rules Sample.fresh_browser)))
    by constructor.
  split; [exact Browser_rules_are_updated|]. split; [exact H|].
  destruct (updateRedirectRules_installs_exactly_its_rules _ _ _ Browser.console_error _
              Browser_rules_are_updated Sample.auto_settings Sample.fresh_browser H)
    as (w' & w'' & H1 & H2 & _).
  exists w'. split; [exact H1 | exact H2].
Defined.

Lemma rules_follow_the_saved_settings_witness :
  rules_are_updated Browser.chrome_declarativeNetRequest_updateDynamicRules
    Browser.console_log Browser.rules
  /\ NoDup (map ServiceWorker.id (Browser.rules Sample.fresh_browser))
  /\ Browser.rules
       (Storage.listener _
          (ServiceWorker.on_settings_change _
             Browser.chrome_declarativeNetRequest_updateDynamicRules Browser.console_log
             Browser.console_error)
          Sample.first_save (js "sync") Sample.fresh_browser)
     = ServiceWorker.createRedirectRules.
Proof.
  assert (H : NoDup (map ServiceWorker.id (Browser.rules Sample.fresh_browser)))
    by constructor.
  split; [exact Browser_rules_are_updated|]. split; [exact H|].
  exact (rules_follow_the_saved_settings _ _ _ Browser.console_error _
           Browser_rules_are_updated None Sample.autoRedirect_on Sample.first_save
           Sample.fresh_browser H eq_refl).
Defined.

Lemma article_page_is_redirectable :
  redirectable URL_constructor (Page.window_location_href Sample.article_page)
    (js "en") (js "Albert_Einstein").
Proof. repeat split; vm_compute; reflexivity. Qed.

Lemma initialize_takes_one_action_witness :
  redirectable URL_constructor (Page.window_location_href Sample.article_page)
    (js "en") (js "Albert_Einstein")
  /\ exists w1,
       ContentScript.initialize _ URL_constructor Page.chrome_runtime_sendMessage
         Page.console_error Page.window_location_href Page.set_window_location_href
         Page.setTimeout Page.showBanner Sample.article_page
       = (Fulfilled tt,
          Page.showBanner (js "Albert Einstein")
            (js "https://grokipedia.com/page/Albert_Einstein") DEFAULT_SETTINGS w1).
Proof.
  split; [exact article_page_is_redirectable|].
  destruct (initialize_takes_one_action _ URL_constructor Page.chrome_runtime_sendMessage
              Page.console_error Page.window_location_href Page.set_window_location_href
              Page.setTimeout Page.showBanner Sample.article_page
              (js "en") (js "Albert_Einstein") article_page_is_redirectable)
    as (settings & w1 & title & H0 & H1 & _ & _ & H2 & _).
  vm_compute in H0. injection H0 as <- <-.
  vm_compute in H1. injection H1 as <-.
  eexists. exact (proj2 (proj2 (H2 eq_refl eq_refl)) eq_refl eq_refl).
Defined.

Lemma enabling_autoRedirect_redirects_every_language_witness :
  redirectable URL_constructor (Page.window_location_href Sample.article_page)
    (js "en") (js "Albert_Einstein")
  /\ isLanguageEnabled (js "en")
       (enabledLanguages (ContentScript.newValue Sample.german_auto_redirect))
     = Normal false
  /\ ContentScript.onChanged _ URL_constructor Page.window_location_href
       Page.set_window_location_href Page.setTimeout Page.removeBanner
       (Some Sample.german_auto_redirect) (js "sync") Sample.article_page
     = (Fulfilled tt,
        Page.set_window_location_href (js "https://grokipedia.com/page/Albert_Einstein")
          Sample.article_page).
Proof.
  split; [exact article_page_is_redirectable|]. split; [reflexivity|].
  refine (proj1 (enabling_autoRedirect_redirects_every_language _ URL_constructor
                   Page.chrome_runtime_sendMessage Page.console_error
                   Page.window_location_href Page.set_window_location_href
                   Page.setTimeout Page.showBanner Page.removeBanner Sample.article_page
                   Sample.german_auto_redirect (js "en") (js "Albert_Einstein")
                   article_page_is_redirectable eq_refl eq_refl _)).
  intros oldSettings [= <-]. reflexivity.
Defined.

Lemma english_and_german_is_a_grid : is_languages_grid Sample.english_and_german.
Proof. reflexivity. Qed.

Lemma languages_grid_is_shown_as_saved_witness :
  is_languages_grid Sample.english_and_german
  /\ Options.getSelectedLanguages Sample.english_and_german = [js "en"; js "de"]
  /\ Options.populateLanguages (Options.getSelectedLanguages Sample.english_and_german)
     = Sample.english_and_german.
Proof.
  split; [exact english_and_german_is_a_grid|]. split; [reflexivity|].
  exact (proj1 (proj1 (languages_grid_is_shown_as_saved Sample.english_and_german
                         english_and_german_is_a_grid) eq_refl)).
Defined.


Lemma notification_opens_its_address_once_witness :
  notifications_work Browser.chrome_notifications_create
    Browser.chrome_notifications_clear Browser.chrome_storage_local_get
    Browser.chrome_storage_local_set Browser.chrome_storage_local_remove
    Browser.chrome_tabs_create Browser.kept Browser.tabs
  /\ js "https://grokipedia.com/page/Albert_Einstein" <> []
  /\ exists shown clicked,
       ServiceWorker.showNotification _ Browser.chrome_notifications_create
         Browser.chrome_runtime_getURL Browser.chrome_storage_local_set Browser.Date_now
         (Some (js "WikiToGrok")) (Some (js "View on Grokipedia"))
         (Some (js "https://grokipedia.com/page/Albert_Einstein")) Sample.fresh_browser
       = (Fulfilled tt, shown)
       /\ ServiceWorker.onClicked _ Browser.chrome_notifications_clear
            Browser.chrome_storage_local_get Browser.chrome_storage_local_remove
            Browser.chrome_tabs_create (js "wikitogrok-1700000000000") shown
          = (Fulfilled tt, clicked)
       /\ Browser.tabs clicked = [js "https://grokipedia.com/page/Albert_Einstein"].
Proof.
  assert (H : js "https://grokipedia.com/page/Albert_Einstein" <> []) by discriminate.
  split; [exact Browser_notifications_work|]. split; [exact H|].
  destruct (notification_opens_its_address_once _ _ _ Browser.chrome_runtime_getURL _ _ _ _
              Browser.Date_now _ _ (Some (js "WikiToGrok")) (Some (js "View on Grokipedia"))
              (js "https://grokipedia.com/page/Albert_Einstein") Sample.fresh_browser
              Browser_notifications_work H)
    as ((shown & H1 & _ & (clicked & H2 & H3 & _) & _) & _).
  exists shown, clicked. split; [exact H1|]. split; [exact H2 | exact H3].
Defined.

Lemma disabling_in_the_popup_turns_auto_redirect_off_witness :
  reliable Browser.chrome_storage_sync_get Browser.chrome_storage_sync_set Browser.stored
  /\ answered_by Browser.chrome_runtime_sendMessage Browser.handleMessage
  /\ exists elements' w',
       Popup.enabledToggle_change _ Browser.chrome_runtime_sendMessage
         Browser.console_error Sample.switched_off Sample.fresh_browser
       = (Fulfilled elements', w')
       /\ in_force (Browser.stored w')
          = {| autoRedirect := false; useNotifications := false; redirectDelay := 0;
               enabledLanguages := [js "en"]; enabled := false |}
       /\ Popup.autoRedirectToggle_checked elements' = false
       /\ Popup.textContent (Popup.statusIndicator elements')
          = js "Extension disabled".
Proof.
  split; [exact Browser_reliable|]. split; [exact Browser_answers|].
  destruct (disabling_in_the_popup_turns_auto_redirect_off _ _ _ Browser.chrome_tabs_update
              Browser.console_error Browser.chrome_notifications_create
              Browser.chrome_runtime_getURL Browser.chrome_storage_local_set
              Browser.Date_now _ Browser.console_error _ Sample.switched_off
              Sample.fresh_browser Browser_reliable Browser_answers)
    as (elements' & w' & H1 & H2 & H3).
  exists elements', w'. split; [exact H1|]. split; [exact H2|].
  rewrite H3, H2. split; reflexivity.
Defined.

Lemma service_worker_starts_with_the_rules_of_the_settings_witness :
  rules_are_updated Browser.chrome_declarativeNetRequest_updateDynamicRules
    Browser.console_log Browser.rules
  /\ (forall key w,
        Browser.rules (snd (Browser.chrome_storage_sync_get key w)) = Browser.rules w)
  /\ (forall message error w,
        Browser.rules (Browser.console_error message error w) = Browser.rules w)
  /\ NoDup (map ServiceWorker.id (Browser.rules Sample.fresh_browser))
  /\ exists w',
       ServiceWorker.initialize _ Browser.chrome_storage_sync_get
         Browser.chrome_declarativeNetRequest_updateDynamicRules Browser.console_log
         Browser.console_error Sample.fresh_browser
       = (Fulfilled tt, w')
       /\ Browser.rules w' = [].
Proof.
  assert (H1 : forall key w,
            Browser.rules (snd (Browser.chrome_storage_sync_get key w)) = Browser.rules w)
    by reflexivity.
  assert (H2 : forall message error w,
            Browser.rules (Browser.console_error message error w) = Browser.rules w)
    by reflexivity.
  assert (H3 : NoDup (map ServiceWorker.id (Browser.rules Sample.fresh_browser)))
    by constructor.
  split; [exact Browser_rules_are_updated|].
  split; [exact H1|]. split; [exact H2|]. split; [exact H3|].
  destruct (service_worker_starts_with_the_rules_of_the_settings _ _ _ _ _ _
              Sample.fresh_browser Browser_rules_are_updated H1 H2 H3)
    as (settings & w1 & w' & E1 & E2 & E3 & _).
  vm_compute in E1. injection E1 as <- _.
  exists w'. split; [exact E2 | exact E3].
Defined.

Lemma language_buttons_show_what_they_save_witness :
  is_languages_grid Sample.english_and_german
  /\ exists w',
       Options.selectNoneBtn_click _ Browser.chrome_runtime_sendMessage
         Browser.console_error Browser.showToast
         (Sample.english_and_german, Sample.fresh_browser)
       = (Fulfilled tt, (Options.populateLanguages [js "en"], w'))
       /\ in_force (Browser.stored w') = DEFAULT_SETTINGS.
Proof.
  split; [exact english_and_german_is_a_grid|].
  eexists. split.
  - refine (proj1 (proj2 (language_buttons_show_what_they_save _
                            Browser.chrome_runtime_sendMessage Browser.console_error
                            Browser.showToast Sample.english_and_german
                            Sample.fresh_browser english_and_german_is_a_grid))
                  _ _ _).
    reflexivity.
  - reflexivity.
Defined.

(* ===================================================================== *)
(** * The unit tests of [tests/unit/storage.test.ts]                      *)
(* ===================================================================== *)

(** Each test starts from [resetMockStorage()]. *)

Example getSettings_returns_default_settings_when_no_settings_are_stored :
  MockChrome.run MockChrome.getSettings = Fulfilled DEFAULT_SETTINGS.
Proof. reflexivity. Qed.

Example getSettings_merges_stored_settings_with_defaults :
  exists settings,
    MockChrome.run
      (MockChrome.set [(js "userSettings", Sample.autoRedirect_on)] ;;;
       MockChrome.getSettings)
    = Fulfilled settings
    /\ autoRedirect settings = true
    /\ enabled settings = enabled DEFAULT_SETTINGS
    /\ useNotifications settings = useNotifications DEFAULT_SETTINGS.
Proof. eexists. split; [reflexivity|]. repeat split. Qed.

Example getSettings_returns_defaults_on_storage_error :
  fst (Storage.getSettings _ MockChrome.rejected MockChrome.error
         MockChrome.resetMockStorage)
  = Fulfilled DEFAULT_SETTINGS.
Proof. reflexivity. Qed.

Example saveSettings_saves_partial_settings_merged_with_existing :
  exists userSettings,
    MockChrome.run
      (MockChrome.saveSettings Sample.autoRedirect_on ;;;
       result <~ MockChrome.get (js "userSettings") ;;
       ret (Object.get result (js "userSettings")))
    = Fulfilled (Some userSettings)
    /\ Partial.autoRedirect userSettings = Some true
    /\ Partial.enabled userSettings = Some (enabled DEFAULT_SETTINGS).
Proof. eexists. split; [reflexivity|]. split; reflexivity. Qed.

Example saveSettings_updates_only_specified_settings :
  exists userSettings,
    MockChrome.run
      (MockChrome.saveSettings
         {| Partial.autoRedirect := Some false; Partial.useNotifications := None;
            Partial.redirectDelay := None; Partial.enabledLanguages := None;
            Partial.enabled := Some true |} ;;;
       MockChrome.saveSettings Sample.autoRedirect_on ;;;
       result <~ MockChrome.get (js "userSettings") ;;
       ret (Object.get result (js "userSettings")))
    = Fulfilled (Some userSettings)
    /\ Partial.autoRedirect userSettings = Some true
    /\ Partial.enabled userSettings = Some true.
Proof. eexists. split; [reflexivity|]. split; reflexivity. Qed.

Example saveSettings_throws_on_storage_error :
  fst (Storage.saveSettings _ MockChrome.get MockChrome.rejected MockChrome.error
         Sample.autoRedirect_on MockChrome.resetMockStorage)
  = Rejected (Error (js "Storage error")).
Proof. reflexivity. Qed.

Example resetSettings_resets_all_settings_to_defaults :
  MockChrome.run
    (MockChrome.saveSettings
       {| Partial.autoRedirect := Some true; Partial.useNotifications := None;
          Partial.redirectDelay := Some 5000%Z; Partial.enabledLanguages := None;
          Partial.enabled := None |} ;;;
     MockChrome.resetSettings ;;;
     MockChrome.getSettings)
  = Fulfilled DEFAULT_SETTINGS.
Proof. reflexivity. Qed.

Example toggleSetting_toggles_autoRedirect_from_false_to_true :
  exists settings,
    MockChrome.run
      (newValue <~ MockChrome.toggleSetting Storage.key_autoRedirect ;;
       settings <~ MockChrome.getSettings ;;
       ret (newValue, settings))
    = Fulfilled (true, settings)
    /\ autoRedirect settings = true.
Proof. eexists. split; reflexivity. Qed.

Example toggleSetting_toggles_autoRedirect_from_true_to_false :
  MockChrome.run
    (MockChrome.saveSettings Sample.autoRedirect_on ;;;
     MockChrome.toggleSetting Storage.key_autoRedirect)
  = Fulfilled false.
Proof. reflexivity. Qed.

Example toggleSetting_toggles_enabled_setting :
  MockChrome.run
    (MockChrome.saveSettings (Storage.computed_property Storage.key_enabled true) ;;;
     MockChrome.toggleSetting Storage.key_enabled)
  = Fulfilled false.
Proof. reflexivity. Qed.

Example addLanguage_adds_a_new_language_to_enabled_list :
  exists settings,
    MockChrome.run
      (MockChrome.saveSettings (Storage.only_enabledLanguages [js "en"]) ;;;
       MockChrome.addLanguage (js "de") ;;;
       MockChrome.getSettings)
    = Fulfilled settings
    /\ In (js "en") (enabledLanguages settings)
    /\ In (js "de") (enabledLanguages settings).
Proof. eexists. split; [reflexivity|]. cbn. tauto. Qed.

Example addLanguage_does_not_duplicate_existing_language :
  exists settings,
    MockChrome.run
      (MockChrome.saveSettings (Storage.only_enabledLanguages [js "en"; js "de"]) ;;;
       MockChrome.addLanguage (js "en") ;;;
       MockChrome.getSettings)
    = Fulfilled settings
    /\ length (filter (fun l => jsstring_eqb l (js "en")) (enabledLanguages settings))
       = 1%nat.
Proof. eexists. split; reflexivity. Qed.

Example removeLanguage_removes_a_language_from_enabled_list :
  exists settings,
    MockChrome.run
      (MockChrome.saveSettings
         (Storage.only_enabledLanguages [js "en"; js "de"; js "fr"]) ;;;
       MockChrome.removeLanguage (js "de") ;;;
       MockChrome.getSettings)
    = Fulfilled settings
    /\ In (js "en") (enabledLanguages settings)
    /\ In (js "fr") (enabledLanguages settings)
    /\ ~ In (js "de") (enabledLanguages settings).
Proof.
  eexists. split; [reflexivity|]. cbn.
  repeat split; try tauto. intros [H | [H | []]]; discriminate H.
Qed.

Example removeLanguage_does_nothing_if_language_not_in_list :
  exists settings,
    MockChrome.run
      (MockChrome.saveSettings (Storage.only_enabledLanguages [js "en"; js "de"]) ;;;
       MockChrome.removeLanguage (js "fr") ;;;
       MockChrome.getSettings)
    = Fulfilled settings
    /\ enabledLanguages settings = [js "en"; js "de"].
Proof. eexists. split; reflexivity. Qed.

Example enableAllLanguages_clears_the_enabled_languages_list :
  exists settings,
    MockChrome.run
      (MockChrome.saveSettings (Storage.only_enabledLanguages [js "en"; js "de"]) ;;;
       MockChrome.enableAllLanguages ;;;
       MockChrome.getSettings)
    = Fulfilled settings
    /\ enabledLanguages settings = [].
Proof. eexists. split; reflexivity. Qed.
